(** * EasyBuild easyblock for TensorFlow: a shallow embedding

    Source: [easybuild/easyblocks/t/tensorflow.py], class [EB_TensorFlow].

    The easyblock is sequential orchestration: it queries the framework
    (installed software, search path, file system), builds an environment
    mapping, a list of substitution rules and a command line, and hands these
    to framework helpers.  The embedding keeps that shape:

    - Python values that may be [None] are [option string];
    - the dictionary [config_env_vars] is a [gmap string (option string)];
    - the process environment is a [gmap string string] threaded through a
      state-and-exception monad, together with the chronological trace of the
      calls made to effectful framework helpers;
    - framework helpers whose code is not part of the easyblock
      ([get_software_root], [which], [glob.glob], ...) are fields of a record
      of oracles. *)

From Stdlib Require Import Ascii String List Bool Arith Lia.
From stdpp Require Import base option list gmap strings sorting.

Import ListNotations.

(** ** Python values *)

(** A value that is either [None] or a [str]. *)
Abbreviation pyval := (option string).

(** [bool(x)] for such a value: [None] and the empty string are false. *)
Definition truthy (x : pyval) : bool :=
  match x with
  | None => false
  | Some EmptyString => false
  | Some (String _ _) => true
  end.

(** [a or b] *)
Definition py_or (a b : pyval) : pyval := if truthy a then a else b.

(** ['%s' % x] *)
Definition py_str (x : pyval) : string :=
  match x with
  | None => "None"
  | Some s => s
  end.

(** [('0', '1')[bool(x)]] *)
Definition flag01 (b : bool) : string := if b then "1" else "0".

(** Characters that a string literal cannot hold directly. *)
Definition dquote : string := String "034"%char EmptyString.
Definition newline : string := String "010"%char EmptyString.

(** [sep.join(l)] *)
Fixpoint str_join (sep : string) (l : list string) : string :=
  match l with
  | [] => ""
  | [x] => x
  | x :: rest => x +:+ sep +:+ str_join sep rest
  end.

(** [s.startswith(p)] *)
Fixpoint startswith (p s : string) : bool :=
  match p, s with
  | EmptyString, _ => true
  | String _ _, EmptyString => false
  | String a p', String b s' => if Ascii.eqb a b then startswith p' s' else false
  end.

(** [s.endswith('/')] *)
Fixpoint ends_with_slash (s : string) : bool :=
  match s with
  | EmptyString => false
  | String c EmptyString => Ascii.eqb c "/"
  | String _ s' => ends_with_slash s'
  end.

(** ** [os.path] (posixpath) *)

(** One round of the loop of [posixpath.join]. *)
Definition join2 (path b : string) : string :=
  if startswith "/" b then b
  else if String.eqb path "" || ends_with_slash path then path +:+ b
  else path +:+ "/" +:+ b.

(** [os.path.join(a, *p)] *)
Definition os_path_join (a : string) (p : list string) : string :=
  fold_left join2 p a.

(** [p[:p.rfind('/') + 1]] *)
Fixpoint head_to_last_slash (p : string) : string :=
  match p with
  | EmptyString => ""
  | String c p' =>
      match head_to_last_slash p' with
      | EmptyString => if Ascii.eqb c "/" then "/" else ""
      | h => String c h
      end
  end.

(** [s == '/' * len(s)] *)
Fixpoint all_slashes (s : string) : bool :=
  match s with
  | EmptyString => true
  | String c s' => Ascii.eqb c "/" && all_slashes s'
  end.

(** [s.rstrip('/')] *)
Fixpoint rstrip_slash (s : string) : string :=
  match s with
  | EmptyString => ""
  | String c s' =>
      match rstrip_slash s' with
      | EmptyString => if Ascii.eqb c "/" then "" else String c ""
      | r => String c r
      end
  end.

(** [os.path.dirname(p)] *)
Definition os_path_dirname (p : string) : string :=
  let head := head_to_last_slash p in
  if negb (String.eqb head "") && negb (all_slashes head)
  then rstrip_slash head
  else head.

(** [s.rfind(c)], with [None] for -1. *)
Fixpoint rfind (c : ascii) (s : string) : option nat :=
  match s with
  | EmptyString => None
  | String a s' =>
      match rfind c s' with
      | Some i => Some (S i)
      | None => if Ascii.eqb a c then Some 0 else None
      end
  end.

(** [p[:n]] and [p[n:]] *)
Fixpoint str_take (n : nat) (s : string) : string :=
  match n, s with
  | S n', String c s' => String c (str_take n' s')
  | _, _ => ""
  end.

Fixpoint str_drop (n : nat) (s : string) : string :=
  match n, s with
  | S n', String _ s' => str_drop n' s'
  | _, _ => s
  end.

(** The [while] loop of [genericpath._splitext]: is there a character other
    than the dot among [p[from:upto]]? *)
Fixpoint has_non_dot (p : string) (from upto : nat) : bool :=
  match upto with
  | 0 => false
  | S upto' =>
      match p with
      | EmptyString => false
      | String c p' =>
          match from with
          | S from' => has_non_dot p' from' upto'
          | 0 => negb (Ascii.eqb c ".") || has_non_dot p' 0 upto'
          end
      end
  end.

(** [os.path.splitext(p)] *)
Definition os_path_splitext (p : string) : string * string :=
  let filename_index := match rfind "/" p with Some i => S i | None => 0 end in
  match rfind "." p with
  | Some dot_index =>
      if (filename_index <=? dot_index) && has_non_dot p filename_index dot_index
      then (str_take dot_index p, str_drop dot_index p)
      else (p, "")
  | None => (p, "")
  end.

(** ** Exceptions, effects and the step monad *)

(** Arguments handed to a format string that is not expanded by the easyblock
    itself (error messages, log lines). *)
Inductive pyobj : Type :=
  | PyVal (v : pyval)
  | PyList (l : list string).

(** [EasyBuildError(fmt, *args)] is the fatal error of the framework;
    [PythonError] is the built-in exception raised when [None] reaches an
    operation that needs a string ([os.path.join], [str.join], an assignment
    to [os.environ]). *)
Inductive exn : Type :=
  | EasyBuildError (fmt : string) (args : list pyobj)
  | PythonError.

(** A substitution rule [(pattern, replacement)]. *)
Abbreviation rule := (string * string)%type.

(** Calls to effectful helpers, with their arguments. *)
Inductive event : Type :=
  | EvMkdtemp (suffix : string)
  | EvWriteFile (path txt : string)
  | EvAdjustPermissions (path : string) (perms : N)
  | EvSetvar (key : string) (val : pyval)
  | EvLogInfo (fmt : string) (args : list pyobj)
  | EvPreparePython
  | EvApplyRegexSubstitutions (path : string) (regex_subs : list rule)
  | EvRunCmd (cmd : string)
  | EvMkdir (path : string) (parents : bool).

(** [stat.S_IXUSR] *)
Definition S_IXUSR : N := 64.

(** What a step can change: the process environment, the attributes of the
    easyblock set by [prepare_python], and the number of temporary directories
    created so far. *)
Record state : Type := mkState {
  st_environ : gmap string string;
  st_python_cmd : pyval;
  st_pylibdir : string;
  st_tmp : nat
}.

Inductive result (A : Type) : Type :=
  | Ok (a : A)
  | Raise (e : exn).
Arguments Ok {A} a.
Arguments Raise {A} e.

(** The outcome of running a step: it returns or raises, and in both cases
    leaves a state and the calls it made to effectful helpers, oldest first. *)
Record outcome (A : Type) : Type := mkOutcome {
  res : result A;
  final : state;
  trace : list event
}.
Arguments mkOutcome {A} res final trace.
Arguments res {A} o.
Arguments final {A} o.
Arguments trace {A} o.

Definition M (A : Type) : Type := state -> outcome A.

Definition ret {A} (a : A) : M A := fun s => mkOutcome (Ok a) s [].

Definition bind {A B} (m : M A) (k : A -> M B) : M B :=
  fun s =>
    match m s with
    | mkOutcome (Ok a) s1 t1 =>
        match k a s1 with
        | mkOutcome r s2 t2 => mkOutcome r s2 (t1 ++ t2)
        end
    | mkOutcome (Raise e) s1 t1 => mkOutcome (Raise e) s1 t1
    end.

Definition raise {A} (e : exn) : M A := fun s => mkOutcome (Raise e) s [].

Definition get_state : M state := fun s => mkOutcome (Ok s) s [].

Definition put_state (s : state) : M unit := fun _ => mkOutcome (Ok tt) s [].

Definition emit (e : event) : M unit := fun s => mkOutcome (Ok tt) s [e].

Declare Scope step_scope.
Delimit Scope step_scope with step.
Notation "x <- m ;; k" := (bind m (fun x => k))
  (at level 100, m at next level, right associativity) : step_scope.
Notation "m ;; k" := (bind m (fun _ => k))
  (at level 100, right associativity) : step_scope.
Local Open Scope step_scope.

(** [for x in l: body(x)] *)
Fixpoint for_each {A} (l : list A) (body : A -> M unit) : M unit :=
  match l with
  | [] => ret tt
  | x :: rest => body x ;; for_each rest body
  end.

(** ** The easyblock instance and the framework *)

(** [self.cfg]: the options read by this easyblock. *)
Record easyconfig : Type := {
  cuda_compute_capabilities : list string;
  with_mkl_dnn : bool;
  runtest : bool;
  buildopts : string
}.

(** [self.toolchain]: [comp_family()] and the [options] dictionary. *)
Record toolchain_t : Type := {
  comp_family : string;
  options : gmap string bool
}.

(** The attributes of [self] that the steps only read. *)
Record easyblock : Type := {
  cfg : easyconfig;
  toolchain : toolchain_t;
  installdir : string;
  builddir : string;
  start_dir : string;
  version : string
}.

(** Helpers of the framework and of the Python library whose code is not in
    the easyblock.  They are taken as given functions: what is installed and
    what the file system holds does not change while a step runs, whereas the
    search of [which] and the outcome of a command may depend on the
    environment the step has set up.  [re_sub_regex pattern repl text] stands
    for the effect on a text of a rule whose pattern uses regular-expression
    syntax or whose replacement has escapes. *)
Record framework : Type := {
  INTELCOMP : string;
  get_software_root : string -> pyval;
  get_software_version : string -> pyval;
  which : gmap string string -> pyval -> pyval;
  glob_glob : string -> list string;
  os_path_exists : string -> bool;
  os_walk : string -> list (string * list string * list string);
  resolve_path : string -> string;
  mkdtemp : nat -> string -> string;
  run_cmd_ok : gmap string string -> string -> bool;
  re_sub_regex : string -> string -> string -> string;
  pick_python : exn + (string * string)
}.

(** ** Effectful helpers *)

Section Easyblock.

Variable fw : framework.
Variable self : easyblock.

(** [os.getenv(name, default)] *)
Definition os_getenv (name : string) (default : pyval) : M pyval :=
  s <- get_state ;;
  ret (match st_environ s !! name with Some v => Some v | None => default end).

(** The state after [os.environ[key] = val] for a string [val]. *)
Definition setvar_state (key val : string) (s : state) : state :=
  mkState (<[key := val]> (st_environ s)) (st_python_cmd s) (st_pylibdir s) (st_tmp s).

(** [env.setvar(key, val)] does [os.environ[key] = val].  The call is
    recorded; with a string the environment seen by the rest of the step holds
    the new value, whereas with [None] the assignment raises [TypeError] and
    the environment is left as it was. *)
Definition env_setvar (key : string) (val : pyval) : M unit :=
  emit (EvSetvar key val) ;;
  match val with
  | Some v => s <- get_state ;; put_state (setvar_state key v s)
  | None => raise PythonError
  end.

(** [tempfile.mkdtemp(suffix=...)] *)
Definition tempfile_mkdtemp (suffix : string) : M string :=
  s <- get_state ;;
  emit (EvMkdtemp suffix) ;;
  put_state (mkState (st_environ s) (st_python_cmd s) (st_pylibdir s) (S (st_tmp s))) ;;
  ret (mkdtemp fw (st_tmp s) suffix).

(** [which(cmd)], searched in the current environment.  The search joins each
    directory of the search path with [cmd], so that [which(None)] raises
    in [os.path.join] and gives no path. *)
Definition do_which (cmd : pyval) : M pyval :=
  match cmd with
  | Some _ => s <- get_state ;; ret (which fw (st_environ s) cmd)
  | None => raise PythonError
  end.

(** The text of the error raised by [run_cmd] for a non-zero exit status. *)
Definition cmd_failed : string := "cmd %s exited with non-zero exit code".

(** [run_cmd(cmd, log_all=True, simple=True)]: runs the command and turns a
    non-zero exit status into the fatal error. *)
Definition run_cmd (cmd : string) : M unit :=
  s <- get_state ;;
  emit (EvRunCmd cmd) ;;
  if run_cmd_ok fw (st_environ s) cmd then ret tt
  else raise (EasyBuildError cmd_failed [PyVal (Some cmd)]).

(** [self.prepare_python()] of the parent class: picks the interpreter and the
    library directory, or raises. *)
Definition prepare_python : M unit :=
  emit EvPreparePython ;;
  match pick_python fw with
  | inl e => raise e
  | inr (python, libdir) =>
      s <- get_state ;;
      put_state (mkState (st_environ s) (Some python) libdir (st_tmp s))
  end.

Definition write_file (path txt : string) : M unit := emit (EvWriteFile path txt).
Definition adjust_permissions (path : string) (perms : N) : M unit :=
  emit (EvAdjustPermissions path perms).
Definition mkdir (path : string) (parents : bool) : M unit := emit (EvMkdir path parents).
Definition apply_regex_substitutions (path : string) (regex_subs : list rule) : M unit :=
  emit (EvApplyRegexSubstitutions path regex_subs).
Definition log_info (fmt : string) (args : list pyobj) : M unit := emit (EvLogInfo fmt args).

(** ** [configure_step] *)

(** [INTEL_COMPILER_WRAPPER % {...}] *)
Definition INTEL_COMPILER_WRAPPER (compiler_path intel_license_file cpath : pyval) : string :=
  "#!/bin/bash" +:+ newline +:+
  "export INTEL_LICENSE_FILE='" +:+ py_str intel_license_file +:+ "'" +:+ newline +:+
  "export CPATH='" +:+ py_str cpath +:+ "'" +:+ newline +:+
  py_str compiler_path +:+ " " +:+ dquote +:+ "$@" +:+ dquote +:+ newline.

(** [d.update(d2)] *)
Definition dict_update (d d2 : gmap string pyval) : gmap string pyval := d2 ∪ d.

(** [os.getenv(name)] in the state [s]. *)
Definition getenv_in (s : state) (name : string) : pyval := st_environ s !! name.

(** The dictionary literal [config_env_vars] starts from, as built in the
    state [s] reached after [prepare_python]. *)
Definition base_env_vars (s : state) : gmap string pyval :=
  let cuda_root := get_software_root fw "CUDA" in
  let jemalloc_root := get_software_root fw "jemalloc" in
  let opencl_root := get_software_root fw "OpenCL" in
  let use_mpi := default false (options (toolchain self) !! "usempi") in
  list_to_map [
    ("CC_OPT_FLAGS", getenv_in s "CXXFLAGS");
    ("MPI_HOME", Some "");
    ("PYTHON_BIN_PATH", st_python_cmd s);
    ("PYTHON_LIB_PATH", Some (os_path_join (installdir self) [st_pylibdir s]));
    ("TF_CUDA_CLANG", Some "0");
    ("TF_ENABLE_XLA", Some "0");
    ("TF_NEED_CUDA", Some (flag01 (truthy cuda_root)));
    ("TF_NEED_GCP", Some "0");
    ("TF_NEED_GDR", Some "0");
    ("TF_NEED_HDFS", Some "0");
    ("TF_NEED_JEMALLOC", Some (flag01 (truthy jemalloc_root)));
    ("TF_NEED_MPI", Some (flag01 use_mpi));
    ("TF_NEED_OPENCL", Some (flag01 (truthy opencl_root)));
    ("TF_NEED_S3", Some "0");
    ("TF_NEED_VERBS", Some "0")
  ].

(** The dictionary of the update made [if cuda_root], where [host_compiler]
    is what [which(os.getenv('CC'))] returned. *)
Definition cuda_env_vars_with (host_compiler : pyval) : gmap string pyval :=
  list_to_map [
    ("CUDA_TOOLKIT_PATH", get_software_root fw "CUDA");
    ("GCC_HOST_COMPILER_PATH", host_compiler);
    ("TF_CUDA_COMPUTE_CAPABILITIES",
       Some (str_join "," (cuda_compute_capabilities (cfg self))));
    ("TF_CUDA_VERSION", get_software_version fw "CUDA")
  ].

(** The dictionary of the update made [if cudnn_root]. *)
Definition cudnn_env_vars : gmap string pyval :=
  list_to_map [
    ("CUDNN_INSTALL_PATH", get_software_root fw "cuDNN");
    ("TF_CUDNN_VERSION", get_software_version fw "cuDNN")
  ].

(** The construction of [config_env_vars]: the literal, then the two
    conditional updates.  The only call that can raise is
    [which(os.getenv('CC'))], made when the CUDA root resolves: with [CC] not
    set it raises, and no dictionary is handed to the loop. *)
Definition make_config_env_vars : M (gmap string pyval) :=
  let cuda_root := get_software_root fw "CUDA" in
  let cudnn_root := get_software_root fw "cuDNN" in
  s <- get_state ;;
  let d := base_env_vars s in
  d <- (if truthy cuda_root then
          cc <- os_getenv "CC" None ;;
          host_compiler <- do_which cc ;;
          ret (dict_update d (cuda_env_vars_with host_compiler))
        else ret d) ;;
  ret (if truthy cudnn_root then dict_update d cudnn_env_vars else d).

(** What [which(os.getenv('CC'))] returns in the state [s] when [CC] is set;
    when it is not, the call raises and there is no path: [None] stands for
    it. *)
Definition host_compiler_path (s : state) : pyval :=
  match getenv_in s "CC" with
  | Some cc => which fw (st_environ s) (Some cc)
  | None => None
  end.

(** The dictionary of the update made [if cuda_root] in the state [s]. *)
Definition cuda_env_vars (s : state) : gmap string pyval :=
  cuda_env_vars_with (host_compiler_path s).

(** The dictionary [make_config_env_vars] returns in the state [s], as a
    function of that state: the one that is built whenever [CC] is set or the
    CUDA root does not resolve. *)
Definition config_env_vars (s : state) : gmap string pyval :=
  let cuda_root := get_software_root fw "CUDA" in
  let cudnn_root := get_software_root fw "cuDNN" in
  let d := base_env_vars s in
  let d := if truthy cuda_root then dict_update d (cuda_env_vars s) else d in
  if truthy cudnn_root then dict_update d cudnn_env_vars else d.

(** Order of Python values as compared by [sorted]: [None] sorts first,
    strings by their bytes. *)
Definition pyval_le (a b : pyval) : Prop :=
  match a, b with
  | None, _ => True
  | Some _, None => False
  | Some x, Some y => String.le x y
  end.

(** Order of the [(key, val)] tuples: by key, then by value. *)
Definition item_le (a b : string * pyval) : Prop :=
  if decide (a.1 = b.1) then pyval_le a.2 b.2 else String.le a.1 b.1.

#[export] Instance pyval_le_dec : RelDecision pyval_le.
Proof. intros [x|] [y|]; simpl; apply _. Defined.

#[export] Instance item_le_dec : RelDecision item_le.
Proof. intros a b. unfold item_le. destruct (decide (a.1 = b.1)); apply _. Defined.

(** [sorted(d.items())] *)
Definition sorted_items (d : gmap string pyval) : list (string * pyval) :=
  merge_sort item_le (map_to_list d).

(** The loop [for (key, val) in sorted(config_env_vars.items()): env.setvar(key, val)] *)
Definition apply_env_vars (d : gmap string pyval) : M unit :=
  for_each (sorted_items d) (fun kv => env_setvar kv.1 kv.2).

Definition configure_step : M unit :=
  tmpdir <- tempfile_mkdtemp "-bazel-configure" ;;
  (if String.eqb (comp_family (toolchain self)) (INTELCOMP fw) then
     compiler_path <- do_which (Some "icc") ;;
     lm_license_file <- os_getenv "LM_LICENSE_FILE" None ;;
     intel_license_file <- os_getenv "INTEL_LICENSE_FILE" lm_license_file ;;
     cpath <- os_getenv "CPATH" None ;;
     let icc_wrapper_txt := INTEL_COMPILER_WRAPPER compiler_path intel_license_file cpath in
     let icc_wrapper := os_path_join tmpdir ["bin"; "icc"] in
     write_file icc_wrapper icc_wrapper_txt ;;
     adjust_permissions icc_wrapper S_IXUSR ;;
     path <- os_getenv "PATH" None ;;
     match path with
     | None => raise PythonError
     | Some path =>
         env_setvar "PATH" (Some (str_join ":" [os_path_dirname icc_wrapper; path])) ;;
         icc <- do_which (Some "icc") ;;
         log_info "Using wrapper script for 'icc': %s" [PyVal icc]
     end
   else ret tt) ;;
  prepare_python ;;
  config_env_vars <- make_config_env_vars ;;
  apply_env_vars config_env_vars ;;
  apply_regex_substitutions "configure.py"
    [("(run_shell\(\['bazel')", "\1, '--output_base=" +:+ tmpdir +:+ "'")] ;;
  run_cmd "./configure".

(** ** [build_step] *)

(** The binaries whose hardcoded location is patched. *)
Definition tools : list string :=
  ["ar"; "cpp"; "dwp"; "gcc"; "gcov"; "ld"; "nm"; "objcopy"; "objdump"; "strip"].

(** The three rules [regex_subs] starts with. *)
Definition initial_regex_subs (binutils_bin : string) (lib_paths inc_paths : list string)
  : list rule :=
  [ ("-B/usr/bin/",
     "-B" +:+ binutils_bin +:+ "/ " +:+
       str_join " " (map (fun p => "-L" +:+ p +:+ "/") lib_paths));
    ("(cxx_builtin_include_directory:).*", "");
    ("^toolchain {",
     "toolchain {" +:+ newline +:+
       str_join newline
         (map (fun p => "cxx_builtin_include_directory: " +:+ dquote +:+
                        resolve_path fw p +:+ dquote) inc_paths)) ].

(** The loop over the tools: one rule per tool, or the fatal error. *)
Fixpoint tool_regex_subs (todo : list string) (regex_subs : list rule) : M (list rule) :=
  match todo with
  | [] => ret regex_subs
  | tool :: rest =>
      path <- do_which (Some tool) ;;
      match path with
      | Some (String _ _ as p) =>
          tool_regex_subs rest (regex_subs ++ [(os_path_join "/usr" ["bin"; tool], p)])
      | _ => raise (EasyBuildError "Failed to determine path to '%s'" [PyVal (Some tool)])
      end
  end.

(** [self.toolchain.options.get('pic', None)], as a truth value. *)
Definition pic : bool := default false (options (toolchain self) !! "pic").

(** The rules added when position-independent code is asked for. *)
Definition pic_regex_subs : list rule :=
  [("-fPIE", "-fPIC"); (dquote +:+ "-pie" +:+ dquote, dquote +:+ "-fPIC" +:+ dquote)].

(** The list [cmd] handed to [' '.join] for the build proper. *)
Definition build_cmd (tmpdir : string) (cuda_root : pyval) : list string :=
  let cmd := ["bazel"; "--output_base=" +:+ tmpdir; "build"] in
  let cmd := cmd ++ ["--compilation_mode=opt"] in
  let cmd := cmd ++ ["--config=opt"] in
  let cmd := cmd ++ ["--subcommands"; "--verbose_failures"] in
  let cmd := if pic then cmd ++ ["--copt=" +:+ dquote +:+ "-fPIC" +:+ dquote] else cmd in
  let cmd := cmd ++ [buildopts (cfg self)] in
  let cmd := if truthy cuda_root then cmd ++ ["--config=cuda"] else cmd in
  let cmd := if with_mkl_dnn (cfg self) then cmd ++ ["--config=mkl"] else cmd in
  cmd ++ ["//tensorflow/tools/pip_package:build_pip_package"].

(** The part of [build_step] that pins down the GCC directories: returns
    [(gcc_lib64, gcc_lib_inc, gcc_lib_inc_fixed, gcc_cplusplus_inc)]. *)
Definition locate_gcc : M (string * string * string * string) :=
  match py_or (get_software_root fw "GCCcore") (get_software_root fw "GCC") with
  | Some (String _ _ as gcc_root) =>
      let gcc_lib64 := os_path_join gcc_root ["lib64"] in
      match py_or (get_software_version fw "GCCcore") (get_software_version fw "GCC") with
      | None => raise PythonError
      | Some gcc_ver =>
          let res := glob_glob fw (os_path_join gcc_root ["lib"; "gcc"; "*"; gcc_ver; "include"]) in
          match res with
          | [gcc_lib_inc] =>
              let gcc_lib_inc_fixed :=
                os_path_join (os_path_dirname gcc_lib_inc) ["include-fixed"] in
              if negb (os_path_exists fw gcc_lib_inc_fixed) then
                raise (EasyBuildError "Derived directory %s does not exist"
                                      [PyVal (Some gcc_lib_inc_fixed)])
              else
                let gcc_cplusplus_inc := os_path_join gcc_root ["include"; "c++"; gcc_ver] in
                if negb (os_path_exists fw gcc_cplusplus_inc) then
                  raise (EasyBuildError "Derived directory %s does not exist"
                                        [PyVal (Some gcc_cplusplus_inc)])
                else ret (gcc_lib64, gcc_lib_inc, gcc_lib_inc_fixed, gcc_cplusplus_inc)
          | _ =>
              raise (EasyBuildError "Failed to pinpoint location of GCC include files: %s"
                                    [PyList res])
          end
      end
  | _ => raise (EasyBuildError "Failed to determine installation prefix for GCC" [])
  end.

(** The rule list handed to [apply_regex_substitutions], up to the first
    fatal error. *)
Definition build_regex_subs : M (list rule) :=
  binutils_bin <-
    match get_software_root fw "binutils" with
    | Some (String _ _ as binutils_root) => ret (os_path_join binutils_root ["bin"])
    | _ => raise (EasyBuildError "Failed to determine installation prefix for binutils" [])
    end ;;
  gcc <- locate_gcc ;;
  let '(gcc_lib64, gcc_lib_inc, gcc_lib_inc_fixed, gcc_cplusplus_inc) := gcc in
  let inc_paths := [gcc_lib_inc; gcc_lib_inc_fixed; gcc_cplusplus_inc] in
  let lib_paths := [gcc_lib64] in
  let cuda_root := get_software_root fw "CUDA" in
  let inc_paths :=
    if truthy cuda_root then inc_paths ++ [os_path_join (py_str cuda_root) ["include"]]
    else inc_paths in
  let lib_paths :=
    if truthy cuda_root then lib_paths ++ [os_path_join (py_str cuda_root) ["lib64"]]
    else lib_paths in
  regex_subs <- tool_regex_subs tools (initial_regex_subs binutils_bin lib_paths inc_paths) ;;
  ret (if pic then regex_subs ++ pic_regex_subs else regex_subs).

Definition build_step : M unit :=
  s <- get_state ;;
  mkdir (os_path_join (installdir self) [st_pylibdir s]) true ;;
  regex_subs <- build_regex_subs ;;
  for_each (os_walk fw (start_dir self)) (fun entry =>
    let '(path, dirnames, filenames) := entry in
    for_each filenames (fun filename =>
      if startswith "CROSSTOOL" filename then
        let full_path := os_path_join path [filename] in
        log_info "Patching %s" [PyVal (Some full_path)] ;;
        apply_regex_substitutions full_path regex_subs
      else ret tt)) ;;
  tmpdir <- tempfile_mkdtemp "-bazel-build" ;;
  run_cmd (str_join " " (build_cmd tmpdir (get_software_root fw "CUDA"))) ;;
  run_cmd ("bazel-bin/tensorflow/tools/pip_package/build_pip_package " +:+ builddir self).

(** ** [install_step] *)

Definition install_step : M unit :=
  let whl_paths :=
    glob_glob fw (os_path_join (builddir self) ["tensorflow-" +:+ version self +:+ "-*.whl"]) in
  match whl_paths with
  | [whl] =>
      run_cmd ("pip install --ignore-installed --prefix=" +:+ installdir self +:+ " " +:+ whl)
  | _ =>
      raise (EasyBuildError "Failed to isolate built .whl in %s: %s"
                            [PyList whl_paths; PyVal (Some (builddir self))])
  end ;;
  if runtest (cfg self) then
    pythonpath <- os_getenv "PYTHONPATH" (Some "") ;;
    s <- get_state ;;
    env_setvar "PYTHONPATH"
      (Some (os_path_join (installdir self) [st_pylibdir s] +:+ ":" +:+ py_str pythonpath)) ;;
    for_each ["mnist_softmax.py"; "mnist_with_summaries.py"] (fun mnist_py =>
      tmpdir <- tempfile_mkdtemp ("-tf-" +:+ (os_path_splitext mnist_py).1 +:+ "-test") ;;
      let mnist_py :=
        os_path_join (start_dir self) ["tensorflow"; "examples"; "tutorials"; "mnist"; mnist_py] in
      s <- get_state ;;
      run_cmd (py_str (st_python_cmd s) +:+ " " +:+ mnist_py +:+ " --data_dir " +:+ tmpdir))
  else ret tt.

End Easyblock.

(** ** [test_step] *)

Definition test_step : M unit := ret tt.

(** ** [sanity_check_step] *)

(** The dictionary [custom_paths]. *)
Record custom_paths : Type := {
  files : list string;
  dirs : list string
}.

(** The step builds its two arguments and hands them to the method of the
    parent class, [parent_sanity_check_step]. *)
Definition sanity_check_step
    (parent_sanity_check_step : custom_paths -> list string -> M unit) : M unit :=
  s <- get_state ;;
  let custom_paths := {| files := ["bin/tensorboard"]; dirs := [st_pylibdir s] |} in
  let custom_commands :=
    [ py_str (st_python_cmd s) +:+ " -c 'import tensorflow'";
      py_str (st_python_cmd s) +:+ " -c 'from tensorflow.python.util import tf_should_use'" ] in
  parent_sanity_check_step custom_paths custom_commands.

(** ** What the substitution rules do to a file *)

(** [p in s] *)
Fixpoint contains (p s : string) : bool :=
  startswith p s ||
  match s with
  | EmptyString => false
  | String _ s' => contains p s'
  end.

(** Replacement of the leftmost, non-overlapping occurrences of a non-empty
    [p] by [r]; [skip] counts the characters of the current occurrence that
    are still to be dropped. *)
Fixpoint replace_from (p r : string) (skip : nat) (s : string) : string :=
  match s with
  | EmptyString => ""
  | String c s' =>
      match skip with
      | S k => replace_from p r k s'
      | 0 =>
          if startswith p s then r +:+ replace_from p r (String.length p - 1) s'
          else String c (replace_from p r 0 s')
      end
  end.

Definition replace_all (p r : string) (s : string) : string := replace_from p r 0 s.

(** Characters with a meaning of their own in a regular expression. *)
Definition is_special (c : ascii) : bool :=
  existsb (Ascii.eqb c)
    [ "."; "^"; "$"; "*"; "+"; "?"; "{"; "}"; "["; "]"; "\"; "|"; "("; ")" ]%char.

Fixpoint all_chars (f : ascii -> bool) (s : string) : bool :=
  match s with
  | EmptyString => true
  | String c s' => f c && all_chars f s'
  end.

(** A non-empty pattern that matches itself only.  It has no line break, so
    that replacing it in a text and replacing it line by line agree. *)
Definition is_literal (pat : string) : bool :=
  negb (String.eqb pat "")
  && all_chars (fun c => negb (is_special c || Ascii.eqb c "010"%char)) pat.

(** A replacement without escapes or group references. *)
Definition is_plain (repl : string) : bool :=
  all_chars (fun c => negb (Ascii.eqb c "\")) repl.

(** [re.sub(pattern, repl, text)] *)
Definition re_sub (fw : framework) (pat repl text : string) : string :=
  if is_literal pat && is_plain repl then replace_all pat repl text
  else re_sub_regex fw pat repl text.

(** Modelled from the spec: [apply_regex_substitutions] belongs to the
    framework, which the spec describes as applying a list of (pattern,
    replacement) text substitutions to a file in place; each rule is applied
    to the text left by the rules before it. *)
Definition substitute (fw : framework) (regex_subs : list rule) (text : string) : string :=
  fold_left (fun txt r => re_sub fw r.1 r.2 txt) regex_subs text.

(** [q] and [r] put side by side from their first characters agree as far as
    the shorter goes. *)
Definition comparable (q r : string) : bool := startswith q r || startswith r q.

(** Some non-empty suffix of [q] is comparable with [r]. *)
Fixpoint suffix_comparable (q r : string) : bool :=
  match q with
  | EmptyString => false
  | String _ q' => comparable q r || suffix_comparable q' r
  end.

(** An occurrence of [q] can share characters with an inserted [r]. *)
Definition overlaps (q r : string) : bool :=
  suffix_comparable q r || suffix_comparable r q.

(** The hardcoded reference to a tool. *)
Definition usr_bin (tool : string) : string := os_path_join "/usr" ["bin"; tool].

(** ** Vocabulary of the statements *)

(** The framework [fw] with the installation root of [name] replaced. *)
Definition with_root (fw : framework) (name : string) (root : pyval) : framework :=
  {| INTELCOMP := INTELCOMP fw;
     get_software_root := fun n => if String.eqb n name then root else get_software_root fw n;
     get_software_version := get_software_version fw;
     which := which fw;
     glob_glob := glob_glob fw;
     os_path_exists := os_path_exists fw;
     os_walk := os_walk fw;
     resolve_path := resolve_path fw;
     mkdtemp := mkdtemp fw;
     run_cmd_ok := run_cmd_ok fw;
     re_sub_regex := re_sub_regex fw;
     pick_python := pick_python fw |}.

(** Keys of [config_env_vars] by what they depend on. *)
Definition cuda_keys : list string :=
  ["CUDA_TOOLKIT_PATH"; "GCC_HOST_COMPILER_PATH"; "TF_CUDA_COMPUTE_CAPABILITIES";
   "TF_CUDA_VERSION"].

Definition cudnn_keys : list string := ["CUDNN_INSTALL_PATH"; "TF_CUDNN_VERSION"].

Definition presence_flags : list string :=
  ["TF_NEED_CUDA"; "TF_NEED_JEMALLOC"; "TF_NEED_OPENCL"].

(** The call [env.setvar(key, val)] as an event. *)
Definition setvar_event (kv : string * pyval) : event := EvSetvar kv.1 kv.2.

(** The keys handed to [env.setvar] in a trace, in order. *)
Definition setvar_keys (tr : list event) : list string :=
  omap (fun e => match e with EvSetvar k _ => Some k | _ => None end) tr.

(** The commands handed to [run_cmd] in a trace, in order. *)
Definition commands (tr : list event) : list string :=
  omap (fun e => match e with EvRunCmd c => Some c | _ => None end) tr.

(** The calls made by the loop over [os.walk] for the rule list [regex_subs]. *)
Definition patch_events (walk : list (string * list string * list string))
    (regex_subs : list rule) : list event :=
  flat_map (fun entry =>
    flat_map (fun filename =>
      if startswith "CROSSTOOL" filename then
        [EvLogInfo "Patching %s" [PyVal (Some (os_path_join entry.1.1 [filename]))];
         EvApplyRegexSubstitutions (os_path_join entry.1.1 [filename]) regex_subs]
      else []) entry.2) walk.

(** The path [which] gives for a tool in the environment of [s]. *)
Definition tool_path (fw : framework) (s : state) (tool : string) : pyval :=
  which fw (st_environ s) (Some tool).

(** The rule the loop adds for a tool. *)
Definition tool_rule (fw : framework) (s : state) (tool : string) : rule :=
  (usr_bin tool, py_str (tool_path fw s tool)).

(** A tool is missing when [which] gives nothing for it. *)
Definition missing (fw : framework) (s : state) (tool : string) : bool :=
  negb (truthy (tool_path fw s tool)).

(** A replacement text that, put into a file, cannot be part of a reference
    to one of the tools: it has no backslash and cannot share characters with
    an occurrence of [/usr/bin/<tool>]. *)
Definition harmless (repl : string) : bool :=
  is_plain repl && forallb (fun tool => negb (overlaps (usr_bin tool) repl)) tools.

(** No path found for a tool has a backslash: the rules for the tools are
    plain replacements of text. *)
Definition plain_paths (fw : framework) (s : state) : bool :=
  forallb (fun tool => is_plain (py_str (tool_path fw s tool))) tools.

(** The path found for [tool], put into a file, cannot share characters with
    an occurrence of the reference to another tool. *)
Definition apart_from_others (fw : framework) (s : state) (tool : string) : bool :=
  forallb (fun other =>
             String.eqb other tool
             || negb (overlaps (usr_bin other) (py_str (tool_path fw s tool)))) tools.

(** Every event of every run of [m] satisfies [P]. *)
Definition emits {A} (P : event -> Prop) (m : M A) : Prop :=
  forall s, Forall P (trace (m s)).

(** The extra compiler flag. *)
Definition copt_fPIC : string := "--copt=" +:+ dquote +:+ "-fPIC" +:+ dquote.

(** Strict order of keys: [a < b] on Python strings. *)
Definition key_lt (a b : string) : Prop := String.ltb a b = true.

(** Keys of the dictionary literal [config_env_vars] starts from. *)
Definition base_keys : list string :=
  ["CC_OPT_FLAGS"; "MPI_HOME"; "PYTHON_BIN_PATH"; "PYTHON_LIB_PATH"; "TF_CUDA_CLANG";
   "TF_ENABLE_XLA"; "TF_NEED_CUDA"; "TF_NEED_GCP"; "TF_NEED_GDR"; "TF_NEED_HDFS";
   "TF_NEED_JEMALLOC"; "TF_NEED_MPI"; "TF_NEED_OPENCL"; "TF_NEED_S3"; "TF_NEED_VERBS"].

(** The keys [config_env_vars] has, given what is installed. *)
Definition config_keys (fw : framework) : list string :=
  base_keys
  ++ (if truthy (get_software_root fw "CUDA") then cuda_keys else [])
  ++ (if truthy (get_software_root fw "cuDNN") then cudnn_keys else []).

(** The features the dictionary literal turns off unconditionally. *)
Definition disabled_flags : list string :=
  ["TF_CUDA_CLANG"; "TF_ENABLE_XLA"; "TF_NEED_GCP"; "TF_NEED_GDR"; "TF_NEED_HDFS";
   "TF_NEED_S3"; "TF_NEED_VERBS"].

(** Every run of [m] leaves a state related by [R] to the one it started in,
    whether it returns or raises. *)
Definition keeps {A} (R : state -> state -> Prop) (m : M A) : Prop :=
  forall s, R s (final (m s)).

(** The environment of [s'] is the one of [s] outside the variables [K]. *)
Definition environ_frame (K : list string) (s s' : state) : Prop :=
  forall k, k ∉ K -> st_environ s' !! k = st_environ s !! k.

(** The attributes set by [prepare_python] are the same in [s] and [s']. *)
Definition same_python (s s' : state) : Prop :=
  st_python_cmd s' = st_python_cmd s /\ st_pylibdir s' = st_pylibdir s.

(** The files handed to [apply_regex_substitutions] in a trace, in order. *)
Definition patched_files (tr : list event) : list string :=
  omap (fun e => match e with EvApplyRegexSubstitutions p _ => Some p | _ => None end) tr.

(** The files written by [write_file] in a trace, in order. *)
Definition written_files (tr : list event) : list string :=
  omap (fun e => match e with EvWriteFile p _ => Some p | _ => None end) tr.

(** The rule with which [configure.py] is patched, for the output base [dir]. *)
Definition output_base_rule (dir : string) : rule :=
  ("(run_shell\(\['bazel')", "\1, '--output_base=" +:+ dir +:+ "'").

(** The files of a walk whose name starts with [CROSSTOOL], in the order of
    the walk. *)
Definition crosstool_files (walk : list (string * list string * list string)) : list string :=
  flat_map (fun entry =>
    map (fun filename => os_path_join entry.1.1 [filename])
        (List.filter (startswith "CROSSTOOL") entry.2)) walk.

(** The declaration injected for an include directory. *)
Definition include_declaration (fw : framework) (p : string) : string :=
  "cxx_builtin_include_directory: " +:+ dquote +:+ resolve_path fw p +:+ dquote.

(** What the install step may call. *)
Definition install_event (e : event) : Prop :=
  match e with
  | EvRunCmd _ | EvMkdtemp _ => True
  | EvSetvar key _ => key = "PYTHONPATH"
  | _ => False
  end.

(** Every value of a list of items is a string. *)
Definition all_set (l : list (string * pyval)) : bool :=
  forallb (fun kv => match kv.2 with Some _ => true | None => false end) l.

(** The items of a list for which the loop calls [env.setvar]: those up to
    and including the first whose value is [None]. *)
Fixpoint applied (l : list (string * pyval)) : list (string * pyval) :=
  match l with
  | [] => []
  | (k, Some v) :: rest => (k, Some v) :: applied rest
  | (k, None) :: _ => [(k, None)]
  end.

(** The state after those calls: the items before the first whose value is
    [None] have been assigned, in order. *)
Fixpoint setvars (l : list (string * pyval)) (s : state) : state :=
  match l with
  | [] => s
  | (k, Some v) :: rest => setvars rest (setvar_state k v s)
  | (k, None) :: _ => s
  end.

(** The configure step from the construction of the dictionary on, for the
    temporary directory [tmpdir]. *)
Definition configure_tail (fw : framework) (self : easyblock) (tmpdir : string) : M unit :=
  (config_env_vars <- make_config_env_vars fw self ;;
   apply_env_vars config_env_vars ;;
   apply_regex_substitutions "configure.py" [output_base_rule tmpdir] ;;
   run_cmd fw "./configure")%step.

(** A non-empty proper suffix of [p] is a prefix of [p]: two occurrences of
    [p] in a text can share characters. *)
Definition self_overlap (p : string) : bool :=
  match p with
  | EmptyString => false
  | String _ p' => suffix_comparable p' p
  end.

(** ** A concrete installation *)

(** GCCcore 6.4.0 and binutils are installed, the tools are found under
    [/opt/eb/bin], one include directory and one wheel match the globs, and
    every command succeeds. *)
Definition demo_framework : framework :=
  {| INTELCOMP := "Intel";
     get_software_root := fun n =>
       if String.eqb n "binutils" then Some "/opt/eb/binutils"
       else if String.eqb n "GCCcore" then Some "/opt/eb/GCCcore"
       else None;
     get_software_version := fun n =>
       if String.eqb n "GCCcore" then Some "6.4.0"
       else if String.eqb n "CUDA" then Some "9.0.176"
       else if String.eqb n "cuDNN" then Some "7.0.5"
       else None;
     which := fun _ cmd =>
       match cmd with Some c => Some ("/opt/eb/bin/" +:+ c) | None => None end;
     glob_glob := fun pattern =>
       if String.eqb pattern "/opt/eb/GCCcore/lib/gcc/*/6.4.0/include"
       then ["/opt/eb/GCCcore/lib/gcc/x86_64-pc-linux-gnu/6.4.0/include"]
       else if String.eqb pattern "/build/tensorflow-1.4.0-*.whl"
       then ["/build/tensorflow-1.4.0-cp27-none-linux_x86_64.whl"]
       else [];
     os_path_exists := fun _ => true;
     os_walk := fun d =>
       [(d, ["third_party"], ["CROSSTOOL"; "README.md"]);
        (os_path_join d ["third_party"], [], ["CROSSTOOL.tpl"])];
     resolve_path := fun p => p;
     mkdtemp := fun n suffix => "/tmp/eb" +:+ suffix;
     run_cmd_ok := fun _ _ => true;
     re_sub_regex := fun _ _ text => text;
     pick_python := inr ("/opt/eb/bin/python", "lib/python2.7/site-packages") |}.

(** The same installation when [dwp] is the one of the system, as happens
    when the binutils installed do not provide it. *)
Definition system_dwp_framework : framework :=
  {| INTELCOMP := INTELCOMP demo_framework;
     get_software_root := get_software_root demo_framework;
     get_software_version := get_software_version demo_framework;
     which := fun environ cmd =>
       match cmd with
       | Some c =>
           if String.eqb c "dwp" then Some "/usr/bin/dwp" else which demo_framework environ cmd
       | None => None
       end;
     glob_glob := glob_glob demo_framework;
     os_path_exists := os_path_exists demo_framework;
     os_walk := os_walk demo_framework;
     resolve_path := resolve_path demo_framework;
     mkdtemp := mkdtemp demo_framework;
     run_cmd_ok := run_cmd_ok demo_framework;
     re_sub_regex := re_sub_regex demo_framework;
     pick_python := pick_python demo_framework |}.

(** The same installation when no path matches any pattern. *)
Definition empty_glob_framework : framework :=
  {| INTELCOMP := INTELCOMP demo_framework;
     get_software_root := get_software_root demo_framework;
     get_software_version := get_software_version demo_framework;
     which := which demo_framework;
     glob_glob := fun _ => [];
     os_path_exists := os_path_exists demo_framework;
     os_walk := os_walk demo_framework;
     resolve_path := resolve_path demo_framework;
     mkdtemp := mkdtemp demo_framework;
     run_cmd_ok := run_cmd_ok demo_framework;
     re_sub_regex := re_sub_regex demo_framework;
     pick_python := pick_python demo_framework |}.

(** The same installation when [dwp] is not on the search path. *)
Definition missing_dwp_framework : framework :=
  {| INTELCOMP := INTELCOMP demo_framework;
     get_software_root := get_software_root demo_framework;
     get_software_version := get_software_version demo_framework;
     which := fun environ cmd =>
       match cmd with
       | Some c => if String.eqb c "dwp" then None else which demo_framework environ cmd
       | None => None
       end;
     glob_glob := glob_glob demo_framework;
     os_path_exists := os_path_exists demo_framework;
     os_walk := os_walk demo_framework;
     resolve_path := resolve_path demo_framework;
     mkdtemp := mkdtemp demo_framework;
     run_cmd_ok := run_cmd_ok demo_framework;
     re_sub_regex := re_sub_regex demo_framework;
     pick_python := pick_python demo_framework |}.

Definition demo_easyconfig (opts : string) (test : bool) : easyconfig :=
  {| cuda_compute_capabilities := ["3.5"; "6.0"];
     with_mkl_dnn := true;
     runtest := test;
     buildopts := opts |}.

(** An easyblock instance for TensorFlow 1.4.0 with a GCC toolchain, with the
    given toolchain options, build options and value of [runtest]. *)
Definition demo_easyblock (tcopts : gmap string bool) (opts : string) (test : bool)
  : easyblock :=
  {| cfg := demo_easyconfig opts test;
     toolchain := {| comp_family := "GCC"; options := tcopts |};
     installdir := "/inst";
     builddir := "/build";
     start_dir := "/src";
     version := "1.4.0" |}.

(** Two lines of a toolchain description with hardcoded tools. *)
Definition demo_crosstool : string :=
  "gcc: /usr/bin/gcc" +:+ newline +:+ "dwp: /usr/bin/dwp" +:+ newline.

(** The state after [prepare_python], with a compiler set and a search path. *)
Definition demo_state : state :=
  mkState (list_to_map [("CC", "gcc"); ("CXXFLAGS", "-O2"); ("PATH", "/opt/eb/bin:/usr/bin")])
          (Some "/opt/eb/bin/python") "lib/python2.7/site-packages" 0.

(** The same easyblock instance with the toolchain of the Intel compilers. *)
Definition intel_easyblock : easyblock :=
  {| cfg := demo_easyconfig "" false;
     toolchain := {| comp_family := "Intel"; options := ∅ |};
     installdir := "/inst";
     builddir := "/build";
     start_dir := "/src";
     version := "1.4.0" |}.

(** A state with a license server and no search path. *)
Definition no_path_state : state :=
  mkState (list_to_map [("LM_LICENSE_FILE", "28518@license.example.org")]) None "" 0.

(** A state with a compiler and a search path in which [CXXFLAGS] is not set. *)
Definition no_cxxflags_state : state :=
  mkState (list_to_map [("CC", "gcc"); ("PATH", "/opt/eb/bin:/usr/bin")]) None "" 0.

(** The same installation with CUDA and cuDNN. *)
Definition cuda_framework : framework :=
  with_root (with_root demo_framework "CUDA" (Some "/opt/eb/CUDA")) "cuDNN" (Some "/opt/eb/cuDNN").

(** The same installation when the wheel cannot be installed. *)
Definition failing_pip_framework : framework :=
  {| INTELCOMP := INTELCOMP demo_framework;
     get_software_root := get_software_root demo_framework;
     get_software_version := get_software_version demo_framework;
     which := which demo_framework;
     glob_glob := glob_glob demo_framework;
     os_path_exists := os_path_exists demo_framework;
     os_walk := os_walk demo_framework;
     resolve_path := resolve_path demo_framework;
     mkdtemp := mkdtemp demo_framework;
     run_cmd_ok := fun _ cmd => negb (startswith "pip install" cmd);
     re_sub_regex := re_sub_regex demo_framework;
     pick_python := pick_python demo_framework |}.

(** The same installation when no interpreter can be picked. *)
Definition no_python_framework : framework :=
  {| INTELCOMP := INTELCOMP demo_framework;
     get_software_root := get_software_root demo_framework;
     get_software_version := get_software_version demo_framework;
     which := which demo_framework;
     glob_glob := glob_glob demo_framework;
     os_path_exists := os_path_exists demo_framework;
     os_walk := os_walk demo_framework;
     resolve_path := resolve_path demo_framework;
     mkdtemp := mkdtemp demo_framework;
     run_cmd_ok := run_cmd_ok demo_framework;
     re_sub_regex := re_sub_regex demo_framework;
     pick_python := inl (EasyBuildError "Failed to pick python command to use" []) |}.

(** The same installation when GCC has no [include-fixed] directory. *)
Definition no_include_fixed_framework : framework :=
  {| INTELCOMP := INTELCOMP demo_framework;
     get_software_root := get_software_root demo_framework;
     get_software_version := get_software_version demo_framework;
     which := which demo_framework;
     glob_glob := glob_glob demo_framework;
     os_path_exists := fun p =>
       negb (String.eqb p "/opt/eb/GCCcore/lib/gcc/x86_64-pc-linux-gnu/6.4.0/include-fixed");
     os_walk := os_walk demo_framework;
     resolve_path := resolve_path demo_framework;
     mkdtemp := mkdtemp demo_framework;
     run_cmd_ok := run_cmd_ok demo_framework;
     re_sub_regex := re_sub_regex demo_framework;
     pick_python := pick_python demo_framework |}.

(** ** Tactics *)

(** Case analysis on membership in a list given by its elements. *)
Ltac elem_cases H :=
  repeat (apply elem_of_cons in H as [->|H]); [..|by apply elem_of_nil in H].

(** Membership in a list none of whose elements can be the given one. *)
Ltac elem_absurd H :=
  repeat (apply elem_of_cons in H as [H|H]; [discriminate H|]); by apply elem_of_nil in H.

(** Symbolic execution of a step: unfolds the monad and the effectful
    helpers, and nothing else. *)
Ltac run :=
  cbv [bind ret raise get_state put_state emit os_getenv env_setvar setvar_state
       tempfile_mkdtemp do_which run_cmd prepare_python write_file adjust_permissions mkdir
       apply_regex_substitutions log_info];
  cbn [st_environ st_python_cmd st_pylibdir st_tmp res final trace app].

(** * Properties *)

(** ** The path functions on concrete paths *)

Example os_path_join_relative :
  os_path_join "/opt/eb/GCCcore" ["lib"; "gcc"; "*"; "6.4.0"; "include"]
  = "/opt/eb/GCCcore/lib/gcc/*/6.4.0/include".
Proof. reflexivity. Qed.

Example os_path_join_absolute : os_path_join "/a/" ["/b"; "c"; ""] = "/b/c/".
Proof. reflexivity. Qed.

Example os_path_dirname_include :
  os_path_dirname "/opt/eb/GCCcore/lib/gcc/x86_64/6.4.0/include"
  = "/opt/eb/GCCcore/lib/gcc/x86_64/6.4.0".
Proof. reflexivity. Qed.

Example os_path_dirname_slashes : os_path_dirname "//include" = "//".
Proof. reflexivity. Qed.

Example os_path_splitext_script :
  os_path_splitext "mnist_with_summaries.py" = ("mnist_with_summaries", ".py").
Proof. reflexivity. Qed.

Example os_path_splitext_hidden : os_path_splitext "dir.d/.profile" = ("dir.d/.profile", "").
Proof. reflexivity. Qed.

(** ** Strings *)

Lemma append_cons c (p s : string) : String c p +:+ s = String c (p +:+ s).
Proof. reflexivity. Qed.

Lemma append_nil_r (s : string) : s +:+ "" = s.
Proof. induction s as [|c s IH]; [done|]. by rewrite append_cons, IH. Qed.

Lemma append_assoc (a b c : string) : (a +:+ b) +:+ c = a +:+ b +:+ c.
Proof. induction a as [|x a IH]; [done|]. by rewrite !append_cons, IH. Qed.

Lemma startswith_refl_app (p s : string) : startswith p (p +:+ s) = true.
Proof.
  induction p as [|c p IH]; [done|]. rewrite append_cons. cbn. by rewrite Ascii.eqb_refl.
Qed.

Lemma startswith_spec (p s : string) :
  startswith p s = true <-> exists t, s = p +:+ t.
Proof.
  split.
  - revert s. induction p as [|c p IH]; intros s H; [by exists s|].
    destruct s as [|d s]; [done|]. cbn in H.
    destruct (Ascii.eqb_spec c d) as [->|]; [|done].
    destruct (IH _ H) as [t ->]. by exists t.
  - intros [t ->]. apply startswith_refl_app.
Qed.

Lemma contains_startswith (p s : string) : startswith p s = true -> contains p s = true.
Proof. intros H. destruct s; cbn; by rewrite H. Qed.

Lemma contains_cons (p : string) c s : contains p s = true -> contains p (String c s) = true.
Proof. intros H. cbn [contains]. rewrite H. apply orb_true_r. Qed.

Lemma contains_app_r (p a s : string) : contains p s = true -> contains p (a +:+ s) = true.
Proof.
  intros H. induction a as [|c a IH]; [done|]. rewrite append_cons. by apply contains_cons.
Qed.

(** An element of the list handed to [join] occurs in the joined string. *)
Lemma contains_str_join (sep x : string) (l : list string) :
  x ∈ l -> contains x (str_join sep l) = true.
Proof.
  induction l as [|a l IH]; intros Hin; [by apply elem_of_nil in Hin|].
  apply elem_of_cons in Hin as [->|Hin].
  - destruct l as [|b l]; cbn [str_join].
    + apply contains_startswith, startswith_spec. exists "". by rewrite append_nil_r.
    + apply contains_startswith, startswith_refl_app.
  - destruct l as [|b l]; [by apply elem_of_nil in Hin|].
    cbn [str_join]. by apply contains_app_r, contains_app_r, IH.
Qed.

(** ** Literal replacement *)

Example replace_all_leftmost : replace_all "aa" "b" "aaaaa" = "bba".
Proof. reflexivity. Qed.

Lemma replace_from_skip (p r : string) k s :
  replace_from p r k s = replace_all p r (str_drop k s).
Proof.
  revert k. induction s as [|c s IH]; intros k; [by destruct k|].
  destruct k as [|k]; [done|]. cbn [replace_from str_drop]. apply IH.
Qed.

Lemma length_str_drop k s : String.length (str_drop k s) <= String.length s.
Proof.
  revert k. induction s as [|c s IH]; intros [|k]; cbn; try lia.
  specialize (IH k). lia.
Qed.

(** The two cases of one round of the replacement. *)
Lemma replace_all_cons (p r : string) c s :
  p ≠ "" ->
  replace_all p r (String c s)
  = if startswith p (String c s)
    then r +:+ replace_all p r (str_drop (String.length p - 1) s)
    else String c (replace_all p r s).
Proof.
  intros Hp. unfold replace_all. cbn [replace_from].
  destruct (startswith p (String c s)); [|done]. by rewrite replace_from_skip.
Qed.

Lemma startswith_app_comparable (q r t : string) :
  startswith q (r +:+ t) = true -> comparable q r = true.
Proof.
  unfold comparable. revert r. induction q as [|c q IH]; intros r H; [done|].
  destruct r as [|d r]; [by rewrite orb_true_r|].
  rewrite append_cons in H. cbn in *. destruct (Ascii.eqb_spec c d) as [->|]; [|done].
  rewrite Ascii.eqb_refl. by apply IH.
Qed.

Lemma comparable_sym (q r : string) : comparable q r = comparable r q.
Proof. unfold comparable. apply orb_comm. Qed.

Lemma contains_app_inv (q r t : string) :
  contains q (r +:+ t) = true -> suffix_comparable r q = true \/ contains q t = true.
Proof.
  induction r as [|d r IH]; intros H; [by right|].
  rewrite append_cons in H. cbn [contains] in H. apply orb_true_iff in H as [H|H].
  - left. cbn [suffix_comparable]. rewrite comparable_sym.
    rewrite <- append_cons in H. by rewrite (startswith_app_comparable _ _ _ H).
  - destruct (IH H) as [Hs|Ht]; [left|by right].
    cbn [suffix_comparable]. rewrite Hs. apply orb_true_r.
Qed.

Lemma contains_str_drop (q : string) k s :
  contains q (str_drop k s) = true -> contains q s = true.
Proof.
  revert k. induction s as [|c s IH]; intros [|k] H; try done.
  cbn [str_drop] in H. apply contains_cons. by apply (IH k).
Qed.

Section ReplaceAll.

Variables (p r : string).
Hypothesis p_non_empty : p ≠ "".

(** If [q] starts the result of the replacement and no part of [q] can lie
    along an inserted [r], then [q] starts the text. *)
Lemma startswith_replace_all (q s : string) :
  suffix_comparable q r = false ->
  startswith q (replace_all p r s) = true -> startswith q s = true.
Proof.
  revert s. induction q as [|c q IH]; intros s Hq H; [done|].
  cbn [suffix_comparable] in Hq. apply orb_false_iff in Hq as [Hcmp Hq].
  destruct s as [|d s]; [done|]. rewrite replace_all_cons in H by done.
  destruct (startswith p (String d s)).
  - apply startswith_app_comparable in H. congruence.
  - cbn in *. destruct (Ascii.eqb c d); [|done]. by apply IH.
Qed.

(** The replacement leaves no occurrence of [q] when [q] is the pattern
    itself or did not occur before, provided occurrences of [q] cannot
    overlap an inserted [r]. *)
Lemma contains_replace_all (q s : string) :
  overlaps q r = false ->
  q = p \/ contains q s = false ->
  contains q (replace_all p r s) = false.
Proof.
  intros Hov. apply orb_false_iff in Hov as [Hqr Hrq].
  remember (String.length s) as n eqn:Hn. revert s Hn.
  induction n as [n IH] using lt_wf_ind. intros s Hn Hq.
  assert (Hq_ne : q ≠ "").
  { destruct Hq as [->|Hq]; [done|]. intros ->. by destruct s. }
  destruct s as [|d s].
  { cbn. destruct q; [done|]. done. }
  assert (Htail : forall k, q = p \/ contains q (str_drop k s) = false).
  { intros k. destruct Hq as [->|Hq]; [by left|right].
    destruct (contains q (str_drop k s)) eqn:E; [|done].
    apply contains_str_drop, (contains_cons _ d) in E. congruence. }
  rewrite replace_all_cons by done. destruct (startswith p (String d s)) eqn:Hp.
  - destruct (contains q (r +:+ _)) eqn:E; [|done].
    apply contains_app_inv in E as [E|E]; [congruence|].
    rewrite (IH (String.length (str_drop (String.length p - 1) s))) in E; [done| |done|done].
    subst n. pose proof (length_str_drop (String.length p - 1) s). cbn. lia.
  - cbn [contains]. apply orb_false_iff. split.
    + destruct (startswith q (String d (replace_all p r s))) eqn:E; [|done].
      assert (Hs : startswith q (String d s) = true).
      { apply startswith_replace_all; [done|]. rewrite replace_all_cons, Hp; done. }
      destruct Hq as [->|Hq]; [congruence|].
      apply contains_startswith in Hs. congruence.
    + apply (IH (String.length s)); [subst n; cbn; lia|done|]. apply (Htail 0).
Qed.

End ReplaceAll.

Lemma substitute_app fw (rules1 rules2 : list rule) text :
  substitute fw (rules1 ++ rules2) text = substitute fw rules2 (substitute fw rules1 text).
Proof. unfold substitute. apply fold_left_app. Qed.

Lemma is_literal_non_empty pat : is_literal pat = true -> pat ≠ "".
Proof. by intros H ->. Qed.

(** Rules with literal patterns and harmless replacements remove the
    references to the tools they have a rule for, and bring none back. *)
Lemma substitute_removes fw (rules : list rule) text :
  Forall (fun rl => is_literal rl.1 = true /\ harmless rl.2 = true) rules ->
  (forall tool, tool ∈ tools ->
     usr_bin tool ∈ rules.*1 \/ contains (usr_bin tool) text = false) ->
  forall tool, tool ∈ tools -> contains (usr_bin tool) (substitute fw rules text) = false.
Proof.
  intros Hrules. revert text.
  induction Hrules as [|[pat repl] rules [Hlit Hharm] _ IH]; intros text Hinit tool Htool.
  - destruct (Hinit tool Htool) as [Hin|H]; [by apply elem_of_nil in Hin|done].
  - cbn [substitute fold_left]. apply IH; [|done]. clear tool Htool. intros tool Htool.
    cbn [fst snd] in *. unfold re_sub.
    apply andb_true_iff in Hharm as [Hplain Hover]. rewrite Hlit, Hplain. cbn [andb].
    rewrite forallb_forall in Hover.
    assert (Hov : overlaps (usr_bin tool) repl = false).
    { apply negb_true_iff. apply Hover. by apply list_elem_of_In. }
    destruct (Hinit tool Htool) as [Hin|Habsent].
    + cbn [fmap list_fmap] in Hin. apply elem_of_cons in Hin as [Heq|Hin]; [|by left].
      right. apply contains_replace_all; [by apply is_literal_non_empty|done|by left].
    + right. apply contains_replace_all; [by apply is_literal_non_empty|done|by right].
Qed.

(** ** Where the replacement acts *)

Lemma startswith_length (p s : string) :
  startswith p s = true -> String.length p <= String.length s.
Proof.
  revert s. induction p as [|c p IH]; intros [|d s] H; cbn in *; try lia; try done.
  destruct (Ascii.eqb c d); [|done]. specialize (IH _ H). lia.
Qed.

Lemma str_drop_app k (x y : string) :
  k <= String.length x -> str_drop k (x +:+ y) = str_drop k x +:+ y.
Proof.
  revert k. induction x as [|c x IH]; intros [|k] H; cbn in *; try done; try lia.
  apply IH. lia.
Qed.

Lemma str_drop_length_app (x y : string) : str_drop (String.length x) (x +:+ y) = y.
Proof. induction x as [|c x IH]; [reflexivity|exact IH]. Qed.

(** A pattern none of whose suffixes can lie along the start of [m] matches
    at the start of [x +:+ m +:+ b] only if it matches within [x]. *)
Lemma startswith_app_frame (p x m b : string) :
  suffix_comparable p m = false -> startswith p (x +:+ m +:+ b) = startswith p x.
Proof.
  revert p. induction x as [|d x IH]; intros p Hp.
  - destruct p as [|c p]; [done|].
    change ("" +:+ m +:+ b) with (m +:+ b).
    destruct (startswith (String c p) (m +:+ b)) eqn:E; [|done].
    apply startswith_app_comparable in E. cbn [suffix_comparable] in Hp.
    by rewrite E in Hp.
  - destruct p as [|c p]; [done|]. rewrite append_cons. cbn [startswith].
    cbn [suffix_comparable] in Hp. apply orb_false_iff in Hp as [_ Hp].
    destruct (Ascii.eqb c d); [by apply IH|done].
Qed.

(** Text along which the pattern cannot start is copied. *)
Lemma replace_all_copy (p r q b : string) :
  p ≠ "" -> suffix_comparable q p = false ->
  replace_all p r (q +:+ b) = q +:+ replace_all p r b.
Proof.
  intros Hne. induction q as [|d q IH]; intros Hq; [done|].
  cbn [suffix_comparable] in Hq. apply orb_false_iff in Hq as [Hcmp Hq].
  rewrite !append_cons, replace_all_cons by done.
  destruct (startswith p (String d (q +:+ b))) eqn:E.
  - rewrite <- append_cons in E. apply startswith_app_comparable in E.
    rewrite comparable_sym in E. congruence.
  - by rewrite IH.
Qed.

(** The replacement in [a +:+ t] is made in [a] and in [t] apart, when an
    occurrence of the pattern that starts in [a] ends in [a]. *)
Lemma replace_all_app (p r a t : string) :
  p ≠ "" ->
  (forall x, x ≠ "" -> startswith p (x +:+ t) = startswith p x) ->
  replace_all p r (a +:+ t) = replace_all p r a +:+ replace_all p r t.
Proof.
  intros Hne Hstart. remember (String.length a) as n eqn:Hn. revert a Hn.
  induction n as [n IH] using lt_wf_ind. intros [|d a] Hn; [done|].
  rewrite append_cons, !replace_all_cons by done. rewrite <- append_cons, Hstart by done.
  destruct (startswith p (String d a)) eqn:E.
  - apply startswith_length in E. cbn in E.
    rewrite str_drop_app by lia. rewrite append_assoc. f_equal.
    apply (IH (String.length (str_drop (String.length p - 1) a))); [|done].
    subst n. pose proof (length_str_drop (String.length p - 1) a). cbn. lia.
  - rewrite append_cons. f_equal. apply (IH (String.length a)); [subst n; cbn; lia|done].
Qed.

(** A text [q] that no occurrence of the pattern can share characters with
    is left where it is, and the replacement is made on both sides of it. *)
Lemma replace_all_frame (p r a q b : string) :
  p ≠ "" -> overlaps p q = false ->
  replace_all p r (a +:+ q +:+ b) = replace_all p r a +:+ q +:+ replace_all p r b.
Proof.
  intros Hne Hov. apply orb_false_iff in Hov as [Hpq Hqp].
  rewrite replace_all_app, replace_all_copy; [done..|].
  intros x _. by apply startswith_app_frame.
Qed.

(** An occurrence of a pattern that cannot overlap itself is replaced, and
    the replacement is made on both sides of it. *)
Lemma replace_all_match (p r a b : string) :
  p ≠ "" -> self_overlap p = false ->
  replace_all p r (a +:+ p +:+ b) = replace_all p r a +:+ r +:+ replace_all p r b.
Proof.
  intros Hne Hself. rewrite replace_all_app; [|done|].
  - f_equal. destruct p as [|c p'] eqn:Hp; [done|]. rewrite <- Hp in *.
    assert (E : p +:+ b = String c (p' +:+ b)) by (by rewrite Hp).
    rewrite E, replace_all_cons by done. rewrite <- E, startswith_refl_app.
    f_equal. f_equal. rewrite Hp. cbn [String.length]. rewrite Nat.sub_1_r. cbn [pred].
    apply str_drop_length_app.
  - intros [|d x] Hx; [done|]. destruct p as [|c p']; [done|].
    rewrite append_cons. cbn [startswith]. destruct (Ascii.eqb c d); [|done].
    by apply startswith_app_frame.
Qed.

(** One rule with a literal pattern and a plain replacement. *)
Lemma substitute_cons_literal fw pat repl (rules : list rule) text :
  is_literal pat = true -> is_plain repl = true ->
  substitute fw ((pat, repl) :: rules) text = substitute fw rules (replace_all pat repl text).
Proof.
  intros Hlit Hplain. unfold substitute. cbn [fold_left fst snd]. unfold re_sub.
  by rewrite Hlit, Hplain.
Qed.

(** Rules with literal patterns and plain replacements leave a text [q]
    where it is when none of their patterns can share characters with it. *)
Lemma substitute_frame fw (rules : list rule) (a q b : string) :
  Forall (fun rl => is_literal rl.1 = true /\ is_plain rl.2 = true /\ overlaps rl.1 q = false)
         rules ->
  substitute fw rules (a +:+ q +:+ b)
  = substitute fw rules a +:+ q +:+ substitute fw rules b.
Proof.
  intros H. revert a b.
  induction H as [|[pat repl] rules (Hlit & Hplain & Hov) _ IH]; intros a b; [done|].
  cbn [fst snd] in *. rewrite !substitute_cons_literal by done.
  rewrite replace_all_frame by (done || by apply is_literal_non_empty). apply IH.
Qed.

(** The references to the tools are literal patterns that cannot overlap
    themselves nor one another, and they have no backslash. *)
Lemma usr_bin_patterns tool :
  tool ∈ tools ->
  is_literal (usr_bin tool) = true /\ self_overlap (usr_bin tool) = false /\
  is_plain (usr_bin tool) = true /\
  forall other, other ∈ tools -> other ≠ tool ->
    overlaps (usr_bin other) (usr_bin tool) = false.
Proof.
  intros Htool. unfold tools in Htool.
  elem_cases Htool; (split; [reflexivity|]); (split; [reflexivity|]); (split; [reflexivity|]);
    intros other Hother Hne; unfold tools in Hother; elem_cases Hother; done.
Qed.

Lemma tools_NoDup : NoDup tools.
Proof. apply (bool_decide_unpack _). by vm_compute. Qed.

(** The rules for the tools replace a reference to a tool by the path found
    for it, whatever is around the reference, when no path has a backslash
    and the path put in cannot share characters with a reference to another
    tool. *)
Lemma substitute_tool_rules fw s tool (a b : string) :
  tool ∈ tools ->
  plain_paths fw s = true ->
  apart_from_others fw s tool = true ->
  substitute fw (map (tool_rule fw s) tools) (a +:+ usr_bin tool +:+ b)
  = substitute fw (map (tool_rule fw s) tools) a
    +:+ py_str (tool_path fw s tool)
    +:+ substitute fw (map (tool_rule fw s) tools) b.
Proof.
  intros Htool Hplain Hapart.
  unfold plain_paths in Hplain. rewrite forallb_forall in Hplain.
  unfold apart_from_others in Hapart. rewrite forallb_forall in Hapart.
  destruct (usr_bin_patterns tool Htool) as (Hlit & Hself & _ & Hothers).
  pose proof tools_NoDup as Hnd.
  destruct (list_elem_of_split _ _ Htool) as (before & after & Hsplit).
  rewrite Hsplit in Hnd. apply NoDup_app in Hnd as (_ & Hdisj & Hnd).
  apply NoDup_cons in Hnd as [Hnotin _].
  assert (Hbefore : forall t, t ∈ before -> t ∈ tools /\ t ≠ tool).
  { intros t Ht. split; [rewrite Hsplit; apply elem_of_app; by left|].
    intros ->. apply (Hdisj tool Ht). left. }
  assert (Hafter : forall t, t ∈ after -> t ∈ tools /\ t ≠ tool).
  { intros t Ht. split; [rewrite Hsplit; apply elem_of_app; right; by right|].
    by intros ->. }
  assert (Hpl : forall t, t ∈ tools -> is_plain (py_str (tool_path fw s t)) = true).
  { intros t Ht. apply Hplain. by apply list_elem_of_In. }
  rewrite Hsplit, map_app. cbn [map]. rewrite !substitute_app.
  rewrite (substitute_frame fw (map _ before) a (usr_bin tool) b).
  2: { apply Forall_fmap, Forall_forall. intros t Ht. destruct (Hbefore t Ht) as [Ht' Hne].
       destruct (usr_bin_patterns t Ht') as (Hl & _). cbn. auto. }
  change (tool_rule fw s tool) with (usr_bin tool, py_str (tool_path fw s tool)).
  rewrite !substitute_cons_literal by auto.
  rewrite replace_all_match by (done || by apply is_literal_non_empty).
  rewrite (substitute_frame fw (map _ after)); [done|].
  apply Forall_fmap, Forall_forall. intros t Ht. destruct (Hafter t Ht) as [Ht' Hne].
  destruct (usr_bin_patterns t Ht') as (Hl & _). cbn. split; [done|]. split; [auto|].
  specialize (Hapart t (proj1 (list_elem_of_In _ _) Ht')).
  apply orb_true_iff in Hapart as [Heq|Hov]; [by apply String.eqb_eq in Heq|].
  by apply negb_true_iff.
Qed.

(** The rules for [pic] leave the reference to a tool where it is. *)
Lemma substitute_pic_rules fw tool (a b : string) :
  tool ∈ tools ->
  substitute fw pic_regex_subs (a +:+ usr_bin tool +:+ b)
  = substitute fw pic_regex_subs a +:+ usr_bin tool +:+ substitute fw pic_regex_subs b.
Proof.
  intros Htool. apply substitute_frame. unfold tools in Htool.
  elem_cases Htool; by repeat constructor.
Qed.

Lemma contains_app_middle (q a b : string) : contains q (a +:+ q +:+ b) = true.
Proof. apply contains_app_r, contains_startswith, startswith_refl_app. Qed.

(** ** Occurrences in a joined string *)

(** A character that does not occur in [q] ends every attempt to match [q]
    across it. *)
Lemma startswith_app_sep (q a b : string) c :
  all_chars (fun x => negb (Ascii.eqb x c)) q = true ->
  startswith q (a +:+ String c b) = startswith q a.
Proof.
  revert q. induction a as [|e a IH]; intros [|d q] Hq; try done.
  - change ("" +:+ String c b) with (String c b). cbn in *.
    apply andb_true_iff in Hq as [Hd _]. apply negb_true_iff in Hd. by rewrite Hd.
  - rewrite append_cons. cbn in *. apply andb_true_iff in Hq as [_ Hq].
    destruct (Ascii.eqb d e); [by apply IH|done].
Qed.

Lemma contains_app_sep (q a b : string) c :
  q ≠ "" ->
  all_chars (fun x => negb (Ascii.eqb x c)) q = true ->
  contains q (a +:+ String c b) = contains q a || contains q b.
Proof.
  intros Hne Hq. induction a as [|e a IH].
  - change ("" +:+ String c b) with (String c b). cbn [contains].
    rewrite <- (startswith_app_sep q "" b c Hq).
    change ("" +:+ String c b) with (String c b). by rewrite orb_false_r.
  - rewrite append_cons. cbn [contains]. rewrite <- append_cons, startswith_app_sep by done.
    rewrite IH. by rewrite orb_assoc.
Qed.

(** A string without the separator occurs in a joined string exactly when it
    occurs in one of the strings joined. *)
Lemma contains_str_join_sep (q : string) c (l : list string) :
  q ≠ "" ->
  all_chars (fun x => negb (Ascii.eqb x c)) q = true ->
  contains q (str_join (String c "") l) = existsb (contains q) l.
Proof.
  intros Hne Hq. induction l as [|x l IH]; [by destruct q|].
  destruct l as [|y l].
  - cbn. by rewrite orb_false_r.
  - cbn [str_join existsb] in *. rewrite <- IH.
    change (String c "" +:+ ?t) with (String c t). by apply contains_app_sep.
Qed.

(** A prefix that [q] cannot overlap does not change whether [q] occurs. *)
Lemma contains_app_prefix (q r t : string) :
  suffix_comparable r q = false -> contains q (r +:+ t) = contains q t.
Proof.
  intros Hr. destruct (contains q t) eqn:Ht; [by apply contains_app_r|].
  destruct (contains q (r +:+ t)) eqn:E; [|done].
  apply contains_app_inv in E as [E|E]; congruence.
Qed.


(** ** Running a step *)

Lemma run_bind {A B} (m : M A) (k : A -> M B) s :
  bind m k s
  = match m s with
    | mkOutcome (Ok a) s1 t1 =>
        match k a s1 with
        | mkOutcome r s2 t2 => mkOutcome r s2 (t1 ++ t2)
        end
    | mkOutcome (Raise e) s1 t1 => mkOutcome (Raise e) s1 t1
    end.
Proof. reflexivity. Qed.

Lemma bind_trace_prefix {A B} (m : M A) (k : A -> M B) s :
  exists rest, trace (bind m k s) = trace (m s) ++ rest.
Proof.
  unfold bind. destruct (m s) as [[a|e] s1 t1].
  - destruct (k a s1) as [r s2 t2]. by eexists.
  - exists []. cbn. by rewrite app_nil_r.
Qed.

Lemma Ok_inj {A} (a b : A) : Ok a = Ok b -> a = b.
Proof. by intros [= ->]. Qed.

(** A loop whose body only emits events and always returns. *)
Lemma for_each_emits_only {A} (l : list A) (body : A -> M unit) (ev : A -> list event) s :
  (forall x s, body x s = mkOutcome (Ok tt) s (ev x)) ->
  for_each l body s = mkOutcome (Ok tt) s (flat_map ev l).
Proof.
  intros Hbody. induction l as [|x l IH]; [done|].
  cbn [for_each flat_map]. unfold bind. by rewrite Hbody, IH.
Qed.

(** The loop over the items: the calls are made in the order of the list, up
    to the first item whose value is [None], where the loop raises. *)
Lemma for_each_setvar (l : list (string * pyval)) s :
  for_each l (fun kv => env_setvar kv.1 kv.2) s
  = mkOutcome (if all_set l then Ok tt else Raise PythonError) (setvars l s)
              (map setvar_event (applied l)).
Proof.
  revert s. induction l as [|[k [v|]] l IH]; intros s; [done| |done].
  cbn [for_each]. unfold bind at 1. cbn [fst snd].
  change (env_setvar k (Some v) s)
    with (mkOutcome (Ok tt) (setvar_state k v s) [EvSetvar k (Some v)]).
  cbv iota beta. by rewrite IH.
Qed.

Lemma all_set_spec (l : list (string * pyval)) :
  all_set l = true <-> forall k, (k, None) ∉ l.
Proof.
  induction l as [|[k [v|]] l IH]; cbn.
  - split; [|done]. intros _ k Hin. by apply elem_of_nil in Hin.
  - rewrite IH. split.
    + intros H k' Hin. apply elem_of_cons in Hin as [[=]|Hin]. by apply (H k').
    + intros H k' Hin. apply (H k'). by right.
  - split; [done|]. intros H. destruct (H k). left.
Qed.

Lemma applied_all_set (l : list (string * pyval)) : all_set l = true -> applied l = l.
Proof.
  induction l as [|[k [v|]] l IH]; cbn; [done| |done]. intros H. by rewrite IH.
Qed.

(** The calls made are those for the first items of the list. *)
Lemma applied_take (l : list (string * pyval)) : exists n, applied l = take n l.
Proof.
  induction l as [|[k [v|]] l [n IH]].
  - by exists 0.
  - exists (S n). cbn. by rewrite IH.
  - by exists 1.
Qed.

(** When some value is [None], the calls made are those for the items up to
    the first such item, and the state is the one after the items before it. *)
Lemma applied_first_None (l : list (string * pyval)) :
  all_set l = false ->
  exists before k after,
    l = before ++ (k, None) :: after /\ all_set before = true /\
    applied l = before ++ [(k, None)] /\
    forall s, setvars l s = setvars before s.
Proof.
  induction l as [|[k [v|]] l IH]; cbn; [done| |].
  - intros H. destruct (IH H) as (before & k0 & after & -> & Hb & Ha & Hs).
    exists ((k, Some v) :: before), k0, after.
    split; [done|]. split; [exact Hb|]. split; [cbn [applied]; by rewrite Ha|].
    intros s. apply Hs.
  - intros _. by exists [], k, l.
Qed.

Lemma setvars_python (l : list (string * pyval)) s :
  st_python_cmd (setvars l s) = st_python_cmd s /\
  st_pylibdir (setvars l s) = st_pylibdir s /\
  st_tmp (setvars l s) = st_tmp s.
Proof.
  revert s. induction l as [|[k [v|]] l IH]; intros s; [done| |done].
  destruct (IH (setvar_state k v s)) as (H1 & H2 & H3).
  cbn [setvars]. by rewrite H1, H2, H3.
Qed.

Lemma setvar_keys_setvar_events (l : list (string * pyval)) :
  setvar_keys (map setvar_event l) = l.*1.
Proof. induction l as [|[k v] l IH]; [done|]. cbn. by f_equal. Qed.

Lemma setvar_keys_elem k (tr : list event) :
  k ∈ setvar_keys tr <-> exists v, EvSetvar k v ∈ tr.
Proof.
  unfold setvar_keys. rewrite list_elem_of_omap. split.
  - intros [e [Hin He]]. destruct e; try done. injection He as ->. by eexists.
  - intros [v Hin]. by exists (EvSetvar k v).
Qed.

Lemma apply_env_vars_run d s :
  apply_env_vars d s
  = mkOutcome (if all_set (sorted_items d) then Ok tt else Raise PythonError)
              (setvars (sorted_items d) s)
              (map setvar_event (applied (sorted_items d))).
Proof. unfold apply_env_vars. apply for_each_setvar. Qed.

Lemma run_cmd_trace fw cmd s : trace (run_cmd fw cmd s) = [EvRunCmd cmd].
Proof. run. by destruct (run_cmd_ok _ _ _). Qed.

(** ** What a step emits *)

Section Emits.

Context {A B : Type} (P : event -> Prop).

Lemma emits_ret (a : A) : emits P (ret a).
Proof. intros s. constructor. Qed.

Lemma emits_raise e : emits P (raise e : M A).
Proof. intros s. constructor. Qed.

Lemma emits_get_state : emits P get_state.
Proof. intros s. constructor. Qed.

Lemma emits_put_state s' : emits P (put_state s').
Proof. intros s. constructor. Qed.

Lemma emits_emit e : P e -> emits P (emit e).
Proof. intros H s. by repeat constructor. Qed.

Lemma emits_bind (m : M A) (k : A -> M B) :
  emits P m -> (forall a, emits P (k a)) -> emits P (bind m k).
Proof.
  intros Hm Hk s. unfold bind. specialize (Hm s).
  destruct (m s) as [[a|e] s1 t1]; [|exact Hm].
  specialize (Hk a s1). destruct (k a s1) as [r s2 t2]. cbn in *.
  by apply Forall_app.
Qed.

(** The same when the continuation is only known for the values [m] returns. *)
Lemma emits_bind_res (Q : A -> Prop) (m : M A) (k : A -> M B) :
  emits P m -> (forall s a, res (m s) = Ok a -> Q a) -> (forall a, Q a -> emits P (k a)) ->
  emits P (bind m k).
Proof.
  intros Hm HQ Hk s. unfold bind. specialize (Hm s). specialize (HQ s).
  destruct (m s) as [[a|e] s1 t1]; [|exact Hm].
  specialize (Hk a (HQ a eq_refl) s1). destruct (k a s1) as [r s2 t2]. cbn in *.
  by apply Forall_app.
Qed.

End Emits.

Lemma emits_for_each {A} (P : event -> Prop) (l : list A) (body : A -> M unit) :
  (forall x, x ∈ l -> emits P (body x)) -> emits P (for_each l body).
Proof.
  induction l as [|x l IH]; intros H; cbn; [apply emits_ret|].
  apply emits_bind; [apply H; left|]. intros _. apply IH. intros y Hy. apply H. by right.
Qed.

(** One step of the analysis of what a monadic program emits. *)
Ltac emits_step :=
  first
    [ apply emits_ret | apply emits_raise | apply emits_get_state | apply emits_put_state
    | apply emits_emit
    | apply emits_bind; [|intros ?]
    | match goal with
      | |- emits _ (if ?b then _ else _) => destruct b
      | |- emits _ (match ?x with _ => _ end) => destruct x
      end ].

(** ** The dictionary [config_env_vars] *)

Section ConfigEnvVars.

Variables (fw : framework) (self : easyblock) (s : state).

Lemma cuda_env_vars_lookup_None k :
  k ∉ cuda_keys -> cuda_env_vars fw self s !! k = None.
Proof.
  intros Hk. apply not_elem_of_list_to_map_1. exact Hk.
Qed.

Lemma cudnn_env_vars_lookup_None k :
  k ∉ cudnn_keys -> cudnn_env_vars fw !! k = None.
Proof.
  intros Hk. apply not_elem_of_list_to_map_1. exact Hk.
Qed.

Lemma dict_update_lookup_r (d d2 : gmap string pyval) k :
  d2 !! k = None -> dict_update d d2 !! k = d !! k.
Proof. intros H. unfold dict_update. by rewrite lookup_union_r. Qed.

Lemma dict_update_lookup_l (d d2 : gmap string pyval) k v :
  d2 !! k = Some v -> dict_update d d2 !! k = Some v.
Proof. intros H. unfold dict_update. by rewrite (lookup_union_Some_l _ _ _ _ H). Qed.

(** Outside the keys of the two updates the dictionary is its literal. *)
Lemma config_env_vars_lookup_base k :
  k ∉ cuda_keys -> k ∉ cudnn_keys ->
  config_env_vars fw self s !! k = base_env_vars fw self s !! k.
Proof.
  intros Hc Hd. unfold config_env_vars.
  destruct (truthy (get_software_root fw "cuDNN"));
    destruct (truthy (get_software_root fw "CUDA"));
    rewrite ?dict_update_lookup_r;
    auto using cuda_env_vars_lookup_None, cudnn_env_vars_lookup_None.
Qed.

(** Without CUDA the dictionary has none of the CUDA keys. *)
Lemma config_env_vars_no_cuda k :
  truthy (get_software_root fw "CUDA") = false -> k ∈ cuda_keys ->
  config_env_vars fw self s !! k = None.
Proof.
  intros Hc Hk. unfold config_env_vars. rewrite Hc.
  unfold cuda_keys in Hk. elem_cases Hk;
    destruct (truthy (get_software_root fw "cuDNN")); reflexivity.
Qed.

(** With cuDNN the dictionary holds its two entries, whatever else is there. *)
Lemma config_env_vars_cudnn :
  truthy (get_software_root fw "cuDNN") = true ->
  config_env_vars fw self s !! "CUDNN_INSTALL_PATH" = Some (get_software_root fw "cuDNN") /\
  config_env_vars fw self s !! "TF_CUDNN_VERSION" = Some (get_software_version fw "cuDNN").
Proof.
  intros Hd. unfold config_env_vars. rewrite Hd.
  split; apply dict_update_lookup_l; reflexivity.
Qed.

Lemma base_env_vars_flags :
  base_env_vars fw self s !! "TF_NEED_CUDA"
    = Some (Some (flag01 (truthy (get_software_root fw "CUDA")))) /\
  base_env_vars fw self s !! "TF_NEED_JEMALLOC"
    = Some (Some (flag01 (truthy (get_software_root fw "jemalloc")))) /\
  base_env_vars fw self s !! "TF_NEED_OPENCL"
    = Some (Some (flag01 (truthy (get_software_root fw "OpenCL")))).
Proof. repeat split; reflexivity. Qed.

Lemma config_env_vars_flags :
  config_env_vars fw self s !! "TF_NEED_CUDA"
    = Some (Some (flag01 (truthy (get_software_root fw "CUDA")))) /\
  config_env_vars fw self s !! "TF_NEED_JEMALLOC"
    = Some (Some (flag01 (truthy (get_software_root fw "jemalloc")))) /\
  config_env_vars fw self s !! "TF_NEED_OPENCL"
    = Some (Some (flag01 (truthy (get_software_root fw "OpenCL")))).
Proof.
  pose proof base_env_vars_flags as (Hcuda & Hjemalloc & Hopencl).
  repeat split; (rewrite config_env_vars_lookup_base; [done|..]);
    unfold cuda_keys, cudnn_keys;
    by repeat (apply not_elem_of_cons; split; [done|]); apply not_elem_of_nil.
Qed.

End ConfigEnvVars.

(** Two association lists with the same keys, whose values agree outside
    [skip], give maps that agree outside [skip]. *)
Lemma list_to_map_agree (skip : list string) (l1 l2 : list (string * pyval)) k :
  Forall2 (fun a b => a.1 = b.1 /\ (a.1 ∈ skip \/ a.2 = b.2)) l1 l2 ->
  k ∉ skip ->
  (list_to_map l1 : gmap string pyval) !! k = (list_to_map l2 : gmap string pyval) !! k.
Proof.
  intros H Hk. induction H as [|[k1 v1] [k2 v2] l1 l2 [Hkey Hval] _ IH]; [done|].
  cbn in *. subst k2. rewrite !lookup_insert. case_decide; [|exact IH].
  subst k1. destruct Hval as [Hin|Hv]; [done|by rewrite Hv].
Qed.

(** The literal depends on the framework through the three presence flags only. *)
Lemma base_env_vars_frame fw fw' self s k :
  k ∉ presence_flags ->
  base_env_vars fw' self s !! k = base_env_vars fw self s !! k.
Proof.
  intros Hk. unfold base_env_vars. apply (list_to_map_agree presence_flags); [|done].
  repeat (constructor; [split; [reflexivity|]|]); [..|constructor];
    cbn; first [by right | by left; repeat constructor].
Qed.

(** Entries other than the two of cuDNN do not depend on the cuDNN root. *)
Lemma config_env_vars_cudnn_frame fw self s root k :
  k ∉ cudnn_keys ->
  config_env_vars (with_root fw "cuDNN" root) self s !! k = config_env_vars fw self s !! k.
Proof.
  intros Hk.
  assert (E : forall fw0 (d : gmap string pyval),
             (if truthy (get_software_root fw0 "cuDNN")
              then dict_update d (cudnn_env_vars fw0) else d) !! k = d !! k).
  { intros fw0 d. destruct (truthy _); [|done].
    apply dict_update_lookup_r, cudnn_env_vars_lookup_None, Hk. }
  unfold config_env_vars. rewrite !E. reflexivity.
Qed.

(** C1 (as amended): CUDA, jemalloc and OpenCL each have a presence flag that
    is "1" when the root resolves and "0" when it does not; cuDNN has none,
    its root only decides the two cuDNN entries; and no entry besides those
    flags and the CUDA and cuDNN entries depends on what is installed. *)
Theorem config_env_vars_presence_flags (fw : framework) (self : easyblock) (s : state) :
  config_env_vars fw self s !! "TF_NEED_CUDA"
    = Some (Some (flag01 (truthy (get_software_root fw "CUDA")))) /\
  config_env_vars fw self s !! "TF_NEED_JEMALLOC"
    = Some (Some (flag01 (truthy (get_software_root fw "jemalloc")))) /\
  config_env_vars fw self s !! "TF_NEED_OPENCL"
    = Some (Some (flag01 (truthy (get_software_root fw "OpenCL")))) /\
  (forall root k, k ∉ cudnn_keys ->
     config_env_vars (with_root fw "cuDNN" root) self s !! k
       = config_env_vars fw self s !! k) /\
  (forall fw' k, k ∉ presence_flags ++ cuda_keys ++ cudnn_keys ->
     config_env_vars fw' self s !! k = config_env_vars fw self s !! k).
Proof.
  destruct (config_env_vars_flags fw self s) as (Hcuda & Hjemalloc & Hopencl).
  repeat split; try done.
  - intros root k Hk. by apply config_env_vars_cudnn_frame.
  - intros fw' k Hk.
    apply not_elem_of_app in Hk as [Hflags Hk]. apply not_elem_of_app in Hk as [Hcu Hdn].
    rewrite !config_env_vars_lookup_base by done. by apply base_env_vars_frame.
Qed.

(** C1 (as stated) fails for cuDNN: with cuDNN installed and nothing else, no
    entry of the dictionary is "1". *)
Lemma config_env_vars_no_cudnn_flag :
  let fw := with_root demo_framework "cuDNN" (Some "/opt/eb/cuDNN") in
  truthy (get_software_root fw "cuDNN") = true /\
  forall k, config_env_vars fw (demo_easyblock ∅ "" false) demo_state !! k ≠ Some (Some "1").
Proof.
  split; [reflexivity|]. intros k Hk.
  apply elem_of_map_to_list in Hk.
  match type of Hk with _ ∈ ?l => let l' := eval vm_compute in l in change l with l' in Hk end.
  elem_absurd Hk.
Qed.

(** ** The order of [sorted] *)

Lemma pyval_le_trans : Transitive pyval_le.
Proof.
  intros [x|] [y|] [z|]; simpl; try done. apply (transitivity (R := String.le)).
Qed.

Lemma pyval_le_total : Total pyval_le.
Proof.
  intros [x|] [y|]; simpl; auto. apply (total String.le).
Qed.

Lemma item_le_trans : Transitive item_le.
Proof.
  intros [k1 v1] [k2 v2] [k3 v3]. unfold item_le. simpl.
  repeat case_decide; subst; intros H12 H23; try done.
  - by apply (pyval_le_trans _ v2).
  - destruct H. by apply (anti_symm String.le).
  - by etrans.
Qed.

Lemma item_le_total : Total item_le.
Proof.
  intros [k1 v1] [k2 v2]. unfold item_le. simpl.
  repeat case_decide; subst; try done.
  - apply pyval_le_total.
  - apply (total String.le).
Qed.

Lemma key_lt_of_le (a b : string) : String.le a b -> a ≠ b -> key_lt a b.
Proof.
  unfold String.le, key_lt, String.leb, String.ltb. intros Hle Hne.
  destruct (String.compare a b) eqn:E; try done.
  by apply String.compare_eq_iff in E.
Qed.

(** A list of tuples sorted by [item_le] with pairwise distinct keys has its
    keys in strictly ascending order. *)
Lemma sorted_keys_strict (l : list (string * pyval)) :
  StronglySorted item_le l -> NoDup l.*1 -> StronglySorted key_lt l.*1.
Proof.
  induction 1 as [|[k v] l Hsorted IH Hall]; intros Hnd; [constructor|].
  cbn in *. apply NoDup_cons in Hnd as [Hk Hnd]. constructor; [by apply IH|].
  apply Forall_fmap, Forall_forall. intros [k' v'] Hin.
  rewrite Forall_forall in Hall. specialize (Hall _ Hin).
  assert (k ≠ k') as Hne.
  { intros ->. apply Hk. apply list_elem_of_fmap. by exists (k', v'). }
  unfold item_le in Hall. cbn in *. case_decide; [done|]. by apply key_lt_of_le.
Qed.

Lemma sorted_items_Permutation (d : gmap string pyval) :
  sorted_items d ≡ₚ map_to_list d.
Proof. apply merge_sort_Permutation. Qed.

Lemma sorted_items_lookup (d : gmap string pyval) k v :
  (k, v) ∈ sorted_items d <-> d !! k = Some v.
Proof. by rewrite sorted_items_Permutation, elem_of_map_to_list. Qed.

Lemma sorted_items_keys_ascending (d : gmap string pyval) :
  StronglySorted key_lt (sorted_items d).*1.
Proof.
  apply sorted_keys_strict.
  - pose proof item_le_trans. pose proof item_le_total.
    apply StronglySorted_merge_sort; apply _.
  - rewrite sorted_items_Permutation. apply NoDup_fst_map_to_list.
Qed.

(** ** The configure step *)

(** The construction of the dictionary makes no call that is recorded and
    changes nothing; it raises when CUDA is installed and [CC] is not set, and
    returns [config_env_vars] otherwise. *)
Lemma make_config_env_vars_run fw self s :
  make_config_env_vars fw self s
  = mkOutcome (if truthy (get_software_root fw "CUDA") then
                 match st_environ s !! "CC" with
                 | Some _ => Ok (config_env_vars fw self s)
                 | None => Raise PythonError
                 end
               else Ok (config_env_vars fw self s)) s [].
Proof.
  unfold make_config_env_vars, config_env_vars, cuda_env_vars, host_compiler_path, getenv_in.
  run. destruct (truthy (get_software_root fw "CUDA")); [|done].
  run. by destruct (st_environ s !! "CC").
Qed.

Lemma make_config_env_vars_res fw self s d :
  res (make_config_env_vars fw self s) = Ok d -> d = config_env_vars fw self s.
Proof.
  rewrite make_config_env_vars_run. cbn [res].
  destruct (truthy _); [destruct (st_environ s !! "CC")|]; congruence.
Qed.

Lemma make_config_env_vars_emits fw self (P : event -> Prop) :
  emits P (make_config_env_vars fw self).
Proof. intros s. rewrite make_config_env_vars_run. constructor. Qed.

(** Every variable the configure step sets is [PATH] (for the wrapper of the
    Intel compiler) or an entry of [config_env_vars]. *)
Lemma configure_step_setvars fw self :
  emits (fun e => forall k v, e = EvSetvar k v ->
                  k = "PATH" \/ exists s', config_env_vars fw self s' !! k = Some v)
        (configure_step fw self).
Proof.
  unfold configure_step.
  apply emits_bind; [unfold tempfile_mkdtemp; repeat emits_step; by intros k v [=]|].
  intros tmpdir. apply emits_bind.
  { unfold do_which, os_getenv, write_file, adjust_permissions, log_info, env_setvar.
    repeat emits_step; try (intros k v [=]; fail). intros k v [= <- <-]. by left. }
  intros _.
  apply emits_bind; [unfold prepare_python; repeat emits_step; by intros k v [=]|].
  intros _. apply (emits_bind_res _ (fun d => exists s', d = config_env_vars fw self s')).
  - apply make_config_env_vars_emits.
  - intros s d Hd. exists s. by apply make_config_env_vars_res.
  - intros d [s' ->]. unfold apply_regex_substitutions, run_cmd.
    repeat emits_step; try (intros k v [=]; fail).
    unfold apply_env_vars, env_setvar. apply emits_for_each. intros [k v] Hin.
    repeat emits_step. intros k' v' [= <- <-]. right. eexists. by apply sorted_items_lookup.
Qed.

(** The environment after the loop over items with pairwise distinct keys,
    all of them strings: a variable holds the string given for it, and its
    old value if it was given none. *)
Lemma setvars_environ (l : list (string * pyval)) s k :
  NoDup l.*1 -> all_set l = true ->
  st_environ (setvars l s) !! k
  = match (list_to_map l : gmap string pyval) !! k with
    | Some (Some v) => Some v
    | _ => st_environ s !! k
    end.
Proof.
  revert s. induction l as [|[k1 [v1|]] l IH]; intros s Hnd Hset; [done| |done].
  cbn in Hnd. apply NoDup_cons in Hnd as [Hk1 Hnd]. cbn [setvars list_to_map foldr].
  rewrite IH by done. cbn [fst snd]. destruct (decide (k = k1)) as [->|Hne].
  - rewrite lookup_insert_eq.
    apply not_elem_of_list_to_map in Hk1. rewrite Hk1. cbn. by rewrite lookup_insert_eq.
  - rewrite lookup_insert_ne by done.
    destruct (list_to_map l !! k) as [[v|]|]; [done|..]; cbn; by rewrite lookup_insert_ne.
Qed.

(** Whether the loop raises or not, it leaves the variables that are no key of
    the list as they were. *)
Lemma setvars_frame (l : list (string * pyval)) s k :
  k ∉ l.*1 -> st_environ (setvars l s) !! k = st_environ s !! k.
Proof.
  revert s. induction l as [|[k1 [v1|]] l IH]; intros s Hk; [done| |done].
  cbn in Hk. apply not_elem_of_cons in Hk as [Hne Hk]. cbn [setvars].
  rewrite IH by done. cbn. by rewrite lookup_insert_ne.
Qed.

Lemma list_to_map_sorted_items (d : gmap string pyval) :
  list_to_map (sorted_items d) = d.
Proof.
  rewrite <- (list_to_map_to_list d) at 2. apply list_to_map_proper.
  - rewrite sorted_items_Permutation. apply NoDup_fst_map_to_list.
  - apply sorted_items_Permutation.
Qed.

Lemma sorted_items_NoDup (d : gmap string pyval) : NoDup (sorted_items d).*1.
Proof. rewrite sorted_items_Permutation. apply NoDup_fst_map_to_list. Qed.

Lemma all_set_sorted_items (d : gmap string pyval) :
  all_set (sorted_items d) = true <-> forall k, d !! k <> Some None.
Proof.
  rewrite all_set_spec. split; intros H k Hk; apply (H k); by apply sorted_items_lookup.
Qed.

Lemma sorted_items_environ (d : gmap string pyval) s k :
  (forall k, d !! k <> Some None) ->
  st_environ (setvars (sorted_items d) s) !! k
  = match d !! k with
    | Some (Some v) => Some v
    | _ => st_environ s !! k
    end.
Proof.
  intros Hd. rewrite setvars_environ, list_to_map_sorted_items; [done|..].
  - apply sorted_items_NoDup.
  - by apply all_set_sorted_items.
Qed.

Lemma commands_setvar_events (l : list (string * pyval)) :
  commands (map setvar_event l) = [].
Proof. by induction l as [|[k v] l IH]. Qed.

Lemma commands_elem c (tr : list event) : EvRunCmd c ∈ tr -> c ∈ commands tr.
Proof. intros Hin. unfold commands. apply list_elem_of_omap. by exists (EvRunCmd c). Qed.

Section ConfigureStep.

Variables (fw : framework) (self : easyblock) (s : state).

(** The step from the construction of the dictionary on: nothing is done when
    the construction raises; otherwise the loop runs, and only when it
    returns is [configure.py] patched and [./configure] run. *)
Lemma configure_tail_run tmpdir s1 :
  configure_tail fw self tmpdir s1
  = match res (make_config_env_vars fw self s1) with
    | Raise e => mkOutcome (Raise e) s1 []
    | Ok d =>
        if all_set (sorted_items d) then
          mkOutcome (if run_cmd_ok fw (st_environ (setvars (sorted_items d) s1)) "./configure"
                     then Ok tt
                     else Raise (EasyBuildError cmd_failed [PyVal (Some "./configure")]))
                    (setvars (sorted_items d) s1)
                    (map setvar_event (sorted_items d)
                     ++ [EvApplyRegexSubstitutions "configure.py" [output_base_rule tmpdir];
                         EvRunCmd "./configure"])
        else mkOutcome (Raise PythonError) (setvars (sorted_items d) s1)
                       (map setvar_event (applied (sorted_items d)))
    end.
Proof.
  unfold configure_tail. rewrite run_bind, make_config_env_vars_run. cbn [res].
  destruct (truthy _); [destruct (st_environ s1 !! "CC")|]; try reflexivity;
    rewrite run_bind, apply_env_vars_run;
    (destruct (all_set _) eqn:Hset; [rewrite (applied_all_set _ Hset)|reflexivity]);
    run; by destruct (run_cmd_ok _ _ _).
Qed.

(** With CUDA the dictionary has the entry for the host compiler. *)
Lemma config_env_vars_host_compiler s1 :
  truthy (get_software_root fw "CUDA") = true ->
  config_env_vars fw self s1 !! "GCC_HOST_COMPILER_PATH" = Some (host_compiler_path fw s1).
Proof.
  intros Hcuda. unfold config_env_vars. rewrite Hcuda.
  destruct (truthy (get_software_root fw "cuDNN")).
  - rewrite dict_update_lookup_r by done. by apply dict_update_lookup_l.
  - by apply dict_update_lookup_l.
Qed.

(** A dictionary without [None] is one that gets built. *)
Lemma make_config_env_vars_all_set s1 :
  (forall k, config_env_vars fw self s1 !! k <> Some None) ->
  make_config_env_vars fw self s1 = mkOutcome (Ok (config_env_vars fw self s1)) s1 [].
Proof.
  intros Hd. rewrite make_config_env_vars_run.
  destruct (truthy (get_software_root fw "CUDA")) eqn:Hcuda; [|done].
  destruct (st_environ s1 !! "CC") eqn:Hcc; [done|].
  destruct (Hd "GCC_HOST_COMPILER_PATH"). rewrite config_env_vars_host_compiler by done.
  unfold host_compiler_path, getenv_in. by rewrite Hcc.
Qed.

Lemma configure_tail_all_set tmpdir s1 :
  (forall k, config_env_vars fw self s1 !! k <> Some None) ->
  configure_tail fw self tmpdir s1
  = mkOutcome (if run_cmd_ok fw (st_environ (setvars (sorted_items (config_env_vars fw self s1)) s1))
                             "./configure"
               then Ok tt
               else Raise (EasyBuildError cmd_failed [PyVal (Some "./configure")]))
              (setvars (sorted_items (config_env_vars fw self s1)) s1)
              (map setvar_event (sorted_items (config_env_vars fw self s1))
               ++ [EvApplyRegexSubstitutions "configure.py" [output_base_rule tmpdir];
                   EvRunCmd "./configure"]).
Proof.
  intros Hd. rewrite configure_tail_run, make_config_env_vars_all_set by done. cbn [res].
  by rewrite (proj2 (all_set_sorted_items _) Hd).
Qed.

(** [./configure] is run only after a loop over a dictionary without [None]. *)
Lemma configure_tail_configured tmpdir s1 :
  EvRunCmd "./configure" ∈ trace (configure_tail fw self tmpdir s1) ->
  forall k, config_env_vars fw self s1 !! k <> Some None.
Proof.
  rewrite configure_tail_run.
  destruct (res (make_config_env_vars fw self s1)) as [d|e] eqn:Hd; cbn [trace].
  - apply make_config_env_vars_res in Hd as ->.
    destruct (all_set _) eqn:Hset; cbn [trace].
    + intros _. by apply all_set_sorted_items.
    + intros Hin. apply list_elem_of_fmap in Hin as [[k v] [[=] _]].
  - intros Hin. by apply elem_of_nil in Hin.
Qed.

(** When the dictionary gets built, what the step does from there on is the
    loop, followed by calls that set no variable. *)
Lemma configure_tail_loop tmpdir s1 :
  truthy (get_software_root fw "CUDA") = false \/ is_Some (st_environ s1 !! "CC") ->
  exists post,
    trace (configure_tail fw self tmpdir s1)
    = trace (apply_env_vars (config_env_vars fw self s1) s1) ++ post /\
    setvar_keys post = [].
Proof.
  intros Hbuilt. rewrite configure_tail_run, make_config_env_vars_run, apply_env_vars_run.
  cbn [res trace].
  assert ((if truthy (get_software_root fw "CUDA") then
             match st_environ s1 !! "CC" with
             | Some _ => Ok (config_env_vars fw self s1)
             | None => Raise PythonError
             end
           else Ok (config_env_vars fw self s1)) = Ok (config_env_vars fw self s1)) as ->.
  { destruct Hbuilt as [->|[cc ->]]; [done|]. by destruct (truthy _). }
  destruct (all_set _) eqn:Hset; cbn [trace].
  - rewrite (applied_all_set _ Hset). by eexists.
  - exists []. by rewrite app_nil_r.
Qed.

(** When the interpreter is found and the wrapper of the Intel compiler, if
    needed, can be put on the search path, the step goes on to build the
    dictionary in the state [prepare_python] leaves: up to there it has set
    no variable but [PATH], and run no command. *)
Lemma configure_step_reaches_tail py lib :
  pick_python fw = inr (py, lib) ->
  String.eqb (comp_family (toolchain self)) (INTELCOMP fw) = false \/
    is_Some (st_environ s !! "PATH") ->
  exists tmpdir s' pre,
    configure_step fw self s
    = mkOutcome (res (configure_tail fw self tmpdir s'))
                (final (configure_tail fw self tmpdir s'))
                (pre ++ trace (configure_tail fw self tmpdir s')) /\
    st_python_cmd s' = Some py /\ st_pylibdir s' = lib /\
    environ_frame ["PATH"] s s' /\
    Forall (fun k => k = "PATH") (setvar_keys pre) /\
    commands pre = [].
Proof.
  intros Hpy Hreach. exists (mkdtemp fw (st_tmp s) "-bazel-configure").
  unfold configure_step, configure_tail, output_base_rule.
  destruct (String.eqb _ _) eqn:Hfam.
  - destruct Hreach as [|[path Hpath]]; [done|].
    eexists (mkState (<["PATH" := str_join ":"
                          [os_path_dirname
                             (os_path_join (mkdtemp fw (st_tmp s) "-bazel-configure")
                                           ["bin"; "icc"]); path]]> (st_environ s))
                     (Some py) lib (S (st_tmp s))),
            [_; _; _; EvSetvar "PATH" _; _; _].
    split.
    { run. rewrite Hpath, Hpy. run.
      destruct (make_config_env_vars _ _ _) as [[d|e] s2 t2]; [|reflexivity].
      destruct (apply_env_vars _ _) as [[[]|e] s3 t3]; [|reflexivity].
      by destruct (run_cmd_ok _ _ _). }
    split; [reflexivity|]. split; [reflexivity|]. split; [|split; [|reflexivity]].
    + intros k Hk. cbn [st_environ]. apply lookup_insert_ne.
      intros Heq. apply Hk. subst k. left.
    + by repeat constructor.
  - eexists (mkState (st_environ s) (Some py) lib (S (st_tmp s))), [_; _].
    split.
    { run. rewrite Hpy. run.
      destruct (make_config_env_vars _ _ _) as [[d|e] s2 t2]; [|reflexivity].
      destruct (apply_env_vars _ _) as [[[]|e] s3 t3]; [|reflexivity].
      by destruct (run_cmd_ok _ _ _). }
    split; [reflexivity|]. split; [reflexivity|]. split; [|split; [|reflexivity]].
    + by intros k Hk.
    + constructor.
Qed.

(** A step that ran [./configure] found an interpreter and went through the
    loop over a dictionary without [None]: every entry has been handed to
    [env.setvar] and is in the environment the step leaves. *)
Lemma configure_step_configured :
  EvRunCmd "./configure" ∈ trace (configure_step fw self s) ->
  exists py lib s',
    pick_python fw = inr (py, lib) /\
    st_python_cmd s' = Some py /\ st_pylibdir s' = lib /\
    environ_frame ["PATH"] s s' /\
    (forall k, config_env_vars fw self s' !! k <> Some None) /\
    (forall k v, config_env_vars fw self s' !! k = Some (Some v) ->
       EvSetvar k (Some v) ∈ trace (configure_step fw self s) /\
       st_environ (final (configure_step fw self s)) !! k = Some v) /\
    st_python_cmd (final (configure_step fw self s)) = Some py /\
    st_pylibdir (final (configure_step fw self s)) = lib.
Proof.
  intros Hrun.
  assert (exists py lib, pick_python fw = inr (py, lib)) as (py & lib & Hpy).
  { destruct (pick_python fw) as [e|[py lib]] eqn:Hpy; [|by eexists _, _].
    exfalso. revert Hrun. unfold configure_step. run.
    destruct (String.eqb _ _); run; [destruct (st_environ s !! "PATH"); run|];
      rewrite ?Hpy; cbn [trace]; intros Hin; elem_absurd Hin. }
  assert (String.eqb (comp_family (toolchain self)) (INTELCOMP fw) = false \/
          is_Some (st_environ s !! "PATH")) as Hreach.
  { destruct (String.eqb _ _) eqn:Hfam; [|by left]. right.
    destruct (st_environ s !! "PATH") eqn:Hpath; [done|].
    exfalso. revert Hrun. unfold configure_step. rewrite Hfam. run. rewrite Hpath.
    cbn [trace]. intros Hin. elem_absurd Hin. }
  destruct (configure_step_reaches_tail py lib Hpy Hreach)
    as (tmpdir & s' & pre & Hstep & Hpy' & Hlib' & Hframe & Hpre & Hcmd).
  exists py, lib, s'. rewrite Hstep in Hrun |- *. cbn [trace final] in Hrun |- *.
  assert (Hd : forall k, config_env_vars fw self s' !! k <> Some None).
  { apply (configure_tail_configured tmpdir).
    apply elem_of_app in Hrun as [Hin|Hin]; [|done].
    apply commands_elem in Hin. rewrite Hcmd in Hin. by apply elem_of_nil in Hin. }
  rewrite (configure_tail_all_set tmpdir s' Hd). cbn [trace final].
  destruct (setvars_python (sorted_items (config_env_vars fw self s')) s') as (Hp & Hl & _).
  repeat split; try done; try congruence.
  - apply elem_of_app. right. apply elem_of_app. left.
    apply list_elem_of_fmap. exists (k, Some v). split; [done|]. by apply sorted_items_lookup.
  - rewrite sorted_items_environ by done. by rewrite H.
Qed.

End ConfigureStep.

(** C8 (as amended): the loop of the configure step hands the entries of the
    dictionary to [env.setvar] in strictly ascending order of their keys,
    each at most once, starting with the first.  When no value is [None] all
    of them are applied and the loop returns.  When a value is [None] the
    loop raises at the first such entry in that order, and the entries after
    it are never applied.  A configure step that gets to the loop runs it on
    [config_env_vars], the only other variable it sets being [PATH],
    earlier. *)
Theorem configure_step_applies_sorted
    (fw : framework) (self : easyblock) (s : state) (d : gmap string pyval) :
  ((exists n, trace (apply_env_vars d s) = map setvar_event (take n (sorted_items d))) /\
   StronglySorted key_lt (setvar_keys (trace (apply_env_vars d s))) /\
   (forall k v, EvSetvar k v ∈ trace (apply_env_vars d s) -> d !! k = Some v)) /\
  ((forall k, d !! k <> Some None) ->
   res (apply_env_vars d s) = Ok tt /\
   trace (apply_env_vars d s) = map setvar_event (sorted_items d) /\
   (forall k v, EvSetvar k v ∈ trace (apply_env_vars d s) <-> d !! k = Some v) /\
   (forall k v, d !! k = Some (Some v) ->
      st_environ (final (apply_env_vars d s)) !! k = Some v)) /\
  (forall k, d !! k = Some None ->
   exists before k0 after,
     sorted_items d = before ++ (k0, None) :: after /\
     (forall kv, kv ∈ before -> kv.2 <> None) /\
     res (apply_env_vars d s) = Raise PythonError /\
     trace (apply_env_vars d s) = map setvar_event (before ++ [(k0, None)]) /\
     (forall kv, kv ∈ after -> kv.1 ∉ setvar_keys (trace (apply_env_vars d s)))) /\
  (forall py lib,
     pick_python fw = inr (py, lib) ->
     String.eqb (comp_family (toolchain self)) (INTELCOMP fw) = false \/
       is_Some (st_environ s !! "PATH") ->
     truthy (get_software_root fw "CUDA") = false \/ is_Some (st_environ s !! "CC") ->
     exists s' pre post,
       trace (configure_step fw self s)
         = pre ++ trace (apply_env_vars (config_env_vars fw self s') s') ++ post /\
       Forall (fun k => k = "PATH") (setvar_keys pre) /\
       setvar_keys post = []).
Proof.
  rewrite apply_env_vars_run. cbn [res trace final]. split; [|split; [|split]].
  - destruct (applied_take (sorted_items d)) as [n Hn]. rewrite Hn.
    split; [by exists n|]. split.
    + rewrite setvar_keys_setvar_events, fmap_take.
      apply (StronglySorted_app_1_l _ _ (drop n (sorted_items d).*1)).
      rewrite take_drop. apply sorted_items_keys_ascending.
    + intros k v Hin. apply sorted_items_lookup.
      apply list_elem_of_fmap in Hin as [[k' v'] [Heq Hin]]. injection Heq as -> ->.
      by apply (subseteq_take n).
  - intros Hd. pose proof (proj2 (all_set_sorted_items d) Hd) as Hset.
    rewrite Hset, (applied_all_set _ Hset). repeat split; try done.
    + intros Hin. apply sorted_items_lookup.
      apply list_elem_of_fmap in Hin as [[k' v'] [Heq Hin]]. by injection Heq as -> ->.
    + intros Hk. apply sorted_items_lookup in Hk. apply list_elem_of_fmap. by exists (k, v).
    + intros k v Hk. rewrite sorted_items_environ by done. by rewrite Hk.
  - intros k Hk.
    assert (Hset : all_set (sorted_items d) = false).
    { destruct (all_set _) eqn:Hset; [|done].
      by destruct (proj1 (all_set_sorted_items d) Hset k). }
    destruct (applied_first_None _ Hset) as (before & k0 & after & Hl & Hb & Ha & Hs).
    exists before, k0, after. rewrite Hset, Ha. repeat split; try done.
    + intros [k1 [v1|]] Hin; [done|]. by apply (all_set_spec before) in Hin.
    + intros [k1 v1] Hin. rewrite setvar_keys_setvar_events. cbn [fst]. intros Hin'.
      pose proof (sorted_items_NoDup d) as Hnd. rewrite Hl, fmap_app in Hnd.
      apply NoDup_app in Hnd as (_ & Hdisj & Hnd). cbn in Hnd.
      apply NoDup_cons in Hnd as [Hk0 _].
      assert (Hk1 : k1 ∈ after.*1) by (apply list_elem_of_fmap; by exists (k1, v1)).
      rewrite fmap_app in Hin'. apply elem_of_app in Hin' as [Hin'|Hin'].
      * apply (Hdisj k1 Hin'). by right.
      * cbn in Hin'. apply elem_of_cons in Hin' as [->|Hin']; [done|].
        by apply elem_of_nil in Hin'.
  - intros py lib Hpy Hreach Hbuilt.
    destruct (configure_step_reaches_tail fw self s py lib Hpy Hreach)
      as (tmpdir & s' & pre & -> & _ & _ & Hframe & Hpre & _).
    destruct (configure_tail_loop fw self tmpdir s') as (post & Htail & Hpost).
    { destruct Hbuilt as [|Hcc]; [by left|right].
      rewrite Hframe; [done|]. intros Hin. elem_absurd Hin. }
    exists s', pre, post. cbn [trace]. rewrite Htail, apply_env_vars_run. by cbn [trace].
Qed.

Lemma configure_step_applies_sorted_witness :
  let fw := demo_framework in
  let self := demo_easyblock ∅ "" false in
  exists s' pre post,
    trace (configure_step fw self demo_state)
      = pre ++ trace (apply_env_vars (config_env_vars fw self s') s') ++ post /\
    Forall (fun k => k = "PATH") (setvar_keys pre) /\
    setvar_keys post = [].
Proof.
  intros fw self.
  exact (proj2 (proj2 (proj2 (configure_step_applies_sorted fw self demo_state ∅)))
               "/opt/eb/bin/python" "lib/python2.7/site-packages" eq_refl
               (or_introl eq_refl) (or_introl eq_refl)).
Defined.

(** C8 (as stated) fails for a dictionary with a value that is [None]: with
    [CXXFLAGS] not set the dictionary has its fifteen entries, the first of
    them in sorted order is [CC_OPT_FLAGS] with the value [None], and the
    step raises at that call; no other entry is applied. *)
Lemma configure_step_stops_at_None :
  let self := demo_easyblock ∅ "" false in
  let d := config_env_vars demo_framework self
             (mkState (st_environ no_cxxflags_state) (Some "/opt/eb/bin/python")
                      "lib/python2.7/site-packages" 1) in
  length (sorted_items d) = 15 /\
  d !! "MPI_HOME" = Some (Some "") /\
  res (configure_step demo_framework self no_cxxflags_state) = Raise PythonError /\
  trace (configure_step demo_framework self no_cxxflags_state)
  = [EvMkdtemp "-bazel-configure"; EvPreparePython; EvSetvar "CC_OPT_FLAGS" None] /\
  st_environ (final (configure_step demo_framework self no_cxxflags_state)) !! "MPI_HOME" = None.
Proof. by vm_compute. Qed.

(** The keys in the order in which the configure step sets them at the
    concrete installation (upper case sorts before lower case, [_] after the
    letters). *)
Example configure_step_demo_keys :
  setvar_keys (trace (configure_step demo_framework (demo_easyblock ∅ "" false) demo_state))
  = ["CC_OPT_FLAGS"; "MPI_HOME"; "PYTHON_BIN_PATH"; "PYTHON_LIB_PATH"; "TF_CUDA_CLANG";
     "TF_ENABLE_XLA"; "TF_NEED_CUDA"; "TF_NEED_GCP"; "TF_NEED_GDR"; "TF_NEED_HDFS";
     "TF_NEED_JEMALLOC"; "TF_NEED_MPI"; "TF_NEED_OPENCL"; "TF_NEED_S3"; "TF_NEED_VERBS"].
Proof. by vm_compute. Qed.

(** C6: when the CUDA root does not resolve, the dictionary has none of
    [CUDA_TOOLKIT_PATH], [GCC_HOST_COMPILER_PATH],
    [TF_CUDA_COMPUTE_CAPABILITIES] and [TF_CUDA_VERSION], and the configure
    step hands none of them to [env.setvar]. *)
Theorem configure_step_without_cuda (fw : framework) (self : easyblock) (s : state) :
  truthy (get_software_root fw "CUDA") = false ->
  forall k, k ∈ cuda_keys ->
    config_env_vars fw self s !! k = None /\
    k ∉ setvar_keys (trace (configure_step fw self s)).
Proof.
  intros Hcuda k Hk. split; [by apply config_env_vars_no_cuda|].
  intros Hin. apply setvar_keys_elem in Hin as [v Hin].
  pose proof (configure_step_setvars fw self s) as Hall.
  rewrite Forall_forall in Hall. destruct (Hall _ Hin k v eq_refl) as [->|[s' Hs']].
  - unfold cuda_keys in Hk. elem_absurd Hk.
  - by rewrite config_env_vars_no_cuda in Hs'.
Qed.

Lemma configure_step_without_cuda_witness :
  truthy (get_software_root demo_framework "CUDA") = false /\
  config_env_vars demo_framework (demo_easyblock ∅ "" false) demo_state
    !! "CUDA_TOOLKIT_PATH" = None /\
  "CUDA_TOOLKIT_PATH"
    ∉ setvar_keys (trace (configure_step demo_framework (demo_easyblock ∅ "" false) demo_state)).
Proof.
  split; [reflexivity|].
  apply (configure_step_without_cuda demo_framework (demo_easyblock ∅ "" false) demo_state);
    [reflexivity|]. unfold cuda_keys. left.
Defined.

(** Without CUDA, a dictionary built with an interpreter, in an environment
    where [CXXFLAGS] is set, and with a version for cuDNN if it is installed,
    has no value that is [None]. *)
Lemma config_env_vars_all_set_without_cuda fw self s1 :
  truthy (get_software_root fw "CUDA") = false ->
  is_Some (st_environ s1 !! "CXXFLAGS") ->
  is_Some (st_python_cmd s1) ->
  (truthy (get_software_root fw "cuDNN") = true ->
   is_Some (get_software_version fw "cuDNN")) ->
  forall k, config_env_vars fw self s1 !! k <> Some None.
Proof.
  intros Hcuda [cxx Hcxx] [py Hpy] Hver k. unfold config_env_vars. rewrite Hcuda.
  assert (Hbase : base_env_vars fw self s1 !! k <> Some None).
  { unfold base_env_vars, getenv_in. rewrite Hcxx, Hpy. intros Hk.
    apply elem_of_list_to_map_2 in Hk. elem_absurd Hk. }
  destruct (truthy (get_software_root fw "cuDNN")) eqn:Hcudnn; [|done].
  destruct (Hver eq_refl) as [ver Hv].
  unfold dict_update. intros Hk. apply lookup_union_Some_raw in Hk as [Hk|[_ Hk]]; [|done].
  unfold cudnn_env_vars in Hk. rewrite Hv in Hk.
  destruct (get_software_root fw "cuDNN") as [root|]; [|done].
  apply elem_of_list_to_map_2 in Hk. elem_absurd Hk.
Qed.

(** C9 (as amended): the cuDNN entries do not depend on CUDA.  Whenever the
    cuDNN root resolves and the dictionary gets built, which it always does
    without CUDA, it holds [CUDNN_INSTALL_PATH] and [TF_CUDNN_VERSION], and
    [TF_NEED_CUDA] is "0" when the CUDA root does not resolve.  A configure
    step that goes through its loop has handed them to [env.setvar] and
    leaves them in the environment; without CUDA it does so when the
    interpreter is found, [CXXFLAGS] is set and the version of cuDNN is
    known.  No other entry of the dictionary changes with the cuDNN root, so
    none is a flag of cuDNN. *)
Theorem config_env_vars_cudnn_independent
    (fw : framework) (self : easyblock) (s : state) (py lib : string) :
  truthy (get_software_root fw "cuDNN") = true ->
  (forall d, res (make_config_env_vars fw self s) = Ok d ->
     d !! "CUDNN_INSTALL_PATH" = Some (get_software_root fw "cuDNN") /\
     d !! "TF_CUDNN_VERSION" = Some (get_software_version fw "cuDNN") /\
     (truthy (get_software_root fw "CUDA") = false -> d !! "TF_NEED_CUDA" = Some (Some "0"))) /\
  (truthy (get_software_root fw "CUDA") = false ->
   res (make_config_env_vars fw self s) = Ok (config_env_vars fw self s)) /\
  (EvRunCmd "./configure" ∈ trace (configure_step fw self s) ->
   exists root ver,
     get_software_root fw "cuDNN" = Some root /\ get_software_version fw "cuDNN" = Some ver /\
     EvSetvar "CUDNN_INSTALL_PATH" (Some root) ∈ trace (configure_step fw self s) /\
     EvSetvar "TF_CUDNN_VERSION" (Some ver) ∈ trace (configure_step fw self s) /\
     st_environ (final (configure_step fw self s)) !! "CUDNN_INSTALL_PATH" = Some root /\
     st_environ (final (configure_step fw self s)) !! "TF_CUDNN_VERSION" = Some ver) /\
  (truthy (get_software_root fw "CUDA") = false ->
   pick_python fw = inr (py, lib) ->
   String.eqb (comp_family (toolchain self)) (INTELCOMP fw) = false \/
     is_Some (st_environ s !! "PATH") ->
   is_Some (st_environ s !! "CXXFLAGS") ->
   is_Some (get_software_version fw "cuDNN") ->
   EvRunCmd "./configure" ∈ trace (configure_step fw self s) /\
   EvSetvar "TF_NEED_CUDA" (Some "0") ∈ trace (configure_step fw self s) /\
   st_environ (final (configure_step fw self s)) !! "TF_NEED_CUDA" = Some "0") /\
  (forall root k, k ∉ cudnn_keys ->
     config_env_vars (with_root fw "cuDNN" root) self s !! k = config_env_vars fw self s !! k).
Proof.
  intros Hcudnn.
  assert (Hmap : forall s',
    config_env_vars fw self s' !! "CUDNN_INSTALL_PATH" = Some (get_software_root fw "cuDNN") /\
    config_env_vars fw self s' !! "TF_CUDNN_VERSION" = Some (get_software_version fw "cuDNN") /\
    (truthy (get_software_root fw "CUDA") = false ->
     config_env_vars fw self s' !! "TF_NEED_CUDA" = Some (Some "0"))).
  { intros s'. destruct (config_env_vars_cudnn fw self s' Hcudnn) as [H1 H2].
    repeat split; [done..|]. intros Hcuda.
    destruct (config_env_vars_flags fw self s') as [-> _]. by rewrite Hcuda. }
  split; [|split; [|split; [|split]]].
  - intros d Hd. apply make_config_env_vars_res in Hd as ->. apply Hmap.
  - intros Hcuda. rewrite make_config_env_vars_run. cbn [res]. by rewrite Hcuda.
  - intros Hrun.
    destruct (configure_step_configured fw self s Hrun)
      as (py' & lib' & s' & _ & _ & _ & _ & Hd & Hall & _).
    destruct (Hmap s') as (H1 & H2 & _).
    destruct (get_software_root fw "cuDNN") as [root|]; [|by destruct (Hd _ H1)].
    destruct (get_software_version fw "cuDNN") as [ver|]; [|by destruct (Hd _ H2)].
    exists root, ver. destruct (Hall _ _ H1), (Hall _ _ H2). done.
  - intros Hcuda Hpy Hreach Hcxx Hver.
    destruct (configure_step_reaches_tail fw self s py lib Hpy Hreach)
      as (tmpdir & s' & pre & Hstep & Hpy' & _ & Hframe & _).
    assert (Hd : forall k, config_env_vars fw self s' !! k <> Some None).
    { apply config_env_vars_all_set_without_cuda; try done.
      rewrite Hframe; [done|]. intros Hin. elem_absurd Hin. }
    assert (Hrun : EvRunCmd "./configure" ∈ trace (configure_step fw self s)).
    { rewrite Hstep, (configure_tail_all_set fw self tmpdir s' Hd). cbn [trace].
      rewrite !elem_of_app. right. right. right. left. }
    split; [done|].
    destruct (configure_step_configured fw self s Hrun)
      as (py' & lib' & s'' & _ & _ & _ & _ & _ & Hall & _).
    apply Hall. destruct (config_env_vars_flags fw self s'') as [-> _]. by rewrite Hcuda.
  - intros; by apply config_env_vars_cudnn_frame.
Qed.

Lemma config_env_vars_cudnn_independent_witness :
  let fw := with_root demo_framework "cuDNN" (Some "/opt/eb/cuDNN") in
  let self := demo_easyblock ∅ "" false in
  truthy (get_software_root fw "cuDNN") = true /\
  truthy (get_software_root fw "CUDA") = false /\
  EvRunCmd "./configure" ∈ trace (configure_step fw self demo_state) /\
  EvSetvar "TF_NEED_CUDA" (Some "0") ∈ trace (configure_step fw self demo_state) /\
  st_environ (final (configure_step fw self demo_state)) !! "TF_NEED_CUDA" = Some "0" /\
  exists root ver,
    get_software_root fw "cuDNN" = Some root /\ get_software_version fw "cuDNN" = Some ver /\
    EvSetvar "CUDNN_INSTALL_PATH" (Some root) ∈ trace (configure_step fw self demo_state) /\
    EvSetvar "TF_CUDNN_VERSION" (Some ver) ∈ trace (configure_step fw self demo_state) /\
    st_environ (final (configure_step fw self demo_state)) !! "CUDNN_INSTALL_PATH" = Some root /\
    st_environ (final (configure_step fw self demo_state)) !! "TF_CUDNN_VERSION" = Some ver.
Proof.
  intros fw self. split; [reflexivity|]. split; [reflexivity|].
  destruct (config_env_vars_cudnn_independent fw self demo_state
              "/opt/eb/bin/python" "lib/python2.7/site-packages" eq_refl)
    as (_ & _ & H3 & H4 & _).
  destruct (H4 eq_refl eq_refl (or_introl eq_refl)
               (ex_intro _ "-O2" eq_refl) (ex_intro _ "7.0.5" eq_refl))
    as (Hrun & Hev & Henv).
  exact (conj Hrun (conj Hev (conj Henv (H3 Hrun)))).
Defined.

(** C9 (as stated) fails when the loop does not get as far as the cuDNN
    entries: with the cuDNN root resolved and [CXXFLAGS] not set, the step
    raises at its first call of [env.setvar] and sets neither variable. *)
Lemma configure_step_cudnn_not_set :
  let fw := with_root demo_framework "cuDNN" (Some "/opt/eb/cuDNN") in
  let self := demo_easyblock ∅ "" false in
  truthy (get_software_root fw "cuDNN") = true /\
  res (configure_step fw self no_cxxflags_state) = Raise PythonError /\
  setvar_keys (trace (configure_step fw self no_cxxflags_state)) = ["CC_OPT_FLAGS"] /\
  st_environ (final (configure_step fw self no_cxxflags_state)) !! "CUDNN_INSTALL_PATH" = None /\
  st_environ (final (configure_step fw self no_cxxflags_state)) !! "TF_CUDNN_VERSION" = None.
Proof. by vm_compute. Qed.

(** ** The install step *)

Section InstallStep.

Variables (fw : framework) (self : easyblock) (s : state).

(** The pattern of the wheel and the command that installs a wheel. *)
Let whl_pattern : string :=
  os_path_join (builddir self) ["tensorflow-" +:+ version self +:+ "-*.whl"].
Let pip_install (whl : string) : string :=
  "pip install --ignore-installed --prefix=" +:+ installdir self +:+ " " +:+ whl.

(** C2: the wheel is looked up with the pattern [tensorflow-<version>-*.whl]
    in the build directory.  With one match, the first thing the step does is
    to install that file with [pip install --ignore-installed] into the
    installation prefix; with none or several, the step raises the fatal error
    without having run a command or changed anything. *)
Theorem install_step_single_wheel :
  match glob_glob fw whl_pattern with
  | [whl] =>
      exists rest, trace (install_step fw self s) = EvRunCmd (pip_install whl) :: rest
  | whl_paths =>
      install_step fw self s
      = mkOutcome (Raise (EasyBuildError "Failed to isolate built .whl in %s: %s"
                            [PyList whl_paths; PyVal (Some (builddir self))])) s []
  end.
Proof.
  unfold install_step. fold whl_pattern.
  destruct (glob_glob fw whl_pattern) as [|whl [|whl' paths]]; [reflexivity| |reflexivity].
  match goal with
  | |- context [bind ?m ?k s] => destruct (bind_trace_prefix m k s) as [rest Hrest]
  end.
  exists rest. by rewrite Hrest, run_cmd_trace.
Qed.

End InstallStep.

Section InstallStepRuntest.

Variables (fw : framework) (self : easyblock) (s : state).

Let whl_pattern : string :=
  os_path_join (builddir self) ["tensorflow-" +:+ version self +:+ "-*.whl"].
Let pip_install (whl : string) : string :=
  "pip install --ignore-installed --prefix=" +:+ installdir self +:+ " " +:+ whl.
(** The new value of [PYTHONPATH] and the command that runs an example. *)
Let new_pythonpath : string :=
  os_path_join (installdir self) [st_pylibdir s] +:+ ":" +:+
  default "" (st_environ s !! "PYTHONPATH").
Let run_example (script tmpdir : string) : string :=
  py_str (st_python_cmd s) +:+ " " +:+
  os_path_join (start_dir self) ["tensorflow"; "examples"; "tutorials"; "mnist"; script] +:+
  " --data_dir " +:+ tmpdir.

(** Without [runtest] the step leaves the state as it found it and runs
    nothing but the installation of the wheel. *)
Lemma install_step_without_runtest :
  runtest (cfg self) = false ->
  final (install_step fw self s) = s /\
  trace (install_step fw self s)
  = match glob_glob fw whl_pattern with
    | [whl] => [EvRunCmd (pip_install whl)]
    | _ => []
    end.
Proof.
  intros Hrt. unfold install_step. fold whl_pattern. rewrite Hrt.
  destruct (glob_glob fw whl_pattern) as [|whl [|whl' paths]]; [done| |done].
  run. by destruct (run_cmd_ok _ _ _).
Qed.

(** With [runtest], once the wheel is installed, [PYTHONPATH] is set to the
    library directory of the installation, a colon and the previous value
    (empty when unset); only then are the examples run, the second one if the
    first one succeeded. *)
Lemma install_step_with_runtest whl :
  runtest (cfg self) = true ->
  glob_glob fw whl_pattern = [whl] ->
  run_cmd_ok fw (st_environ s) (pip_install whl) = true ->
  let environ' := <["PYTHONPATH" := new_pythonpath]> (st_environ s) in
  let tmpdir1 := mkdtemp fw (st_tmp s) "-tf-mnist_softmax-test" in
  let tmpdir2 := mkdtemp fw (S (st_tmp s)) "-tf-mnist_with_summaries-test" in
  st_environ (final (install_step fw self s)) = environ' /\
  trace (install_step fw self s)
  = [EvRunCmd (pip_install whl);
     EvSetvar "PYTHONPATH" (Some new_pythonpath);
     EvMkdtemp "-tf-mnist_softmax-test";
     EvRunCmd (run_example "mnist_softmax.py" tmpdir1)]
    ++ (if run_cmd_ok fw environ' (run_example "mnist_softmax.py" tmpdir1)
        then [EvMkdtemp "-tf-mnist_with_summaries-test";
              EvRunCmd (run_example "mnist_with_summaries.py" tmpdir2)]
        else []).
Proof.
  intros Hrt Hglob Hpip environ' tmpdir1 tmpdir2.
  assert (Hpp : os_path_join (installdir self) [st_pylibdir s] +:+ ":" +:+
                py_str (match st_environ s !! "PYTHONPATH" with
                        | Some v => Some v | None => Some "" end) = new_pythonpath).
  { unfold new_pythonpath. by destruct (st_environ s !! "PYTHONPATH"). }
  unfold install_step. fold whl_pattern. rewrite Hrt, Hglob.
  run. fold (pip_install whl). rewrite Hpip, Hpp. fold environ'.
  cbv [for_each].
  change ("-tf-" +:+ (os_path_splitext "mnist_softmax.py").1 +:+ "-test")
    with "-tf-mnist_softmax-test".
  change ("-tf-" +:+ (os_path_splitext "mnist_with_summaries.py").1 +:+ "-test")
    with "-tf-mnist_with_summaries-test".
  run. fold tmpdir1 (run_example "mnist_softmax.py" tmpdir1).
  destruct (run_cmd_ok fw environ' (run_example "mnist_softmax.py" tmpdir1)); [|done].
  run. by destruct (run_cmd_ok fw environ' _).
Qed.

(** C10: without [runtest] the install step leaves [PYTHONPATH] (and the rest
    of the state) as it is and runs no example; with [runtest] it sets
    [PYTHONPATH] to the freshly installed library directory, a colon and the
    previous value (the empty string when unset) before it runs the examples. *)
Theorem install_step_runtest :
  (runtest (cfg self) = false ->
   final (install_step fw self s) = s /\
   setvar_keys (trace (install_step fw self s)) = [] /\
   trace (install_step fw self s)
   = match glob_glob fw whl_pattern with
     | [whl] => [EvRunCmd (pip_install whl)]
     | _ => []
     end) /\
  (runtest (cfg self) = true ->
   forall whl,
   glob_glob fw whl_pattern = [whl] ->
   run_cmd_ok fw (st_environ s) (pip_install whl) = true ->
   let environ' := <["PYTHONPATH" := new_pythonpath]> (st_environ s) in
   let tmpdir1 := mkdtemp fw (st_tmp s) "-tf-mnist_softmax-test" in
   let tmpdir2 := mkdtemp fw (S (st_tmp s)) "-tf-mnist_with_summaries-test" in
   st_environ (final (install_step fw self s)) !! "PYTHONPATH" = Some new_pythonpath /\
   trace (install_step fw self s)
   = [EvRunCmd (pip_install whl);
      EvSetvar "PYTHONPATH" (Some new_pythonpath);
      EvMkdtemp "-tf-mnist_softmax-test";
      EvRunCmd (run_example "mnist_softmax.py" tmpdir1)]
     ++ (if run_cmd_ok fw environ' (run_example "mnist_softmax.py" tmpdir1)
         then [EvMkdtemp "-tf-mnist_with_summaries-test";
               EvRunCmd (run_example "mnist_with_summaries.py" tmpdir2)]
         else [])).
Proof.
  split.
  - intros Hrt. destruct (install_step_without_runtest Hrt) as [Hfinal Htrace].
    repeat split; [done| |done]. rewrite Htrace.
    by destruct (glob_glob fw whl_pattern) as [|whl [|whl' paths]].
  - intros Hrt whl Hglob Hpip.
    destruct (install_step_with_runtest whl Hrt Hglob Hpip) as [Henv Htrace].
    split; [|exact Htrace]. rewrite Henv. apply lookup_insert_eq.
Qed.

End InstallStepRuntest.

Lemma install_step_runtest_witness :
  final (install_step demo_framework (demo_easyblock ∅ "" false) demo_state) = demo_state /\
  trace (install_step demo_framework (demo_easyblock ∅ "" true) demo_state)
  = [EvRunCmd ("pip install --ignore-installed --prefix=/inst "
               +:+ "/build/tensorflow-1.4.0-cp27-none-linux_x86_64.whl");
     EvSetvar "PYTHONPATH" (Some "/inst/lib/python2.7/site-packages:");
     EvMkdtemp "-tf-mnist_softmax-test";
     EvRunCmd ("/opt/eb/bin/python /src/tensorflow/examples/tutorials/mnist/mnist_softmax.py"
               +:+ " --data_dir /tmp/eb-tf-mnist_softmax-test");
     EvMkdtemp "-tf-mnist_with_summaries-test";
     EvRunCmd ("/opt/eb/bin/python "
               +:+ "/src/tensorflow/examples/tutorials/mnist/mnist_with_summaries.py"
               +:+ " --data_dir /tmp/eb-tf-mnist_with_summaries-test")].
Proof.
  split.
  - exact (proj1 (proj1 (install_step_runtest demo_framework (demo_easyblock ∅ "" false)
                           demo_state) eq_refl)).
  - exact (proj2 (proj2 (install_step_runtest demo_framework (demo_easyblock ∅ "" true)
                           demo_state) eq_refl _ eq_refl eq_refl)).
Defined.

(** ** The build step *)

(** The loop over the tools reads the search path only: it stops at the first
    tool that is missing, and otherwise adds one rule per tool, in order. *)
Lemma tool_regex_subs_run fw todo regex_subs s :
  tool_regex_subs fw todo regex_subs s
  = mkOutcome
      (match List.find (missing fw s) todo with
       | Some tool =>
           Raise (EasyBuildError "Failed to determine path to '%s'" [PyVal (Some tool)])
       | None => Ok (regex_subs ++ map (tool_rule fw s) todo)
       end) s [].
Proof.
  revert regex_subs. induction todo as [|tool todo IH]; intros regex_subs.
  - cbn. by rewrite app_nil_r.
  - cbn [tool_regex_subs List.find]. unfold missing at 1, tool_path. run.
    destruct (which fw (st_environ s) (Some tool)) as [[|c p]|] eqn:Hw; cbn [truthy negb];
      [by destruct s|..|by destruct s].
    rewrite IH. cbn [map]. unfold tool_rule at 2, tool_path. rewrite Hw. cbn [py_str].
    rewrite <- app_assoc. cbn [app]. unfold usr_bin.
    by destruct (List.find _ _).
Qed.

(** Locating the GCC directories reads the installation and the file system
    only. *)
Lemma locate_gcc_pure fw s : exists r, locate_gcc fw s = mkOutcome r s [].
Proof.
  unfold locate_gcc. repeat case_match; by eexists.
Qed.

Section BuildStep.

Variables (fw : framework) (self : easyblock) (s : state).

Let binutils_bin : string := os_path_join (py_str (get_software_root fw "binutils")) ["bin"].
Let cuda_root : pyval := get_software_root fw "CUDA".

(** The include and library directories given what GCC provides. *)
Let inc_paths (gcc : string * string * string * string) : list string :=
  [gcc.1.1.2; gcc.1.2; gcc.2] ++
  (if truthy cuda_root then [os_path_join (py_str cuda_root) ["include"]] else []).
Let lib_paths (gcc : string * string * string * string) : list string :=
  [gcc.1.1.1] ++
  (if truthy cuda_root then [os_path_join (py_str cuda_root) ["lib64"]] else []).

(** The rule list: the error of the first check that fails, or the three
    initial rules, one rule per tool and, with [pic], the two rules for it. *)
Lemma build_regex_subs_run :
  build_regex_subs fw self s
  = mkOutcome
      (if truthy (get_software_root fw "binutils") then
         match res (locate_gcc fw s) with
         | Ok gcc =>
             match List.find (missing fw s) tools with
             | Some tool =>
                 Raise (EasyBuildError "Failed to determine path to '%s'"
                                       [PyVal (Some tool)])
             | None =>
                 Ok (initial_regex_subs fw binutils_bin (lib_paths gcc) (inc_paths gcc)
                       ++ map (tool_rule fw s) tools
                       ++ (if pic self then pic_regex_subs else []))
             end
         | Raise e => Raise e
         end
       else Raise (EasyBuildError "Failed to determine installation prefix for binutils" []))
      s [].
Proof.
  unfold build_regex_subs. unfold binutils_bin, inc_paths, lib_paths, cuda_root.
  destruct (get_software_root fw "binutils") as [[|c b]|]; cbn [truthy py_str];
    [by destruct s| |by destruct s].
  destruct (locate_gcc_pure fw s) as [r Hr].
  unfold bind at 1. cbn [ret]. unfold bind at 1. rewrite Hr. cbn [res].
  destruct r as [[[[lib64 inc] fixed] cpp]|e]; [|done].
  unfold bind. rewrite tool_regex_subs_run. cbn [fst snd].
  destruct (truthy (get_software_root fw "CUDA")), (List.find _ _), (pic self); cbn;
    rewrite ?app_nil_r, <- ?app_assoc; done.
Qed.

End BuildStep.

Lemma build_regex_subs_pure fw self s :
  build_regex_subs fw self s = mkOutcome (res (build_regex_subs fw self s)) s [].
Proof. by rewrite build_regex_subs_run. Qed.

(** The loop over [os.walk]: every file whose name starts with [CROSSTOOL] is
    logged and patched with the same rule list, and nothing else happens. *)
Lemma patch_loop_run walk regex_subs s :
  for_each walk (fun entry =>
    let '(path, dirnames, filenames) := entry in
    for_each filenames (fun filename =>
      if startswith "CROSSTOOL" filename then
        let full_path := os_path_join path [filename] in
        log_info "Patching %s" [PyVal (Some full_path)] ;;
        apply_regex_substitutions full_path regex_subs
      else ret tt)) s
  = mkOutcome (Ok tt) s (patch_events walk regex_subs).
Proof.
  unfold patch_events. apply for_each_emits_only. intros [[path dirnames] filenames] s0.
  apply for_each_emits_only. intros filename s1.
  by destruct (startswith "CROSSTOOL" filename).
Qed.

Section BuildStepRun.

Variables (fw : framework) (self : easyblock) (s : state).

Let tmpdir : string := mkdtemp fw (st_tmp s) "-bazel-build".
Let bazel_build : string :=
  str_join " " (build_cmd self tmpdir (get_software_root fw "CUDA")).
Let build_pip_package : string :=
  "bazel-bin/tensorflow/tools/pip_package/build_pip_package " +:+ builddir self.
Let target_dir : string := os_path_join (installdir self) [st_pylibdir s].

(** The build step as a whole: the target directory is created; if the rule
    list cannot be built the step stops there with the error; otherwise the
    files are patched and the two commands run. *)
Lemma build_step_run :
  build_step fw self s
  = match res (build_regex_subs fw self s) with
    | Raise e => mkOutcome (Raise e) s [EvMkdir target_dir true]
    | Ok regex_subs =>
        mkOutcome
          (if run_cmd_ok fw (st_environ s) bazel_build then
             if run_cmd_ok fw (st_environ s) build_pip_package then Ok tt
             else Raise (EasyBuildError cmd_failed [PyVal (Some build_pip_package)])
           else Raise (EasyBuildError cmd_failed [PyVal (Some bazel_build)]))
          (mkState (st_environ s) (st_python_cmd s) (st_pylibdir s) (S (st_tmp s)))
          (EvMkdir target_dir true
           :: patch_events (os_walk fw (start_dir self)) regex_subs
           ++ [EvMkdtemp "-bazel-build"; EvRunCmd bazel_build]
           ++ (if run_cmd_ok fw (st_environ s) bazel_build
               then [EvRunCmd build_pip_package] else []))
    end.
Proof.
  unfold build_step.
  rewrite run_bind. cbv [get_state]. cbv beta iota.
  rewrite run_bind. cbv [mkdir emit]. cbv beta iota. fold target_dir.
  rewrite run_bind, build_regex_subs_pure.
  destruct (res (build_regex_subs fw self s)) as [regex_subs|e]; [|done].
  rewrite run_bind, patch_loop_run.
  run. fold tmpdir bazel_build build_pip_package.
  destruct (run_cmd_ok fw (st_environ s) bazel_build); run; [|reflexivity].
  destruct (run_cmd_ok fw (st_environ s) build_pip_package); reflexivity.
Qed.

End BuildStepRun.

(** ** The include directory of GCC *)

Section GccInclude.

Variables (fw : framework) (self : easyblock) (s : state).
Variables (gcc_root gcc_ver : string).

Hypothesis binutils_found : truthy (get_software_root fw "binutils") = true.
Hypothesis gcc_found :
  py_or (get_software_root fw "GCCcore") (get_software_root fw "GCC") = Some gcc_root.
Hypothesis gcc_root_non_empty : gcc_root ≠ "".
Hypothesis gcc_version :
  py_or (get_software_version fw "GCCcore") (get_software_version fw "GCC") = Some gcc_ver.

Let pattern : string := os_path_join gcc_root ["lib"; "gcc"; "*"; gcc_ver; "include"].
Let binutils_bin : string := os_path_join (py_str (get_software_root fw "binutils")) ["bin"].

Lemma locate_gcc_not_single :
  (forall p, glob_glob fw pattern ≠ [p]) ->
  res (locate_gcc fw s)
  = Raise (EasyBuildError "Failed to pinpoint location of GCC include files: %s"
                          [PyList (glob_glob fw pattern)]).
Proof.
  intros Hglob. unfold locate_gcc. rewrite gcc_found, gcc_version.
  destruct gcc_root as [|c r]; [done|]. fold pattern.
  destruct (glob_glob fw pattern) as [|p [|p' ps]]; [done| |done].
  by destruct (Hglob p).
Qed.

Lemma locate_gcc_single gcc_lib_inc :
  glob_glob fw pattern = [gcc_lib_inc] ->
  os_path_exists fw (os_path_join (os_path_dirname gcc_lib_inc) ["include-fixed"]) = true ->
  os_path_exists fw (os_path_join gcc_root ["include"; "c++"; gcc_ver]) = true ->
  res (locate_gcc fw s)
  = Ok (os_path_join gcc_root ["lib64"], gcc_lib_inc,
        os_path_join (os_path_dirname gcc_lib_inc) ["include-fixed"],
        os_path_join gcc_root ["include"; "c++"; gcc_ver]).
Proof.
  intros Hglob Hfixed Hcpp. unfold locate_gcc. rewrite gcc_found, gcc_version.
  destruct gcc_root as [|c r]; [done|]. fold pattern. rewrite Hglob, Hfixed, Hcpp. done.
Qed.

(** C3: the include directory of GCC is looked up with the pattern
    [<gcc_root>/lib/gcc/*/<gcc_ver>/include].  With no match or several, the
    build step raises the fatal error, having only created the target
    directory; with one match, that path is the include directory: it is what
    [locate_gcc] returns and the first directory injected by the rule for
    the toolchain block. *)
Theorem build_step_gcc_include :
  match glob_glob fw pattern with
  | [gcc_lib_inc] =>
      let gcc_lib_inc_fixed := os_path_join (os_path_dirname gcc_lib_inc) ["include-fixed"] in
      let gcc_cplusplus_inc := os_path_join gcc_root ["include"; "c++"; gcc_ver] in
      os_path_exists fw gcc_lib_inc_fixed = true ->
      os_path_exists fw gcc_cplusplus_inc = true ->
      res (locate_gcc fw s)
      = Ok (os_path_join gcc_root ["lib64"], gcc_lib_inc, gcc_lib_inc_fixed,
            gcc_cplusplus_inc) /\
      forall regex_subs,
        res (build_regex_subs fw self s) = Ok regex_subs ->
        exists lib_paths more_inc_paths rest,
          regex_subs
          = initial_regex_subs fw binutils_bin lib_paths
              (gcc_lib_inc :: gcc_lib_inc_fixed :: gcc_cplusplus_inc :: more_inc_paths)
            ++ rest
  | candidates =>
      build_step fw self s
      = mkOutcome
          (Raise (EasyBuildError "Failed to pinpoint location of GCC include files: %s"
                                 [PyList candidates]))
          s [EvMkdir (os_path_join (installdir self) [st_pylibdir s]) true]
  end.
Proof.
  destruct (glob_glob fw pattern) as [|p [|p' ps]] eqn:Hglob.
  - rewrite build_step_run, build_regex_subs_run, binutils_found, locate_gcc_not_single.
    + rewrite Hglob. reflexivity.
    + rewrite Hglob. done.
  - intros fixed cpp Hfixed Hcpp.
    pose proof (locate_gcc_single p Hglob Hfixed Hcpp) as Hgcc. split; [exact Hgcc|].
    intros regex_subs. rewrite build_regex_subs_run, binutils_found, Hgcc.
    destruct (List.find _ _); [done|]. intros H. apply Ok_inj in H. subst regex_subs.
    cbn [fst snd app]. by eexists _, _, _.
  - rewrite build_step_run, build_regex_subs_run, binutils_found, locate_gcc_not_single.
    + rewrite Hglob. reflexivity.
    + rewrite Hglob. done.
Qed.

End GccInclude.

Lemma build_step_gcc_include_witness :
  res (locate_gcc demo_framework demo_state)
  = Ok ("/opt/eb/GCCcore/lib64",
        "/opt/eb/GCCcore/lib/gcc/x86_64-pc-linux-gnu/6.4.0/include",
        "/opt/eb/GCCcore/lib/gcc/x86_64-pc-linux-gnu/6.4.0/include-fixed",
        "/opt/eb/GCCcore/include/c++/6.4.0") /\
  build_step empty_glob_framework (demo_easyblock ∅ "" false) demo_state
  = mkOutcome
      (Raise (EasyBuildError "Failed to pinpoint location of GCC include files: %s"
                             [PyList []]))
      demo_state [EvMkdir "/inst/lib/python2.7/site-packages" true].
Proof.
  assert (Hne : "/opt/eb/GCCcore" ≠ "") by discriminate.
  split.
  - exact (proj1 (build_step_gcc_include demo_framework (demo_easyblock ∅ "" false)
                    demo_state "/opt/eb/GCCcore" "6.4.0" eq_refl eq_refl Hne eq_refl
                    eq_refl eq_refl)).
  - exact (build_step_gcc_include empty_glob_framework (demo_easyblock ∅ "" false)
             demo_state "/opt/eb/GCCcore" "6.4.0" eq_refl eq_refl Hne eq_refl).
Defined.

(** ** The build command and the rules for [pic] *)

Section BuildCommand.

Variables (fw : framework) (self : easyblock) (s : state).

Let tmpdir : string := mkdtemp fw (st_tmp s) "-bazel-build".
Let cuda_root : pyval := get_software_root fw "CUDA".
Let target : string := "//tensorflow/tools/pip_package:build_pip_package".

(** A build step that gets past the rule list runs the command made of
    [build_cmd]. *)
Lemma build_step_runs_build_cmd regex_subs :
  res (build_regex_subs fw self s) = Ok regex_subs ->
  EvRunCmd (str_join " " (build_cmd self tmpdir cuda_root)) ∈ trace (build_step fw self s).
Proof.
  intros Hrules. rewrite build_step_run, Hrules. cbn [trace].
  apply elem_of_cons. right. apply elem_of_app. right. apply elem_of_app. left.
  apply elem_of_cons. right. apply elem_of_cons. by left.
Qed.

(** A build step that gets past the rule list patches every file of the
    source tree whose name starts with [CROSSTOOL], with that rule list. *)
Lemma build_step_patches regex_subs path dirnames filenames filename :
  res (build_regex_subs fw self s) = Ok regex_subs ->
  (path, dirnames, filenames) ∈ os_walk fw (start_dir self) ->
  filename ∈ filenames ->
  startswith "CROSSTOOL" filename = true ->
  EvApplyRegexSubstitutions (os_path_join path [filename]) regex_subs
    ∈ trace (build_step fw self s).
Proof.
  intros Hrules Hwalk Hfile Hname. rewrite build_step_run, Hrules. cbn [trace].
  apply elem_of_cons. right. apply elem_of_app. left.
  unfold patch_events. apply list_elem_of_In, in_flat_map.
  exists (path, dirnames, filenames). split; [by apply list_elem_of_In|].
  apply in_flat_map. exists filename. split; [by apply list_elem_of_In|].
  cbn [fst snd]. rewrite Hname. right. by left.
Qed.

(** The command, seen as its fixed parts and its optional parts. *)
Lemma build_cmd_parts dir root :
  build_cmd self dir root
  = ["bazel"; "--output_base=" +:+ dir; "build"; "--compilation_mode=opt"; "--config=opt";
     "--subcommands"; "--verbose_failures"]
    ++ (if pic self then [copt_fPIC] else [])
    ++ [buildopts (cfg self)]
    ++ (if truthy root then ["--config=cuda"] else [])
    ++ (if with_mkl_dnn (cfg self) then ["--config=mkl"] else [])
    ++ [target].
Proof.
  unfold build_cmd. by destruct (pic self), (truthy root), (with_mkl_dnn (cfg self)).
Qed.

(** C5: with [with_mkl_dnn] and a CUDA root that resolves, the command of the
    build contains [--config=cuda], [--config=mkl] and the target
    [//tensorflow/tools/pip_package:build_pip_package], which comes last; a
    build step that gets that far runs this command. *)
Theorem build_cmd_cuda_mkl :
  with_mkl_dnn (cfg self) = true ->
  truthy cuda_root = true ->
  let cmd := build_cmd self tmpdir cuda_root in
  ("--config=cuda" ∈ cmd /\ "--config=mkl" ∈ cmd /\ last cmd = Some target) /\
  (contains "--config=cuda" (str_join " " cmd) = true /\
   contains "--config=mkl" (str_join " " cmd) = true /\
   contains target (str_join " " cmd) = true) /\
  (forall regex_subs,
     res (build_regex_subs fw self s) = Ok regex_subs ->
     EvRunCmd (str_join " " cmd) ∈ trace (build_step fw self s)).
Proof.
  intros Hmkl Hcuda cmd.
  assert (Hin : "--config=cuda" ∈ cmd /\ "--config=mkl" ∈ cmd /\ target ∈ cmd /\
                last cmd = Some target).
  { unfold cmd. rewrite build_cmd_parts, Hmkl, Hcuda.
    destruct (pic self); cbn [app]; repeat split; try reflexivity; repeat constructor. }
  destruct Hin as (H1 & H2 & H3 & H4).
  repeat split; auto using contains_str_join.
  apply build_step_runs_build_cmd.
Qed.

(** The patterns of the rules the build step makes, whatever the options. *)
Lemma build_regex_subs_patterns regex_subs :
  res (build_regex_subs fw self s) = Ok regex_subs ->
  regex_subs.*1
  = ["-B/usr/bin/"; "(cxx_builtin_include_directory:).*"; "^toolchain {"]
    ++ map usr_bin tools ++ (if pic self then pic_regex_subs.*1 else []).
Proof.
  rewrite build_regex_subs_run.
  destruct (truthy (get_software_root fw "binutils")); [|done].
  destruct (res (locate_gcc fw s)) as [gcc|]; [|done].
  destruct (List.find _ _); [done|]. intros H. apply Ok_inj in H. subst regex_subs.
  rewrite !fmap_app. apply (f_equal2 app); [reflexivity|].
  apply (f_equal2 app); [|by destruct (pic self)].
  generalize tools. intros l. induction l as [|t l IH]; [done|]. cbn. by f_equal.
Qed.

(** The flag is in the command exactly when [pic] puts it there or one of
    the two parts of the command that come from outside has it: the name of
    the temporary directory and the build options of the user. *)
Lemma build_cmd_contains_copt dir root :
  contains copt_fPIC (str_join " " (build_cmd self dir root))
  = pic self || contains copt_fPIC dir || contains copt_fPIC (buildopts (cfg self)).
Proof.
  rewrite (contains_str_join_sep copt_fPIC " "%char) by done.
  rewrite build_cmd_parts, !existsb_app. cbn [existsb].
  rewrite (contains_app_prefix copt_fPIC "--output_base=" dir) by reflexivity.
  generalize (contains copt_fPIC dir), (contains copt_fPIC (buildopts (cfg self))).
  intros b1 b2.
  by destruct (pic self), (truthy root), (with_mkl_dnn (cfg self)), b1, b2.
Qed.

(** C7 (as amended): with [pic] the rule list ends with the two rules that
    turn [-fPIE] and ["-pie"] into [-fPIC], every [CROSSTOOL] file is patched
    with that list, and the command contains [--copt="-fPIC"]; without [pic]
    the rule list has neither rule, and the command has the flag exactly
    when the build options given by the user (or the name of the temporary
    directory) contain it.  The command is the one the build step runs. *)
Theorem build_step_pic :
  (pic self = true ->
   copt_fPIC ∈ build_cmd self tmpdir cuda_root /\
   contains copt_fPIC (str_join " " (build_cmd self tmpdir cuda_root)) = true /\
   forall regex_subs,
     res (build_regex_subs fw self s) = Ok regex_subs ->
     (exists rest, regex_subs = rest ++ pic_regex_subs) /\
     (forall path dirnames filenames filename,
        (path, dirnames, filenames) ∈ os_walk fw (start_dir self) ->
        filename ∈ filenames ->
        startswith "CROSSTOOL" filename = true ->
        EvApplyRegexSubstitutions (os_path_join path [filename]) regex_subs
          ∈ trace (build_step fw self s))) /\
  (pic self = false ->
   contains copt_fPIC (str_join " " (build_cmd self tmpdir cuda_root))
   = contains copt_fPIC tmpdir || contains copt_fPIC (buildopts (cfg self)) /\
   forall regex_subs,
     res (build_regex_subs fw self s) = Ok regex_subs ->
     forall r, r ∈ pic_regex_subs -> r ∉ regex_subs) /\
  (forall regex_subs,
     res (build_regex_subs fw self s) = Ok regex_subs ->
     EvRunCmd (str_join " " (build_cmd self tmpdir cuda_root)) ∈ trace (build_step fw self s)).
Proof.
  split; [|split]; [intros Hpic..|].
  - split; [|split].
    + rewrite build_cmd_parts, Hpic. cbn [app]. do 7 right. left.
    + by rewrite build_cmd_contains_copt, Hpic.
    + intros regex_subs Hrules. split.
      * revert Hrules. rewrite build_regex_subs_run.
        destruct (truthy (get_software_root fw "binutils")); [|done].
        destruct (res (locate_gcc fw s)) as [gcc|]; [|done].
        destruct (List.find _ _); [done|]. intros H. apply Ok_inj in H. subst regex_subs.
        rewrite Hpic, app_assoc. by eexists.
      * intros path dirnames filenames filename. by apply build_step_patches.
  - split.
    + by rewrite build_cmd_contains_copt, Hpic.
    + intros regex_subs Hrules r Hr Hin.
      assert (Hpat : r.1 ∈ regex_subs.*1) by (apply list_elem_of_fmap; by exists r).
      rewrite (build_regex_subs_patterns _ Hrules), Hpic in Hpat.
      unfold pic_regex_subs in Hr. elem_cases Hr; cbn in Hpat; elem_absurd Hpat.
  - apply build_step_runs_build_cmd.
Qed.

End BuildCommand.

Lemma build_cmd_cuda_mkl_witness :
  let fw := with_root demo_framework "CUDA" (Some "/opt/eb/CUDA") in
  let self := demo_easyblock ∅ "" false in
  let cmd := build_cmd self "/tmp/eb-bazel-build" (Some "/opt/eb/CUDA") in
  "--config=cuda" ∈ cmd /\ "--config=mkl" ∈ cmd /\
  last cmd = Some "//tensorflow/tools/pip_package:build_pip_package".
Proof.
  intros fw self cmd.
  exact (proj1 (build_cmd_cuda_mkl fw self demo_state eq_refl eq_refl)).
Defined.

Lemma build_step_pic_witness :
  copt_fPIC ∈ build_cmd (demo_easyblock {[ "pic" := true ]} "" false) "/tmp/eb-bazel-build" None /\
  contains copt_fPIC
    (str_join " " (build_cmd (demo_easyblock ∅ "--jobs=4" false) "/tmp/eb-bazel-build" None))
  = false.
Proof.
  split.
  - exact (proj1 (proj1 (build_step_pic demo_framework (demo_easyblock {[ "pic" := true ]} "" false)
                           demo_state) eq_refl)).
  - exact (proj1 (proj1 (proj2 (build_step_pic demo_framework (demo_easyblock ∅ "--jobs=4" false)
                                  demo_state)) eq_refl)).
Defined.

(** C7 (as stated) fails when the build options of the user are the flag:
    [pic] is not set and the command has [--copt="-fPIC"]. *)
Lemma build_cmd_copt_without_pic :
  let self := demo_easyblock ∅ copt_fPIC false in
  pic self = false /\
  copt_fPIC ∈ build_cmd self "/tmp/eb-bazel-build" None /\
  commands (trace (build_step demo_framework self demo_state))
  = [ "bazel --output_base=/tmp/eb-bazel-build build --compilation_mode=opt --config=opt "
      +:+ "--subcommands --verbose_failures " +:+ copt_fPIC
      +:+ " --config=mkl //tensorflow/tools/pip_package:build_pip_package";
      "bazel-bin/tensorflow/tools/pip_package/build_pip_package /build" ].
Proof.
  split; [reflexivity|]. split; [|by vm_compute].
  rewrite build_cmd_parts. cbn. do 7 right. left.
Qed.

(** ** The rules for the tools *)

Section ToolRules.

Variables (fw : framework) (self : easyblock) (s : state).

Hypothesis binutils_found : truthy (get_software_root fw "binutils") = true.
Variable gcc : string * string * string * string.
Hypothesis gcc_found : res (locate_gcc fw s) = Ok gcc.

(** C4 (as amended): the build step asks [which] for each tool of the list,
    in order.  At the first tool that is not found it raises the fatal error
    naming that tool.  When all are found, the rule list is made of its
    first three rules, then, for each tool, the rule from [/usr/bin/<tool>] to
    the path found, then the rules for [pic] if any.  Provided no path found
    has a backslash:
    - a reference [/usr/bin/<tool>] in the file as the initial rules leave it
      is replaced by the path found for the tool, whatever is around it, if
      that path cannot overlap a reference to another tool;
    - if moreover every path is harmless (no possible overlap with a
      reference to any tool), the patched file has no [/usr/bin/<tool>] left
      for any tool of the list;
    - a tool found at [/usr/bin/<tool>] itself has its reference replaced by
      itself: the patched file still has it. *)
Theorem build_step_tool_rules :
  match List.find (missing fw s) tools with
  | Some tool =>
      res (build_step fw self s)
      = Raise (EasyBuildError "Failed to determine path to '%s'" [PyVal (Some tool)])
  | None =>
      exists regex_subs,
        let initial := take 3 regex_subs in
        let tool_rules := map (tool_rule fw s) tools in
        let pic_rules := if pic self then pic_regex_subs else [] in
        res (build_regex_subs fw self s) = Ok regex_subs /\
        regex_subs = initial ++ tool_rules ++ pic_rules /\
        (forall tool, tool ∈ tools -> tool_rule fw s tool ∈ regex_subs) /\
        (plain_paths fw s = true ->
         forall tool, tool ∈ tools -> apart_from_others fw s tool = true ->
         forall text a b,
           substitute fw initial text = a +:+ usr_bin tool +:+ b ->
           substitute fw regex_subs text
           = substitute fw pic_rules
               (substitute fw tool_rules a
                +:+ py_str (tool_path fw s tool)
                +:+ substitute fw tool_rules b)) /\
        (forallb (fun tool => harmless (py_str (tool_path fw s tool))) tools = true ->
         forall text tool, tool ∈ tools ->
           contains (usr_bin tool) (substitute fw regex_subs text) = false) /\
        (plain_paths fw s = true ->
         forall tool, tool ∈ tools -> tool_path fw s tool = Some (usr_bin tool) ->
         forall text a b,
           substitute fw initial text = a +:+ usr_bin tool +:+ b ->
           contains (usr_bin tool) (substitute fw regex_subs text) = true)
  end.
Proof.
  pose proof (build_regex_subs_run fw self s) as Hrun.
  rewrite binutils_found, gcc_found in Hrun.
  destruct (List.find (missing fw s) tools) as [tool|].
  - by rewrite build_step_run, Hrun.
  - eexists. cbv zeta. split; [by rewrite Hrun|]. split; [reflexivity|].
    change (take 3 (initial_regex_subs fw ?b ?l ?i ++ ?rest))
      with (initial_regex_subs fw b l i).
    set (initial := initial_regex_subs fw _ _ _).
    set (tool_rules := map (tool_rule fw s) tools).
    set (pic_rules := if pic self then pic_regex_subs else []).
    assert (Hreplaced : plain_paths fw s = true ->
      forall tool, tool ∈ tools -> apart_from_others fw s tool = true ->
      forall text a b,
        substitute fw initial text = a +:+ usr_bin tool +:+ b ->
        substitute fw (initial ++ tool_rules ++ pic_rules) text
        = substitute fw pic_rules
            (substitute fw tool_rules a
             +:+ py_str (tool_path fw s tool)
             +:+ substitute fw tool_rules b)).
    { intros Hplain tool Htool Hapart text a b Htext.
      rewrite !substitute_app, Htext. unfold tool_rules. by rewrite substitute_tool_rules. }
    split; [|split; [exact Hreplaced|split]].
    + intros tool Htool. apply elem_of_app. right. apply elem_of_app. left.
      apply list_elem_of_fmap. by exists tool.
    + intros Hharmless text tool Htool.
      rewrite substitute_app. apply substitute_removes; [|clear tool Htool|done].
      * apply Forall_app. split.
        -- apply Forall_fmap, Forall_forall. intros t Ht. cbn. split.
           ++ clear -Ht. unfold tools in Ht. by elem_cases Ht.
           ++ rewrite forallb_forall in Hharmless. apply Hharmless. by apply list_elem_of_In.
        -- destruct (pic self); [|constructor]. by repeat constructor.
      * intros tool Htool. left. rewrite fmap_app. apply elem_of_app. left.
        apply list_elem_of_fmap. exists (tool_rule fw s tool). split; [done|].
        apply list_elem_of_fmap. by exists tool.
    + intros Hplain tool Htool Hself text a b Htext.
      rewrite (Hreplaced Hplain tool Htool) with (a := a) (b := b); [|clear text Htext|done].
      * rewrite Hself. cbn [py_str].
        destruct (pic self); [|apply contains_app_middle].
        rewrite substitute_pic_rules by done. apply contains_app_middle.
      * unfold apart_from_others. apply forallb_forall. intros other Hother.
        apply list_elem_of_In in Hother. rewrite Hself. cbn [py_str].
        destruct (String.eqb_spec other tool) as [|Hne]; [done|]. cbn [orb].
        apply negb_true_iff. by apply (usr_bin_patterns tool Htool).
Qed.

End ToolRules.

Lemma build_step_tool_rules_witness :
  let self := demo_easyblock ∅ "" false in
  res (build_step missing_dwp_framework self demo_state)
  = Raise (EasyBuildError "Failed to determine path to '%s'" [PyVal (Some "dwp")]) /\
  exists regex_subs,
    res (build_regex_subs demo_framework self demo_state) = Ok regex_subs /\
    ("/usr/bin/gcc", "/opt/eb/bin/gcc") ∈ regex_subs /\
    substitute demo_framework regex_subs demo_crosstool
    = "gcc: /opt/eb/bin/gcc" +:+ newline +:+ "dwp: /opt/eb/bin/dwp" +:+ newline /\
    contains "/usr/bin/gcc" (substitute demo_framework regex_subs demo_crosstool) = false.
Proof.
  intros self. split.
  - exact (build_step_tool_rules missing_dwp_framework self demo_state eq_refl _ eq_refl).
  - destruct (build_step_tool_rules demo_framework self demo_state eq_refl _ eq_refl)
      as (regex_subs & Hres & _ & Hrule & Hreplaced & Hclean & _).
    exists regex_subs. split; [exact Hres|]. split; [|split].
    + apply (Hrule "gcc"). unfold tools. do 3 right. left.
    + assert (Hgcc : "gcc" ∈ tools) by (unfold tools; do 3 right; left).
      apply (Hreplaced eq_refl "gcc" Hgcc eq_refl
               demo_crosstool "gcc: " (newline +:+ "dwp: /usr/bin/dwp" +:+ newline)).
      apply Ok_inj in Hres. by subst regex_subs.
    + apply (Hclean eq_refl demo_crosstool "gcc"). unfold tools. do 3 right. left.
Defined.

(** C4 (as stated) fails when a tool is the one of the system: [dwp]
    resolves to [/usr/bin/dwp], the rule for it replaces the reference by
    itself, and the patched file, in which [/usr/bin/gcc] has been replaced,
    still refers to [/usr/bin/dwp]. *)
Lemma system_dwp_reference_remains :
  let self := demo_easyblock ∅ "" false in
  exists regex_subs,
    res (build_regex_subs system_dwp_framework self demo_state) = Ok regex_subs /\
    tool_rule system_dwp_framework demo_state "dwp" = ("/usr/bin/dwp", "/usr/bin/dwp") /\
    substitute system_dwp_framework regex_subs demo_crosstool
      = "gcc: /opt/eb/bin/gcc" +:+ newline +:+ "dwp: /usr/bin/dwp" +:+ newline /\
    contains (usr_bin "dwp") (substitute system_dwp_framework regex_subs demo_crosstool) = true.
Proof.
  eexists. split; [by vm_compute|]. by vm_compute.
Qed.

(** * Further properties of the steps *)

(** ** Paths made by [os.path.join] and taken apart by [os.path.dirname] *)

Lemma ends_with_slash_app (p q : string) :
  q <> "" -> ends_with_slash (p +:+ q) = ends_with_slash q.
Proof.
  intros Hq. induction p as [|c p IH]; [done|].
  rewrite append_cons. cbn [ends_with_slash]. rewrite IH.
  destruct (p +:+ q) eqn:E; [|done].
  destruct p, q; done.
Qed.

Lemma head_to_last_slash_app_slash (x y : string) :
  head_to_last_slash y = "" -> head_to_last_slash (x +:+ "/" +:+ y) = x +:+ "/".
Proof.
  intros Hy. induction x as [|c x IH].
  - change (head_to_last_slash (String "/" y) = "/"). cbn. by rewrite Hy.
  - rewrite !(append_cons c x). cbn [head_to_last_slash]. rewrite IH.
    destruct x; done.
Qed.

Lemma rstrip_slash_app_slash (x : string) :
  ends_with_slash x = false -> rstrip_slash (x +:+ "/") = x.
Proof.
  induction x as [|c x IH]; [done|]. intros H. rewrite append_cons. cbn [rstrip_slash].
  destruct x as [|d x].
  - cbn in *. by rewrite H.
  - rewrite IH by done. done.
Qed.

Lemma all_slashes_app_slash (x : string) :
  x <> "" -> ends_with_slash x = false -> all_slashes (x +:+ "/") = false.
Proof.
  induction x as [|c x IH]; [done|]. intros _ H. rewrite append_cons. cbn [all_slashes].
  destruct x as [|d x].
  - cbn in *. by rewrite H.
  - rewrite IH by done. apply andb_false_r.
Qed.

(** The directory of [x/y], for a non-empty [x] that does not end with a
    slash and a [y] without slash, is [x]. *)
Lemma os_path_dirname_child (x y : string) :
  x <> "" -> ends_with_slash x = false -> head_to_last_slash y = "" ->
  os_path_dirname (x +:+ "/" +:+ y) = x.
Proof.
  intros Hx Hs Hy. unfold os_path_dirname. rewrite head_to_last_slash_app_slash by done.
  rewrite all_slashes_app_slash by done.
  destruct (String.eqb_spec (x +:+ "/") "") as [E|_]; [by destruct x|].
  cbn [negb andb]. by apply rstrip_slash_app_slash.
Qed.

(** A path joined with a relative name that has no slash of its own. *)
Lemma join2_relative (path b : string) :
  startswith "/" b = false ->
  join2 path b = if String.eqb path "" || ends_with_slash path then path +:+ b
                 else path +:+ "/" +:+ b.
Proof. intros H. unfold join2. by rewrite H. Qed.

(** The directory of [<dir>/bin/icc] is [<dir>/bin], whatever [dir] is. *)
Lemma os_path_dirname_bin_icc (dir : string) :
  os_path_dirname (os_path_join dir ["bin"; "icc"]) = os_path_join dir ["bin"].
Proof.
  change (os_path_join dir ["bin"; "icc"]) with (join2 (os_path_join dir ["bin"]) "icc").
  assert (H : os_path_join dir ["bin"] <> "" /\ ends_with_slash (os_path_join dir ["bin"]) = false).
  { change (os_path_join dir ["bin"]) with (join2 dir "bin"). rewrite join2_relative by done.
    destruct (_ || _).
    - split; [by destruct dir|]. by rewrite ends_with_slash_app.
    - split; [by destruct dir|]. by rewrite (ends_with_slash_app dir ("/" +:+ "bin")). }
  destruct H as [Hne Hs]. rewrite join2_relative by done. rewrite Hs, orb_false_r.
  destruct (String.eqb_spec (os_path_join dir ["bin"]) "") as [E|_]; [done|].
  by apply os_path_dirname_child.
Qed.

(** [include-fixed] is looked up beside [include]. *)
Lemma include_fixed_sibling (d : string) :
  ends_with_slash d = false ->
  os_path_join (os_path_dirname (d +:+ "/include")) ["include-fixed"] = d +:+ "/include-fixed".
Proof.
  intros Hs. destruct (String.eqb_spec d "") as [->|Hne]; [done|].
  change (d +:+ "/include") with (d +:+ "/" +:+ "include").
  rewrite os_path_dirname_child by done.
  change (os_path_join d ["include-fixed"]) with (join2 d "include-fixed").
  rewrite join2_relative by done. rewrite Hs, orb_false_r.
  by destruct (String.eqb_spec d "").
Qed.

(** Nests the concatenations of an equation to the right, after which the
    two sides can be compared by computation. *)
Ltac str_norm := rewrite ?append_assoc.

(** ** What a step keeps *)

Section Keeps.

Context {A B : Type} (R : state -> state -> Prop) `{!Reflexive R, !Transitive R}.

Lemma keeps_ret (a : A) : keeps R (ret a).
Proof. intros s. apply reflexivity. Qed.

Lemma keeps_raise e : keeps R (raise e : M A).
Proof. intros s. apply reflexivity. Qed.

Lemma keeps_get_state : keeps R get_state.
Proof. intros s. apply reflexivity. Qed.

Lemma keeps_emit e : keeps R (emit e).
Proof. intros s. apply reflexivity. Qed.

Lemma keeps_bind (m : M A) (k : A -> M B) :
  keeps R m -> (forall a, keeps R (k a)) -> keeps R (bind m k).
Proof.
  intros Hm Hk s. unfold bind. specialize (Hm s).
  destruct (m s) as [[a|e] s1 t1]; [|exact Hm].
  specialize (Hk a s1). destruct (k a s1) as [r s2 t2]. cbn in *. by etrans.
Qed.

(** The same when the continuation is only known for the values [m] returns. *)
Lemma keeps_bind_res (Q : A -> Prop) (m : M A) (k : A -> M B) :
  keeps R m -> (forall s a, res (m s) = Ok a -> Q a) -> (forall a, Q a -> keeps R (k a)) ->
  keeps R (bind m k).
Proof.
  intros Hm HQ Hk s. unfold bind. specialize (Hm s). specialize (HQ s).
  destruct (m s) as [[a|e] s1 t1]; [|exact Hm].
  specialize (Hk a (HQ a eq_refl) s1). destruct (k a s1) as [r s2 t2]. cbn in *. by etrans.
Qed.

End Keeps.

Section KeepsHelpers.

Context (R : state -> state -> Prop) `{!Reflexive R, !Transitive R}.
Variable fw : framework.

Lemma keeps_for_each {A} (l : list A) (body : A -> M unit) :
  (forall x, x ∈ l -> keeps R (body x)) -> keeps R (for_each l body).
Proof.
  induction l as [|x l IH]; intros H; cbn; [by apply keeps_ret|].
  apply keeps_bind; [done|apply H; left|]. intros _. apply IH. intros y Hy. apply H. by right.
Qed.

Lemma keeps_os_getenv name default : keeps R (os_getenv name default).
Proof. intros s. apply reflexivity. Qed.

Lemma keeps_do_which cmd : keeps R (do_which fw cmd).
Proof. intros s. destruct cmd; apply reflexivity. Qed.

Lemma keeps_run_cmd cmd : keeps R (run_cmd fw cmd).
Proof. intros s. run. destruct (run_cmd_ok _ _ _); apply reflexivity. Qed.

Lemma keeps_env_setvar key val :
  (forall s v, R s (setvar_state key v s)) -> keeps R (env_setvar key val).
Proof. intros H s. destruct val as [v|]; [apply H|apply reflexivity]. Qed.

Lemma keeps_make_config_env_vars self : keeps R (make_config_env_vars fw self).
Proof. intros s. rewrite make_config_env_vars_run. apply reflexivity. Qed.

Lemma keeps_tempfile_mkdtemp suffix :
  (forall s, R s (mkState (st_environ s) (st_python_cmd s) (st_pylibdir s) (S (st_tmp s)))) ->
  keeps R (tempfile_mkdtemp fw suffix).
Proof. intros H s. apply H. Qed.

Lemma keeps_prepare_python :
  (forall s py lib, R s (mkState (st_environ s) (Some py) lib (st_tmp s))) ->
  keeps R (prepare_python fw).
Proof.
  intros H s. unfold prepare_python. run.
  destruct (pick_python fw) as [e|[py lib]]; [apply reflexivity|apply H].
Qed.

End KeepsHelpers.

#[export] Instance environ_frame_refl K : Reflexive (environ_frame K).
Proof. by intros s k Hk. Qed.

#[export] Instance environ_frame_trans K : Transitive (environ_frame K).
Proof. intros s1 s2 s3 H12 H23 k Hk. by rewrite H23, H12. Qed.

#[export] Instance same_python_refl : Reflexive same_python.
Proof. by intros s. Qed.

#[export] Instance same_python_trans : Transitive same_python.
Proof. intros s1 s2 s3 [H1 H2] [H3 H4]. split; congruence. Qed.

Lemma environ_frame_setvar K key val s :
  key ∈ K -> environ_frame K s (setvar_state key val s).
Proof.
  intros Hkey k Hk. cbn. apply lookup_insert_ne. by intros ->.
Qed.

(** One step of the analysis of what a monadic program keeps. *)
Ltac keeps_step :=
  first
    [ apply keeps_ret | apply keeps_raise | apply keeps_get_state | apply keeps_emit
    | apply keeps_os_getenv | apply keeps_do_which | apply keeps_run_cmd
    | apply keeps_env_setvar | apply keeps_tempfile_mkdtemp | apply keeps_prepare_python
    | apply keeps_bind; [..| |intros ?]
    | match goal with
      | |- keeps _ (if ?b then _ else _) => destruct b
      | |- keeps _ (match ?x with _ => _ end) => destruct x
      end ];
  try apply _.

(** ** The keys of the dictionary *)

Lemma list_to_map_is_Some (l : list (string * pyval)) k :
  is_Some ((list_to_map l : gmap string pyval) !! k) <-> k ∈ l.*1.
Proof.
  rewrite <- not_eq_None_Some, <- not_elem_of_list_to_map.
  destruct (decide (k ∈ l.*1)); naive_solver.
Qed.

Lemma config_env_vars_is_Some fw self s k :
  is_Some (config_env_vars fw self s !! k) <-> k ∈ config_keys fw.
Proof.
  unfold config_env_vars, config_keys, dict_update.
  destruct (truthy (get_software_root fw "CUDA")), (truthy (get_software_root fw "cuDNN"));
    rewrite ?lookup_union_is_Some;
    unfold base_env_vars, cuda_env_vars, cuda_env_vars_with, cudnn_env_vars;
    rewrite ?list_to_map_is_Some, ?elem_of_app; cbn [fmap list_fmap fst];
    rewrite ?elem_of_nil; fold base_keys cuda_keys cudnn_keys; tauto.
Qed.

Lemma config_keys_all fw k :
  k ∈ config_keys fw -> k ∈ base_keys ++ cuda_keys ++ cudnn_keys.
Proof.
  unfold config_keys. rewrite !elem_of_app.
  destruct (truthy _), (truthy _); rewrite ?elem_of_nil; tauto.
Qed.

(** ** Runs of the configure step *)

Lemma patched_files_setvar_events (l : list (string * pyval)) :
  patched_files (map setvar_event l) = [].
Proof. by induction l as [|[k v] l IH]. Qed.

Section ConfigureTail.

Variables (fw : framework) (self : easyblock) (tmpdir : string) (s1 : state).

(** From the construction of the dictionary on, the attributes set by
    [prepare_python] stay as they are. *)
Lemma configure_tail_python :
  st_python_cmd (final (configure_tail fw self tmpdir s1)) = st_python_cmd s1 /\
  st_pylibdir (final (configure_tail fw self tmpdir s1)) = st_pylibdir s1.
Proof.
  rewrite configure_tail_run.
  destruct (res (make_config_env_vars fw self s1)) as [d|e]; [|done].
  destruct (setvars_python (sorted_items d) s1) as (H1 & H2 & _).
  by destruct (all_set _).
Qed.

(** When a value of the dictionary is [None], or the dictionary cannot be
    built, the step raises the Python error; it has called [env.setvar] for
    the first entries of the dictionary at most, and has not patched
    [configure.py] nor run a command. *)
Lemma configure_tail_None k :
  config_env_vars fw self s1 !! k = Some None ->
  res (configure_tail fw self tmpdir s1) = Raise PythonError /\
  (exists n, trace (configure_tail fw self tmpdir s1)
             = map setvar_event (take n (sorted_items (config_env_vars fw self s1)))) /\
  commands (trace (configure_tail fw self tmpdir s1)) = [] /\
  patched_files (trace (configure_tail fw self tmpdir s1)) = [].
Proof.
  intros Hk. rewrite configure_tail_run, make_config_env_vars_run. cbn [res].
  assert (Hset : all_set (sorted_items (config_env_vars fw self s1)) = false).
  { destruct (all_set _) eqn:Hset; [|done].
    by destruct (proj1 (all_set_sorted_items _) Hset k). }
  assert (Hloop :
    let o := mkOutcome (A := unit) (Raise PythonError)
               (setvars (sorted_items (config_env_vars fw self s1)) s1)
               (map setvar_event (applied (sorted_items (config_env_vars fw self s1)))) in
    res o = Raise PythonError /\
    (exists n, trace o = map setvar_event (take n (sorted_items (config_env_vars fw self s1)))) /\
    commands (trace o) = [] /\ patched_files (trace o) = []).
  { cbn. split; [done|]. split; [|split].
    - destruct (applied_take (sorted_items (config_env_vars fw self s1))) as [n ->].
      by exists n.
    - apply commands_setvar_events.
    - apply patched_files_setvar_events. }
  destruct (truthy (get_software_root fw "CUDA")); [destruct (st_environ s1 !! "CC")|];
    rewrite ?Hset; try exact Hloop.
  cbn. repeat split. by exists 0.
Qed.

End ConfigureTail.

Section ConfigureStepRun.

Variables (fw : framework) (self : easyblock) (s : state).

Let tmpdir : string := mkdtemp fw (st_tmp s) "-bazel-configure".
Let bindir : string := os_path_join tmpdir ["bin"].

(** The license server and the include path written into the wrapper. *)
Let license : pyval :=
  match st_environ s !! "INTEL_LICENSE_FILE" with
  | Some v => Some v
  | None => st_environ s !! "LM_LICENSE_FILE"
  end.
Let wrapper_txt : string :=
  INTEL_COMPILER_WRAPPER (which fw (st_environ s) (Some "icc")) license
                         (st_environ s !! "CPATH").
Let wrapper_events : list event :=
  [EvMkdtemp "-bazel-configure";
   EvWriteFile (os_path_join bindir ["icc"]) wrapper_txt;
   EvAdjustPermissions (os_path_join bindir ["icc"]) S_IXUSR].

(** The state in which the dictionary is built, given the environment at
    that point and what [prepare_python] found. *)
Let prepared (environ : gmap string string) (py lib : string) : state :=
  mkState environ (Some py) lib (S (st_tmp s)).

(** The run of the step from there on. *)
Let tail (s1 : state) : outcome unit := configure_tail fw self tmpdir s1.

Lemma configure_step_run_plain py lib :
  String.eqb (comp_family (toolchain self)) (INTELCOMP fw) = false ->
  pick_python fw = inr (py, lib) ->
  let s1 := prepared (st_environ s) py lib in
  configure_step fw self s
  = mkOutcome (res (tail s1)) (final (tail s1))
              ([EvMkdtemp "-bazel-configure"; EvPreparePython] ++ trace (tail s1)).
Proof.
  intros Hfam Hpy s1. unfold tail, configure_tail, output_base_rule, configure_step.
  rewrite Hfam. run. rewrite Hpy. run. fold tmpdir. fold s1.
  destruct (make_config_env_vars _ _ _) as [[d|e] s2 t2]; [|reflexivity].
  destruct (apply_env_vars _ _) as [[[]|e] s3 t3]; [|reflexivity].
  by destruct (run_cmd_ok _ _ _).
Qed.

Lemma configure_step_run_plain_no_python e :
  String.eqb (comp_family (toolchain self)) (INTELCOMP fw) = false ->
  pick_python fw = inl e ->
  configure_step fw self s
  = mkOutcome (Raise e)
              (mkState (st_environ s) (st_python_cmd s) (st_pylibdir s) (S (st_tmp s)))
              [EvMkdtemp "-bazel-configure"; EvPreparePython].
Proof.
  intros Hfam Hpy. unfold configure_step. rewrite Hfam. run. by rewrite Hpy.
Qed.

Lemma wrapper_txt_run :
  INTEL_COMPILER_WRAPPER (which fw (st_environ s) (Some "icc"))
    match st_environ s !! "INTEL_LICENSE_FILE" with
    | Some v => Some v
    | None => match st_environ s !! "LM_LICENSE_FILE" with
              | Some v => Some v
              | None => None
              end
    end
    match st_environ s !! "CPATH" with
    | Some v => Some v
    | None => None
    end
  = wrapper_txt.
Proof.
  unfold wrapper_txt, license.
  by destruct (st_environ s !! "INTEL_LICENSE_FILE"), (st_environ s !! "LM_LICENSE_FILE"),
    (st_environ s !! "CPATH").
Qed.

Lemma configure_step_run_intel_no_path :
  String.eqb (comp_family (toolchain self)) (INTELCOMP fw) = true ->
  st_environ s !! "PATH" = None ->
  configure_step fw self s
  = mkOutcome (Raise PythonError)
              (mkState (st_environ s) (st_python_cmd s) (st_pylibdir s) (S (st_tmp s)))
              wrapper_events.
Proof.
  intros Hfam Hpath. unfold configure_step. rewrite Hfam. run. rewrite Hpath.
  rewrite wrapper_txt_run. reflexivity.
Qed.

Lemma configure_step_run_intel path py lib :
  String.eqb (comp_family (toolchain self)) (INTELCOMP fw) = true ->
  st_environ s !! "PATH" = Some path ->
  pick_python fw = inr (py, lib) ->
  let environ' := <["PATH" := bindir +:+ ":" +:+ path]> (st_environ s) in
  let s1 := prepared environ' py lib in
  configure_step fw self s
  = mkOutcome (res (tail s1)) (final (tail s1))
              (wrapper_events
               ++ [EvSetvar "PATH" (Some (bindir +:+ ":" +:+ path));
                   EvLogInfo "Using wrapper script for 'icc': %s"
                             [PyVal (which fw environ' (Some "icc"))];
                   EvPreparePython]
               ++ trace (tail s1)).
Proof.
  intros Hfam Hpath Hpy environ' s1.
  unfold tail, configure_tail, output_base_rule, configure_step. rewrite Hfam. run.
  rewrite Hpath, Hpy. run. rewrite wrapper_txt_run.
  cbn [str_join]. fold tmpdir. rewrite os_path_dirname_bin_icc. fold bindir environ' s1.
  destruct (make_config_env_vars _ _ _) as [[d|e] s2 t2]; [|reflexivity].
  destruct (apply_env_vars _ _) as [[[]|e] s3 t3]; [|reflexivity].
  by destruct (run_cmd_ok _ _ _).
Qed.

Lemma configure_step_run_intel_no_python path e :
  String.eqb (comp_family (toolchain self)) (INTELCOMP fw) = true ->
  st_environ s !! "PATH" = Some path ->
  pick_python fw = inl e ->
  let environ' := <["PATH" := bindir +:+ ":" +:+ path]> (st_environ s) in
  configure_step fw self s
  = mkOutcome (Raise e)
              (mkState environ' (st_python_cmd s) (st_pylibdir s) (S (st_tmp s)))
              (wrapper_events
               ++ [EvSetvar "PATH" (Some (bindir +:+ ":" +:+ path));
                   EvLogInfo "Using wrapper script for 'icc': %s"
                             [PyVal (which fw environ' (Some "icc"))];
                   EvPreparePython]).
Proof.
  intros Hfam Hpath Hpy environ'. unfold configure_step. rewrite Hfam. run.
  rewrite Hpath, Hpy. run. rewrite wrapper_txt_run.
  cbn [str_join]. fold tmpdir. rewrite os_path_dirname_bin_icc. by fold bindir environ'.
Qed.

End ConfigureStepRun.

(** ** What the configure step leaves alone *)

Lemma apply_env_vars_keeps fw self (K : list string) s1 :
  (forall k, k ∈ base_keys ++ cuda_keys ++ cudnn_keys -> k ∈ K) ->
  keeps (environ_frame K) (apply_env_vars (config_env_vars fw self s1)).
Proof.
  intros Hkeys. unfold apply_env_vars. apply keeps_for_each; [apply _..|]. intros [k v] Hin.
  apply keeps_env_setvar; [apply _|]. intros st v'. apply environ_frame_setvar. apply Hkeys. cbn.
  apply (config_keys_all fw). eapply config_env_vars_is_Some.
  exists v. by apply sorted_items_lookup.
Qed.

Lemma configure_tail_keeps fw self tmpdir (K : list string) :
  (forall k, k ∈ base_keys ++ cuda_keys ++ cudnn_keys -> k ∈ K) ->
  keeps (environ_frame K) (configure_tail fw self tmpdir).
Proof.
  intros Hkeys. unfold configure_tail.
  apply (keeps_bind_res _ (fun d => exists s', d = config_env_vars fw self s')).
  - apply keeps_make_config_env_vars; apply _.
  - intros s d Hd. exists s. by apply make_config_env_vars_res.
  - intros d [s' ->]. unfold apply_regex_substitutions.
    repeat keeps_step. by apply apply_env_vars_keeps.
Qed.

Lemma configure_step_keeps fw self (K : list string) :
  (String.eqb (comp_family (toolchain self)) (INTELCOMP fw) = true -> "PATH" ∈ K) ->
  (forall k, k ∈ base_keys ++ cuda_keys ++ cudnn_keys -> k ∈ K) ->
  keeps (environ_frame K) (configure_step fw self).
Proof.
  intros Hpath Hkeys. unfold configure_step.
  apply keeps_bind; [apply _|keeps_step; by intros st k Hk|]. intros tmpdir.
  apply keeps_bind; [apply _| |].
  { destruct (String.eqb _ _); repeat keeps_step.
    intros st v. apply environ_frame_setvar. by apply Hpath. }
  intros _. apply keeps_bind; [apply _|keeps_step; by intros st py lib k Hk|].
  intros _. by apply (configure_tail_keeps fw self tmpdir).
Qed.

(** ** The configure step from end to end *)

Section ConfigureStepWhole.

Variables (fw : framework) (self : easyblock) (s : state).

Let tmpdir : string := mkdtemp fw (st_tmp s) "-bazel-configure".
Let bindir : string := os_path_join tmpdir ["bin"].

(** X1: with a toolchain other than Intel's and an interpreter found by
    [prepare_python], the calls of the configure step depend on the values of
    the dictionary built after that.  When all of them are strings, the step
    makes these calls and no other, in this order: it asks for a temporary
    directory, prepares Python, sets the entries of the dictionary in sorted
    order, patches [configure.py] with the one rule that passes the temporary
    directory as [--output_base], and runs [./configure]; it returns when
    that command succeeds in the environment so set up.  When a value is
    [None], the step raises the Python error: it has called [env.setvar] for
    the first entries of the sorted dictionary at most, and it has neither
    patched [configure.py] nor run a command. *)
Theorem configure_step_plain_toolchain (py lib : string) :
  String.eqb (comp_family (toolchain self)) (INTELCOMP fw) = false ->
  pick_python fw = inr (py, lib) ->
  let d := config_env_vars fw self (mkState (st_environ s) (Some py) lib (S (st_tmp s))) in
  ((forall k, d !! k <> Some None) ->
   trace (configure_step fw self s)
   = [EvMkdtemp "-bazel-configure"; EvPreparePython]
     ++ map setvar_event (sorted_items d)
     ++ [EvApplyRegexSubstitutions "configure.py" [output_base_rule tmpdir];
         EvRunCmd "./configure"] /\
   (run_cmd_ok fw (st_environ (final (configure_step fw self s))) "./configure" = true ->
    res (configure_step fw self s) = Ok tt)) /\
  (forall k, d !! k = Some None ->
   res (configure_step fw self s) = Raise PythonError /\
   (exists n, trace (configure_step fw self s)
              = [EvMkdtemp "-bazel-configure"; EvPreparePython]
                ++ map setvar_event (take n (sorted_items d))) /\
   commands (trace (configure_step fw self s)) = [] /\
   patched_files (trace (configure_step fw self s)) = []).
Proof.
  intros Hfam Hpy d. rewrite (configure_step_run_plain fw self s py lib Hfam Hpy).
  cbn [trace res final]. split.
  - intros Hd. rewrite (configure_tail_all_set fw self _ _ Hd). cbn [trace res final].
    split; [reflexivity|]. by intros ->.
  - intros k Hk.
    destruct (configure_tail_None fw self tmpdir _ k Hk) as (Hres & [n Htr] & Hcmd & Hpat).
    fold tmpdir. rewrite Hres. split; [done|]. split; [exists n; by rewrite Htr|].
    unfold commands, patched_files in *. by rewrite !omap_app, Hcmd, Hpat.
Qed.

(** X2: in that case, if every value of the dictionary is a string, the
    environment the step leaves holds each entry of the dictionary, and is
    the one it started in for every other variable; the attributes
    [python_cmd] and [pylibdir] are those found by [prepare_python]. *)
Theorem configure_step_exports (py lib : string) :
  String.eqb (comp_family (toolchain self)) (INTELCOMP fw) = false ->
  pick_python fw = inr (py, lib) ->
  let d := config_env_vars fw self (mkState (st_environ s) (Some py) lib (S (st_tmp s))) in
  let s' := final (configure_step fw self s) in
  (forall k, d !! k <> Some None) ->
  (forall k v, d !! k = Some (Some v) -> st_environ s' !! k = Some v) /\
  (forall k, d !! k = None -> st_environ s' !! k = st_environ s !! k) /\
  st_python_cmd s' = Some py /\ st_pylibdir s' = lib.
Proof.
  intros Hfam Hpy d s' Hstr. unfold s'.
  rewrite (configure_step_run_plain fw self s py lib Hfam Hpy). cbn [final].
  rewrite (configure_tail_all_set fw self _ _ Hstr). cbn [final]. fold d.
  repeat split.
  - intros k v Hk. rewrite sorted_items_environ by done. by rewrite Hk.
  - intros k Hk. rewrite sorted_items_environ by done. by rewrite Hk.
  - apply setvars_python.
  - apply setvars_python.
Qed.

(** X3: when [prepare_python] raises, the configure step raises the same
    error: it has set no variable but possibly [PATH], it has not patched
    [configure.py] and it has run no command. *)
Theorem configure_step_python_failure (e : exn) :
  pick_python fw = inl e ->
  String.eqb (comp_family (toolchain self)) (INTELCOMP fw) = false \/
    is_Some (st_environ s !! "PATH") ->
  res (configure_step fw self s) = Raise e /\
  commands (trace (configure_step fw self s)) = [] /\
  patched_files (trace (configure_step fw self s)) = [] /\
  Forall (fun k => k = "PATH") (setvar_keys (trace (configure_step fw self s))).
Proof.
  intros Hpy Hreach.
  destruct (String.eqb (comp_family (toolchain self)) (INTELCOMP fw)) eqn:Hfam.
  - destruct Hreach as [|[path Hpath]]; [done|].
    rewrite (configure_step_run_intel_no_python fw self s path e Hfam Hpath Hpy).
    repeat split. cbn. by repeat constructor.
  - rewrite (configure_step_run_plain_no_python fw self s e Hfam Hpy).
    repeat split. constructor.
Qed.

(** X4: with the toolchain of the Intel compilers and a search path, the
    step writes the wrapper to [<tmpdir>/bin/icc], makes it executable and
    puts [<tmpdir>/bin] first on [PATH]; this is the first variable it sets,
    and [PATH] still has that value when the step ends, however it ends.
    The wrapper calls the [icc] found before [PATH] was changed; the log line
    names the one found after.  When an interpreter is found and no value of
    the dictionary built with it is [None], the step goes on to patch
    [configure.py] and run [./configure] as its last two calls, and the
    output base it passes is the temporary directory that holds the
    wrapper. *)
Theorem configure_step_intel_wrapper (path : string) :
  String.eqb (comp_family (toolchain self)) (INTELCOMP fw) = true ->
  st_environ s !! "PATH" = Some path ->
  let new_path := bindir +:+ ":" +:+ path in
  let environ' := <["PATH" := new_path]> (st_environ s) in
  (exists license cpath rest,
     trace (configure_step fw self s)
     = [EvMkdtemp "-bazel-configure";
        EvWriteFile (os_path_join bindir ["icc"])
          (INTEL_COMPILER_WRAPPER (which fw (st_environ s) (Some "icc")) license cpath);
        EvAdjustPermissions (os_path_join bindir ["icc"]) S_IXUSR;
        EvSetvar "PATH" (Some new_path);
        EvLogInfo "Using wrapper script for 'icc': %s" [PyVal (which fw environ' (Some "icc"))];
        EvPreparePython] ++ rest) /\
  st_environ (final (configure_step fw self s)) !! "PATH" = Some new_path /\
  (forall py lib,
     pick_python fw = inr (py, lib) ->
     (forall k, config_env_vars fw self (mkState environ' (Some py) lib (S (st_tmp s))) !! k
                <> Some None) ->
     exists before,
       trace (configure_step fw self s)
       = before ++ [EvApplyRegexSubstitutions "configure.py" [output_base_rule tmpdir];
                    EvRunCmd "./configure"]).
Proof.
  intros Hfam Hpath new_path environ'.
  assert (Hkey : "PATH" ∉ base_keys ++ cuda_keys ++ cudnn_keys).
  { intros Hin. unfold base_keys, cuda_keys, cudnn_keys in Hin. cbn [app] in Hin.
    elem_absurd Hin. }
  destruct (pick_python fw) as [e|[py lib]] eqn:Hpy.
  - rewrite (configure_step_run_intel_no_python fw self s path e Hfam Hpath Hpy).
    cbn [trace final st_environ app]. split; [by eexists _, _, []|].
    split; [apply lookup_insert_eq|done].
  - rewrite (configure_step_run_intel fw self s path py lib Hfam Hpath Hpy).
    cbn [trace final app]. split; [by eexists _, _, _|]. split.
    + rewrite (configure_tail_keeps fw self _ (base_keys ++ cuda_keys ++ cudnn_keys)) by done.
      apply lookup_insert_eq.
    + intros py' lib' [= <- <-] Hd. fold tmpdir bindir new_path environ'.
      rewrite (configure_tail_all_set fw self _ _ Hd). cbn [trace].
      eexists (_ :: _ :: _ :: _ :: _ :: _ :: map setvar_event _).
      reflexivity.
Qed.

(** X5: with the toolchain of the Intel compilers and no [PATH] in the
    environment, the step fails with the error Python raises when [None] is
    joined to a string: by then it has written the wrapper and made it
    executable, and it has done nothing else. *)
Theorem configure_step_intel_no_path :
  String.eqb (comp_family (toolchain self)) (INTELCOMP fw) = true ->
  st_environ s !! "PATH" = None ->
  res (configure_step fw self s) = Raise PythonError /\
  written_files (trace (configure_step fw self s)) = [os_path_join tmpdir ["bin"; "icc"]] /\
  setvar_keys (trace (configure_step fw self s)) = [] /\
  commands (trace (configure_step fw self s)) = [] /\
  (EvPreparePython ∉ trace (configure_step fw self s)) /\
  st_environ (final (configure_step fw self s)) = st_environ s.
Proof.
  intros Hfam Hpath. rewrite (configure_step_run_intel_no_path fw self s Hfam Hpath).
  repeat split. cbn [trace]. intros Hin. elem_absurd Hin.
Qed.

(** The wrapper is written first, whatever happens next. *)
Lemma configure_step_intel_prefix :
  String.eqb (comp_family (toolchain self)) (INTELCOMP fw) = true ->
  exists rest,
    trace (configure_step fw self s)
    = [EvMkdtemp "-bazel-configure";
       EvWriteFile (os_path_join bindir ["icc"])
         (INTEL_COMPILER_WRAPPER (which fw (st_environ s) (Some "icc"))
            match st_environ s !! "INTEL_LICENSE_FILE" with
            | Some v => Some v
            | None => st_environ s !! "LM_LICENSE_FILE"
            end
            (st_environ s !! "CPATH"))] ++ rest.
Proof.
  intros Hfam. destruct (st_environ s !! "PATH") as [path|] eqn:Hpath.
  - destruct (pick_python fw) as [e|[py lib]] eqn:Hpy.
    + rewrite (configure_step_run_intel_no_python fw self s path e Hfam Hpath Hpy).
      by eexists.
    + rewrite (configure_step_run_intel fw self s path py lib Hfam Hpath Hpy). by eexists.
  - rewrite (configure_step_run_intel_no_path fw self s Hfam Hpath). by eexists.
Qed.

(** X6: the text of the wrapper.  The license server it exports is
    [INTEL_LICENSE_FILE] when that is set, even to the empty string, else
    [LM_LICENSE_FILE]; a variable that is not set is written as [None], and
    so is an [icc] that is not found. *)
Theorem intel_wrapper_text :
  String.eqb (comp_family (toolchain self)) (INTELCOMP fw) = true ->
  let license :=
    match st_environ s !! "INTEL_LICENSE_FILE" with
    | Some v => v
    | None => default "None" (st_environ s !! "LM_LICENSE_FILE")
    end in
  let cpath := default "None" (st_environ s !! "CPATH") in
  let icc := default "None" (which fw (st_environ s) (Some "icc")) in
  EvWriteFile (os_path_join tmpdir ["bin"; "icc"])
    ("#!/bin/bash" +:+ newline +:+
     "export INTEL_LICENSE_FILE='" +:+ license +:+ "'" +:+ newline +:+
     "export CPATH='" +:+ cpath +:+ "'" +:+ newline +:+
     icc +:+ " " +:+ dquote +:+ "$@" +:+ dquote +:+ newline)
    ∈ trace (configure_step fw self s).
Proof.
  intros Hfam license cpath icc.
  destruct (configure_step_intel_prefix Hfam) as [rest ->].
  apply elem_of_cons. right. apply elem_of_cons. left.
  unfold INTEL_COMPILER_WRAPPER, license, cpath, icc.
  by destruct (st_environ s !! "INTEL_LICENSE_FILE"), (st_environ s !! "LM_LICENSE_FILE"),
    (st_environ s !! "CPATH"), (which fw (st_environ s) (Some "icc")).
Qed.

End ConfigureStepWhole.

(** The dictionary built at the concrete installation has no value that is
    [None], with the toolchain of the Intel compilers too. *)
Lemma demo_config_env_vars_all_set environ k :
  environ !! "CXXFLAGS" = Some "-O2" ->
  config_env_vars demo_framework (demo_easyblock ∅ "" false)
    (mkState environ (Some "/opt/eb/bin/python") "lib/python2.7/site-packages" 1) !! k
  <> Some None.
Proof.
  intros Hcxx. apply config_env_vars_all_set_without_cuda; try done; by eexists.
Qed.

Lemma configure_step_plain_toolchain_witness :
  let d := config_env_vars demo_framework (demo_easyblock ∅ "" false)
             (mkState (st_environ demo_state) (Some "/opt/eb/bin/python")
                      "lib/python2.7/site-packages" 1) in
  trace (configure_step demo_framework (demo_easyblock ∅ "" false) demo_state)
  = [EvMkdtemp "-bazel-configure"; EvPreparePython]
    ++ map setvar_event (sorted_items d)
    ++ [EvApplyRegexSubstitutions "configure.py" [output_base_rule "/tmp/eb-bazel-configure"];
        EvRunCmd "./configure"] /\
  res (configure_step demo_framework (demo_easyblock ∅ "" false) demo_state) = Ok tt.
Proof.
  destruct (configure_step_plain_toolchain demo_framework (demo_easyblock ∅ "" false)
              demo_state "/opt/eb/bin/python" "lib/python2.7/site-packages" eq_refl eq_refl)
    as [Hset _].
  destruct (Hset (fun k => demo_config_env_vars_all_set (st_environ demo_state) k eq_refl)) as [Htrace Hres].
  split; [exact Htrace|exact (Hres eq_refl)].
Defined.

Lemma configure_step_exports_witness :
  let s' := final (configure_step demo_framework (demo_easyblock ∅ "" false) demo_state) in
  st_environ s' !! "TF_NEED_CUDA" = Some "0" /\
  st_environ s' !! "CC_OPT_FLAGS" = Some "-O2" /\
  st_environ s' !! "PYTHON_LIB_PATH" = Some "/inst/lib/python2.7/site-packages" /\
  st_environ s' !! "HOME" = None /\
  st_python_cmd s' = Some "/opt/eb/bin/python".
Proof.
  intros s'.
  assert (Hstr : forall k,
            config_env_vars demo_framework (demo_easyblock ∅ "" false)
              (mkState (st_environ demo_state) (Some "/opt/eb/bin/python")
                       "lib/python2.7/site-packages" 1) !! k <> Some None).
  { intros k Hk. apply elem_of_map_to_list in Hk.
    match type of Hk with _ ∈ ?l => let l' := eval vm_compute in l in change l with l' in Hk end.
    elem_absurd Hk. }
  destruct (configure_step_exports demo_framework (demo_easyblock ∅ "" false) demo_state
              "/opt/eb/bin/python" "lib/python2.7/site-packages" eq_refl eq_refl Hstr)
    as (Hset & Hkeep & Hpy & _).
  exact (conj (Hset "TF_NEED_CUDA" "0" eq_refl)
          (conj (Hset "CC_OPT_FLAGS" "-O2" eq_refl)
          (conj (Hset "PYTHON_LIB_PATH" "/inst/lib/python2.7/site-packages" eq_refl)
          (conj (Hkeep "HOME" eq_refl) Hpy)))).
Defined.

Lemma configure_step_python_failure_witness :
  res (configure_step no_python_framework (demo_easyblock ∅ "" false) demo_state)
  = Raise (EasyBuildError "Failed to pick python command to use" []) /\
  commands (trace (configure_step no_python_framework (demo_easyblock ∅ "" false) demo_state))
  = [].
Proof.
  destruct (configure_step_python_failure no_python_framework (demo_easyblock ∅ "" false)
              demo_state _ eq_refl (or_introl eq_refl)) as (Hres & Hcmd & _).
  split; [exact Hres|exact Hcmd].
Defined.

Lemma configure_step_intel_wrapper_witness :
  st_environ (final (configure_step demo_framework intel_easyblock demo_state)) !! "PATH"
  = Some "/tmp/eb-bazel-configure/bin:/opt/eb/bin:/usr/bin" /\
  exists before,
    trace (configure_step demo_framework intel_easyblock demo_state)
    = before ++ [EvApplyRegexSubstitutions "configure.py"
                   [output_base_rule "/tmp/eb-bazel-configure"];
                 EvRunCmd "./configure"].
Proof.
  destruct (configure_step_intel_wrapper demo_framework intel_easyblock demo_state
              "/opt/eb/bin:/usr/bin" eq_refl eq_refl) as (_ & Hpath & Hlast).
  split; [exact Hpath|].
  apply (Hlast "/opt/eb/bin/python" "lib/python2.7/site-packages" eq_refl).
  intros k. apply (demo_config_env_vars_all_set _ k). reflexivity.
Defined.

Lemma configure_step_intel_no_path_witness :
  res (configure_step demo_framework intel_easyblock no_path_state) = Raise PythonError /\
  written_files (trace (configure_step demo_framework intel_easyblock no_path_state))
  = ["/tmp/eb-bazel-configure/bin/icc"].
Proof.
  destruct (configure_step_intel_no_path demo_framework intel_easyblock no_path_state
              eq_refl eq_refl) as (Hres & Hfiles & _).
  split; [exact Hres|exact Hfiles].
Defined.

Lemma intel_wrapper_text_witness :
  EvWriteFile "/tmp/eb-bazel-configure/bin/icc"
    ("#!/bin/bash" +:+ newline +:+
     "export INTEL_LICENSE_FILE='28518@license.example.org'" +:+ newline +:+
     "export CPATH='None'" +:+ newline +:+
     "/opt/eb/bin/icc " +:+ dquote +:+ "$@" +:+ dquote +:+ newline)
    ∈ trace (configure_step demo_framework intel_easyblock no_path_state).
Proof.
  exact (intel_wrapper_text demo_framework intel_easyblock no_path_state eq_refl).
Defined.

(** X7: the configure step changes no variable of the environment other than
    [PATH] and the keys the dictionary can have, however it ends; and with a
    toolchain other than Intel's it does not change [PATH] either. *)
Theorem configure_step_frame (fw : framework) (self : easyblock) (s : state) (k : string) :
  k ∉ base_keys ++ cuda_keys ++ cudnn_keys ->
  k <> "PATH" \/ String.eqb (comp_family (toolchain self)) (INTELCOMP fw) = false ->
  st_environ (final (configure_step fw self s)) !! k = st_environ s !! k.
Proof.
  intros Hk [Hpath|Hfam].
  - apply (configure_step_keeps fw self ("PATH" :: base_keys ++ cuda_keys ++ cudnn_keys)).
    + intros _. left.
    + intros k' Hk'. by right.
    + intros Hin. apply elem_of_cons in Hin as [->|Hin]; done.
  - apply (configure_step_keeps fw self (base_keys ++ cuda_keys ++ cudnn_keys)); [|done..].
    intros Hfam'. congruence.
Qed.

(** ** The interpreter found by [prepare_python] *)

Lemma config_env_vars_python fw self s :
  config_env_vars fw self s !! "PYTHON_BIN_PATH" = Some (st_python_cmd s) /\
  config_env_vars fw self s !! "PYTHON_LIB_PATH"
    = Some (Some (os_path_join (installdir self) [st_pylibdir s])).
Proof.
  split; (rewrite config_env_vars_lookup_base; [reflexivity|..]); intros Hin;
    unfold cuda_keys, cudnn_keys in Hin; elem_absurd Hin.
Qed.

(** A configure step that ran [./configure] has exported the interpreter
    and the library directory found by [prepare_python]. *)
Lemma configure_step_python_exports fw self s py lib :
  pick_python fw = inr (py, lib) ->
  EvRunCmd "./configure" ∈ trace (configure_step fw self s) ->
  EvSetvar "PYTHON_BIN_PATH" (Some py) ∈ trace (configure_step fw self s) /\
  EvSetvar "PYTHON_LIB_PATH" (Some (os_path_join (installdir self) [lib]))
    ∈ trace (configure_step fw self s) /\
  st_environ (final (configure_step fw self s)) !! "PYTHON_BIN_PATH" = Some py /\
  st_environ (final (configure_step fw self s)) !! "PYTHON_LIB_PATH"
    = Some (os_path_join (installdir self) [lib]) /\
  st_python_cmd (final (configure_step fw self s)) = Some py /\
  st_pylibdir (final (configure_step fw self s)) = lib.
Proof.
  intros Hpy Hrun.
  destruct (configure_step_configured fw self s Hrun)
    as (py' & lib' & s' & Hpy' & Hcmd & Hlib & _ & _ & Hall & Hfcmd & Hflib).
  rewrite Hpy in Hpy'. injection Hpy' as <- <-.
  destruct (config_env_vars_python fw self s') as [Hbin Hdir].
  rewrite Hcmd in Hbin. rewrite Hlib in Hdir.
  destruct (Hall _ _ Hbin), (Hall _ _ Hdir). done.
Qed.

(** The attributes when the step ends are those found by [prepare_python]. *)
Lemma configure_step_final_python fw self s py lib :
  pick_python fw = inr (py, lib) ->
  String.eqb (comp_family (toolchain self)) (INTELCOMP fw) = false \/
    is_Some (st_environ s !! "PATH") ->
  st_python_cmd (final (configure_step fw self s)) = Some py /\
  st_pylibdir (final (configure_step fw self s)) = lib.
Proof.
  intros Hpy Hreach.
  destruct (configure_step_reaches_tail fw self s py lib Hpy Hreach)
    as (tmpdir & s' & pre & -> & Hcmd & Hlib & _).
  cbn [final]. destruct (configure_tail_python fw self tmpdir s') as [-> ->]. done.
Qed.

(** X8: the interpreter and the library directory found by [prepare_python]
    during the step, not those the easyblock had before, are what the
    attributes [python_cmd] and [pylibdir] hold when the step ends, whether
    the loop over the dictionary raises or not; and a step that gets to run
    [./configure] has exported them as [PYTHON_BIN_PATH] and
    [PYTHON_LIB_PATH] (the latter under the installation directory), which
    the environment it leaves holds. *)
Theorem configure_step_python_paths
    (fw : framework) (self : easyblock) (s : state) (py lib : string) :
  pick_python fw = inr (py, lib) ->
  (String.eqb (comp_family (toolchain self)) (INTELCOMP fw) = false \/
     is_Some (st_environ s !! "PATH") ->
   st_python_cmd (final (configure_step fw self s)) = Some py /\
   st_pylibdir (final (configure_step fw self s)) = lib) /\
  (EvRunCmd "./configure" ∈ trace (configure_step fw self s) ->
   EvSetvar "PYTHON_BIN_PATH" (Some py) ∈ trace (configure_step fw self s) /\
   EvSetvar "PYTHON_LIB_PATH" (Some (os_path_join (installdir self) [lib]))
     ∈ trace (configure_step fw self s) /\
   st_environ (final (configure_step fw self s)) !! "PYTHON_BIN_PATH" = Some py /\
   st_environ (final (configure_step fw self s)) !! "PYTHON_LIB_PATH"
     = Some (os_path_join (installdir self) [lib])).
Proof.
  intros Hpy. split.
  - by apply configure_step_final_python.
  - intros Hrun.
    destruct (configure_step_python_exports fw self s py lib Hpy Hrun)
      as (H1 & H2 & H3 & H4 & _).
    done.
Qed.

(** ** The entries of the dictionary *)

Lemma config_keys_NoDup fw : NoDup (config_keys fw).
Proof.
  unfold config_keys.
  destruct (truthy (get_software_root fw "CUDA")), (truthy (get_software_root fw "cuDNN"));
    apply (bool_decide_unpack _); by vm_compute.
Qed.

Lemma sorted_items_keys_Permutation fw self s :
  (sorted_items (config_env_vars fw self s)).*1 ≡ₚ config_keys fw.
Proof.
  apply NoDup_Permutation.
  - apply sorted_items_NoDup.
  - apply config_keys_NoDup.
  - intros k. rewrite <- config_env_vars_is_Some. rewrite list_elem_of_fmap. split.
    + intros [[k' v] [-> Hin]]. exists v. by apply sorted_items_lookup.
    + intros [v Hv]. exists (k, v). split; [done|]. by apply sorted_items_lookup.
Qed.

(** X9: the keys of a dictionary that gets built: the fifteen of the
    literal, the four of CUDA when its root resolves and the two of cuDNN
    when its root resolves, and no other; so the loop calls [env.setvar] at
    most 15, 17, 19 or 21 times, and exactly that many times when no value
    is [None]. *)
Theorem config_env_vars_domain (fw : framework) (self : easyblock) (s : state) :
  let n := 15 + (if truthy (get_software_root fw "CUDA") then 4 else 0)
              + (if truthy (get_software_root fw "cuDNN") then 2 else 0) in
  forall d, res (make_config_env_vars fw self s) = Ok d ->
    (forall k, is_Some (d !! k) <-> k ∈ config_keys fw) /\
    length (trace (apply_env_vars d s)) <= n /\
    ((forall k, d !! k <> Some None) -> length (trace (apply_env_vars d s)) = n).
Proof.
  intros n d Hd. apply make_config_env_vars_res in Hd as ->.
  assert (Hlen : length (sorted_items (config_env_vars fw self s)) = n).
  { rewrite <- (length_fmap fst), sorted_items_keys_Permutation. unfold config_keys, n.
    by destruct (truthy (get_software_root fw "CUDA")),
      (truthy (get_software_root fw "cuDNN")). }
  split; [intros k; apply config_env_vars_is_Some|].
  rewrite apply_env_vars_run. cbn [trace]. rewrite length_map. split.
  - destruct (applied_take (sorted_items (config_env_vars fw self s))) as [m ->].
    rewrite length_take. lia.
  - intros Hall. by rewrite (applied_all_set _ (proj2 (all_set_sorted_items _) Hall)).
Qed.

(** X10: when the CUDA root resolves, the dictionary can only be built with
    [CC] set: otherwise [which] is handed [None] and its error ends the
    construction, and with it the configure step, before any entry is
    exported.  With [CC] set the dictionary has [TF_NEED_CUDA] at "1" and the
    four CUDA entries: the root, the compiler [which] finds for [$CC], the
    compute capabilities of the easyconfig joined by commas (the empty
    string for an empty list) and the version; this is so whether cuDNN is
    installed or not. *)
Theorem config_env_vars_cuda_entries (fw : framework) (self : easyblock) (s : state) :
  truthy (get_software_root fw "CUDA") = true ->
  (st_environ s !! "CC" = None ->
   make_config_env_vars fw self s = mkOutcome (Raise PythonError) s [] /\
   forall py lib,
     pick_python fw = inr (py, lib) ->
     String.eqb (comp_family (toolchain self)) (INTELCOMP fw) = false \/
       is_Some (st_environ s !! "PATH") ->
     res (configure_step fw self s) = Raise PythonError /\
     Forall (fun k => k = "PATH") (setvar_keys (trace (configure_step fw self s))) /\
     commands (trace (configure_step fw self s)) = []) /\
  (forall cc, st_environ s !! "CC" = Some cc ->
   exists d, res (make_config_env_vars fw self s) = Ok d /\
     d !! "TF_NEED_CUDA" = Some (Some "1") /\
     d !! "CUDA_TOOLKIT_PATH" = Some (get_software_root fw "CUDA") /\
     d !! "GCC_HOST_COMPILER_PATH" = Some (which fw (st_environ s) (Some cc)) /\
     d !! "TF_CUDA_COMPUTE_CAPABILITIES"
       = Some (Some (str_join "," (cuda_compute_capabilities (cfg self)))) /\
     d !! "TF_CUDA_VERSION" = Some (get_software_version fw "CUDA") /\
     (cuda_compute_capabilities (cfg self) = [] ->
      d !! "TF_CUDA_COMPUTE_CAPABILITIES" = Some (Some ""))).
Proof.
  intros Hcuda. split.
  - intros Hcc.
    assert (Hmake : forall s', st_environ s' !! "CC" = None ->
              make_config_env_vars fw self s' = mkOutcome (Raise PythonError) s' []).
    { intros s' Hcc'. by rewrite make_config_env_vars_run, Hcuda, Hcc'. }
    split; [by apply Hmake|]. intros py lib Hpy Hreach.
    destruct (configure_step_reaches_tail fw self s py lib Hpy Hreach)
      as (tmpdir & s' & pre & -> & _ & _ & Hframe & Hpre & Hcmd).
    rewrite configure_tail_run, Hmake.
    + cbn [res trace]. by rewrite app_nil_r.
    + rewrite Hframe; [done|]. intros Hin. elem_absurd Hin.
  - intros cc Hcc. exists (config_env_vars fw self s).
    split; [by rewrite make_config_env_vars_run, Hcuda, Hcc|].
    set (d := config_env_vars fw self s).
    assert (Hd : forall k v, cuda_env_vars fw self s !! k = Some v -> d !! k = Some v).
    { intros k v Hk. unfold d, config_env_vars. rewrite Hcuda.
      destruct (truthy (get_software_root fw "cuDNN")).
      - rewrite dict_update_lookup_r; [by apply dict_update_lookup_l|].
        apply cudnn_env_vars_lookup_None. intros Hin.
        assert (Hc : k ∈ cuda_keys).
        { destruct (decide (k ∈ cuda_keys)) as [|Hn]; [done|].
          by rewrite (cuda_env_vars_lookup_None fw self s k Hn) in Hk. }
        unfold cuda_keys in Hc. unfold cudnn_keys in Hin. elem_cases Hc; elem_absurd Hin.
      - by apply dict_update_lookup_l. }
    split.
    { unfold d. destruct (config_env_vars_flags fw self s) as [-> _]. by rewrite Hcuda. }
    split; [by apply Hd|]. split.
    { rewrite (Hd "GCC_HOST_COMPILER_PATH" (host_compiler_path fw s)) by reflexivity.
      unfold host_compiler_path, getenv_in. by rewrite Hcc. }
    repeat split; try (by apply Hd).
    intros Hcaps.
    rewrite (Hd "TF_CUDA_COMPUTE_CAPABILITIES"
                (Some (str_join "," (cuda_compute_capabilities (cfg self))))) by reflexivity.
    by rewrite Hcaps.
Qed.

(** X11: the entries that no installation changes: [TF_NEED_MPI] follows the
    toolchain option [usempi] and is "0" when the option is not given,
    [MPI_HOME] is empty even with [usempi], and the seven other features are
    turned off. *)
Theorem config_env_vars_fixed_entries (fw : framework) (self : easyblock) (s : state) :
  let d := config_env_vars fw self s in
  d !! "TF_NEED_MPI" = Some (Some (flag01 (default false (options (toolchain self) !! "usempi")))) /\
  (options (toolchain self) !! "usempi" = None -> d !! "TF_NEED_MPI" = Some (Some "0")) /\
  d !! "MPI_HOME" = Some (Some "") /\
  (forall k, k ∈ disabled_flags -> d !! k = Some (Some "0")).
Proof.
  intros d.
  assert (Hbase : forall k, k ∈ "TF_NEED_MPI" :: "MPI_HOME" :: disabled_flags ->
                    d !! k = base_env_vars fw self s !! k).
  { intros k Hk. apply config_env_vars_lookup_base; intros Hin;
      unfold disabled_flags in Hk; unfold cuda_keys, cudnn_keys in Hin;
      elem_cases Hk; elem_absurd Hin. }
  split; [|split; [|split]].
  - rewrite Hbase by left. reflexivity.
  - intros Hopt. rewrite Hbase by left. unfold base_env_vars. by rewrite Hopt.
  - rewrite Hbase by (right; left). reflexivity.
  - intros k Hk. rewrite Hbase by (by do 2 right).
    unfold disabled_flags in Hk. elem_cases Hk; reflexivity.
Qed.

Lemma configure_step_frame_witness :
  st_environ (final (configure_step demo_framework intel_easyblock demo_state)) !! "CXXFLAGS"
  = Some "-O2".
Proof.
  apply (configure_step_frame demo_framework intel_easyblock demo_state "CXXFLAGS").
  - intros Hin. unfold base_keys, cuda_keys, cudnn_keys in Hin. cbn [app] in Hin.
    elem_absurd Hin.
  - left. discriminate.
Defined.

Lemma configure_step_python_paths_witness :
  let self := demo_easyblock ∅ "" false in
  let s := mkState (st_environ demo_state) None "" 0 in
  st_python_cmd (final (configure_step demo_framework self s)) = Some "/opt/eb/bin/python" /\
  EvSetvar "PYTHON_BIN_PATH" (Some "/opt/eb/bin/python")
    ∈ trace (configure_step demo_framework self s) /\
  EvSetvar "PYTHON_LIB_PATH" (Some "/inst/lib/python2.7/site-packages")
    ∈ trace (configure_step demo_framework self s) /\
  st_environ (final (configure_step demo_framework self s)) !! "PYTHON_LIB_PATH"
  = Some "/inst/lib/python2.7/site-packages".
Proof.
  intros self s.
  destruct (configure_step_python_paths demo_framework self s
              "/opt/eb/bin/python" "lib/python2.7/site-packages" eq_refl) as [Hfinal Hrun].
  destruct (Hfinal (or_introl eq_refl)) as [Hcmd _].
  assert (Hconf : EvRunCmd "./configure" ∈ trace (configure_step demo_framework self s)).
  { vm_compute. repeat constructor. }
  destruct (Hrun Hconf) as (Hbin & Hlib & _ & Hdir).
  exact (conj Hcmd (conj Hbin (conj Hlib Hdir))).
Defined.

Lemma config_env_vars_domain_witness :
  exists d,
    res (make_config_env_vars cuda_framework (demo_easyblock ∅ "" false) demo_state) = Ok d /\
    (is_Some (d !! "GCC_HOST_COMPILER_PATH") <-> "GCC_HOST_COMPILER_PATH" ∈ config_keys cuda_framework) /\
    length (trace (apply_env_vars d demo_state)) <= 21.
Proof.
  exists (config_env_vars cuda_framework (demo_easyblock ∅ "" false) demo_state).
  split; [reflexivity|].
  destruct (config_env_vars_domain cuda_framework (demo_easyblock ∅ "" false) demo_state
              _ eq_refl) as (Hkeys & Hlen & _).
  exact (conj (Hkeys "GCC_HOST_COMPILER_PATH") Hlen).
Defined.

Lemma config_env_vars_cuda_entries_witness :
  let fw := with_root demo_framework "CUDA" (Some "/opt/eb/CUDA") in
  exists d,
    res (make_config_env_vars fw (demo_easyblock ∅ "" false) demo_state) = Ok d /\
    d !! "TF_NEED_CUDA" = Some (Some "1") /\
    d !! "CUDA_TOOLKIT_PATH" = Some (Some "/opt/eb/CUDA") /\
    d !! "GCC_HOST_COMPILER_PATH" = Some (Some "/opt/eb/bin/gcc") /\
    d !! "TF_CUDA_COMPUTE_CAPABILITIES" = Some (Some "3.5,6.0") /\
    d !! "TF_CUDA_VERSION" = Some (Some "9.0.176").
Proof.
  intros fw.
  destruct (config_env_vars_cuda_entries fw (demo_easyblock ∅ "" false) demo_state eq_refl)
    as [_ Hset].
  destruct (Hset "gcc" eq_refl) as (d & Hd & H1 & H2 & H3 & H4 & H5 & _).
  exists d. exact (conj Hd (conj H1 (conj H2 (conj H3 (conj H4 H5))))).
Defined.

(** ** The checks of the build step *)

Section BuildStepChecks.

Variables (fw : framework) (self : easyblock) (s : state).

Let target : string := os_path_join (installdir self) [st_pylibdir s].

(** X12: the build step first creates the target directory, then checks the
    installation: without a root for binutils it raises the error for
    binutils, whatever else is missing; with one, but no root for GCCcore nor
    for GCC, it raises the error for GCC.  In both cases it has done nothing
    but create the directory. *)
Theorem build_step_prefix_errors :
  (truthy (get_software_root fw "binutils") = false ->
   build_step fw self s
   = mkOutcome (Raise (EasyBuildError "Failed to determine installation prefix for binutils" []))
               s [EvMkdir target true]) /\
  (truthy (get_software_root fw "binutils") = true ->
   truthy (py_or (get_software_root fw "GCCcore") (get_software_root fw "GCC")) = false ->
   build_step fw self s
   = mkOutcome (Raise (EasyBuildError "Failed to determine installation prefix for GCC" []))
               s [EvMkdir target true]).
Proof.
  split.
  - intros Hb. rewrite build_step_run, build_regex_subs_run, Hb. reflexivity.
  - intros Hb Hg. rewrite build_step_run, build_regex_subs_run, Hb.
    unfold locate_gcc.
    destruct (py_or (get_software_root fw "GCCcore") (get_software_root fw "GCC"))
      as [[|c r]|]; [reflexivity|done|reflexivity].
Qed.

(** X13: GCCcore is preferred to GCC: when the root of GCCcore resolves, the
    build step does not depend on the root of GCC; when it does not, the
    step is the one of an installation where GCCcore has the root of GCC. *)
Theorem build_step_prefers_gcccore :
  (truthy (get_software_root fw "GCCcore") = true ->
   forall root, build_step (with_root fw "GCC" root) self s = build_step fw self s) /\
  (truthy (get_software_root fw "GCCcore") = false ->
   build_step fw self s
   = build_step (with_root fw "GCCcore" (get_software_root fw "GCC")) self s).
Proof.
  split.
  - intros Hcore root. unfold build_step, build_regex_subs, locate_gcc, py_or.
    cbn. by rewrite Hcore.
  - intros Hcore. unfold build_step, build_regex_subs, locate_gcc, py_or.
    cbn. rewrite Hcore. by destruct (truthy (get_software_root fw "GCC")).
Qed.

End BuildStepChecks.

(** ** The directories derived from the include directory of GCC *)

Section DerivedDirectories.

Variables (fw : framework) (self : easyblock) (s : state).
Variables (gcc_root gcc_ver gcc_lib_inc : string).

Hypothesis binutils_found : truthy (get_software_root fw "binutils") = true.
Hypothesis gcc_found :
  py_or (get_software_root fw "GCCcore") (get_software_root fw "GCC") = Some gcc_root.
Hypothesis gcc_root_non_empty : gcc_root <> "".
Hypothesis gcc_version :
  py_or (get_software_version fw "GCCcore") (get_software_version fw "GCC") = Some gcc_ver.
Hypothesis single_match :
  glob_glob fw (os_path_join gcc_root ["lib"; "gcc"; "*"; gcc_ver; "include"]) = [gcc_lib_inc].

Let target : string := os_path_join (installdir self) [st_pylibdir s].
Let gcc_lib_inc_fixed : string := os_path_join (os_path_dirname gcc_lib_inc) ["include-fixed"].
Let gcc_cplusplus_inc : string := os_path_join gcc_root ["include"; "c++"; gcc_ver].

Lemma locate_gcc_derived :
  res (locate_gcc fw s)
  = if negb (os_path_exists fw gcc_lib_inc_fixed) then
      Raise (EasyBuildError "Derived directory %s does not exist"
                            [PyVal (Some gcc_lib_inc_fixed)])
    else if negb (os_path_exists fw gcc_cplusplus_inc) then
      Raise (EasyBuildError "Derived directory %s does not exist"
                            [PyVal (Some gcc_cplusplus_inc)])
    else Ok (os_path_join gcc_root ["lib64"], gcc_lib_inc, gcc_lib_inc_fixed,
             gcc_cplusplus_inc).
Proof.
  unfold locate_gcc. rewrite gcc_found, gcc_version.
  destruct gcc_root as [|c r]; [done|]. rewrite single_match.
  fold gcc_lib_inc_fixed gcc_cplusplus_inc.
  by destruct (os_path_exists fw gcc_lib_inc_fixed), (os_path_exists fw gcc_cplusplus_inc).
Qed.

(** X14: once the include directory of GCC is pinned down, the build step
    requires two directories derived from it: [include-fixed] in the
    directory that holds the include directory, then [include/c++/<version>]
    under the root of GCC.  It raises the error naming the first of them
    that does not exist, having only created the target directory. *)
Theorem build_step_derived_directories :
  (os_path_exists fw gcc_lib_inc_fixed = false ->
   build_step fw self s
   = mkOutcome (Raise (EasyBuildError "Derived directory %s does not exist"
                                      [PyVal (Some gcc_lib_inc_fixed)]))
               s [EvMkdir target true]) /\
  (os_path_exists fw gcc_lib_inc_fixed = true ->
   os_path_exists fw gcc_cplusplus_inc = false ->
   build_step fw self s
   = mkOutcome (Raise (EasyBuildError "Derived directory %s does not exist"
                                      [PyVal (Some gcc_cplusplus_inc)]))
               s [EvMkdir target true]).
Proof.
  split.
  - intros Hfixed.
    rewrite build_step_run, build_regex_subs_run, binutils_found, locate_gcc_derived, Hfixed.
    reflexivity.
  - intros Hfixed Hcpp.
    rewrite build_step_run, build_regex_subs_run, binutils_found, locate_gcc_derived,
      Hfixed, Hcpp.
    reflexivity.
Qed.

(** X15: a match of the form [<dir>/include] has its [include-fixed] beside
    it: when [<dir>/include-fixed] and the C++ directory exist, the
    directories of GCC are [<root>/lib64], [<dir>/include],
    [<dir>/include-fixed] and [<root>/include/c++/<version>]. *)
Theorem locate_gcc_include_fixed (dir : string) :
  gcc_lib_inc = dir +:+ "/include" ->
  ends_with_slash dir = false ->
  os_path_exists fw (dir +:+ "/include-fixed") = true ->
  os_path_exists fw gcc_cplusplus_inc = true ->
  res (locate_gcc fw s)
  = Ok (os_path_join gcc_root ["lib64"], dir +:+ "/include", dir +:+ "/include-fixed",
        gcc_cplusplus_inc).
Proof.
  intros Hinc Hdir Hfixed Hcpp. rewrite locate_gcc_derived.
  unfold gcc_lib_inc_fixed. rewrite Hinc, include_fixed_sibling by done.
  by rewrite Hfixed, Hcpp.
Qed.

(** X16: the text of the three rules the list starts with, when the checks
    pass.  The first puts the [bin] directory of binutils in place of
    [/usr/bin/] after [-B], followed by one [-L] flag for the [lib64] of GCC
    and, when the CUDA root resolves, one for the [lib64] of CUDA.  The
    second removes the declarations of builtin include directories there
    are.  The third declares, at the head of a toolchain block, the three
    directories of GCC and, when the CUDA root resolves, the include
    directory of CUDA, each as resolved by [resolve_path]. *)
Theorem build_regex_subs_initial_rules (regex_subs : list rule) :
  res (build_regex_subs fw self s) = Ok regex_subs ->
  let cuda_root := get_software_root fw "CUDA" in
  let binutils_bin := os_path_join (py_str (get_software_root fw "binutils")) ["bin"] in
  regex_subs !! 0
  = Some ("-B/usr/bin/",
          "-B" +:+ binutils_bin +:+ "/ -L" +:+ os_path_join gcc_root ["lib64"] +:+ "/" +:+
          (if truthy cuda_root
           then " -L" +:+ os_path_join (py_str cuda_root) ["lib64"] +:+ "/" else "")) /\
  regex_subs !! 1 = Some ("(cxx_builtin_include_directory:).*", "") /\
  regex_subs !! 2
  = Some ("^toolchain {",
          "toolchain {" +:+ newline +:+
          include_declaration fw gcc_lib_inc +:+ newline +:+
          include_declaration fw gcc_lib_inc_fixed +:+ newline +:+
          include_declaration fw gcc_cplusplus_inc +:+
          (if truthy cuda_root
           then newline +:+ include_declaration fw (os_path_join (py_str cuda_root) ["include"])
           else "")).
Proof.
  rewrite build_regex_subs_run, binutils_found, locate_gcc_derived.
  destruct (os_path_exists fw gcc_lib_inc_fixed); [|done].
  destruct (os_path_exists fw gcc_cplusplus_inc); [|done].
  cbn [negb]. destruct (List.find _ _); [done|].
  intros H. apply Ok_inj in H. subst regex_subs.
  unfold initial_regex_subs, include_declaration.
  cbn [fst snd app lookup list_lookup].
  destruct (truthy (get_software_root fw "CUDA")); cbn [app map str_join];
    repeat split; do 2 f_equal; str_norm; reflexivity.
Qed.

End DerivedDirectories.

(** ** The files the build step patches *)

Lemma omap_None {A B} (f : A -> option B) (l : list A) :
  Forall (fun x => f x = None) l -> omap f l = [].
Proof. induction 1 as [|x l Hx _ IH]; [done|]. cbn. by rewrite Hx. Qed.

Lemma omap_cons_None {A B} (f : A -> option B) (x : A) (l : list A) :
  f x = None -> omap f (x :: l) = omap f l.
Proof. intros H. cbn. by rewrite H. Qed.

(** The loop over the walk logs and patches, and does nothing else. *)
Lemma patch_events_only walk (regex_subs : list rule) :
  Forall (fun e => match e with
                   | EvLogInfo _ _ => True
                   | EvApplyRegexSubstitutions _ rules => rules = regex_subs
                   | _ => False
                   end) (patch_events walk regex_subs).
Proof.
  unfold patch_events. apply Forall_flat_map, Forall_forall. intros entry _.
  apply Forall_flat_map, Forall_forall. intros filename _.
  destruct (startswith "CROSSTOOL" filename); by repeat constructor.
Qed.

Lemma patched_files_patch_events walk (regex_subs : list rule) :
  patched_files (patch_events walk regex_subs) = crosstool_files walk.
Proof.
  unfold patched_files, patch_events, crosstool_files.
  induction walk as [|[[path dirnames] filenames] walk IH]; [done|].
  cbn [flat_map]. rewrite omap_app, IH. f_equal. cbn [fst snd]. clear IH.
  induction filenames as [|filename filenames IH]; [done|].
  cbn [flat_map List.filter]. rewrite omap_app, IH.
  by destruct (startswith "CROSSTOOL" filename).
Qed.

Section BuildStepEffects.

Variables (fw : framework) (self : easyblock) (s : state).

Let tmpdir : string := mkdtemp fw (st_tmp s) "-bazel-build".
Let bazel_build : string :=
  str_join " " (build_cmd self tmpdir (get_software_root fw "CUDA")).
Let build_pip_package : string :=
  "bazel-bin/tensorflow/tools/pip_package/build_pip_package " +:+ builddir self.

(** X17: the build step patches the files of the walk over the start
    directory whose name starts with [CROSSTOOL], each once, in the order of
    the walk, and no other file; every one of them is patched with the same
    rule list, the one just built.  When a check fails, no file is patched. *)
Theorem build_step_patched_files :
  match res (build_regex_subs fw self s) with
  | Ok regex_subs =>
      patched_files (trace (build_step fw self s))
      = crosstool_files (os_walk fw (start_dir self)) /\
      forall path rules,
        EvApplyRegexSubstitutions path rules ∈ trace (build_step fw self s) ->
        rules = regex_subs
  | Raise _ => patched_files (trace (build_step fw self s)) = []
  end.
Proof.
  rewrite build_step_run. destruct (res (build_regex_subs fw self s)) as [regex_subs|e]; [|done].
  cbn [trace]. split.
  - unfold patched_files. rewrite omap_cons_None, omap_app by done.
    fold (patched_files (patch_events (os_walk fw (start_dir self)) regex_subs)).
    rewrite patched_files_patch_events.
    destruct (run_cmd_ok fw (st_environ s) _); cbn; by rewrite app_nil_r.
  - intros path rules Hin. apply elem_of_cons in Hin as [Hin|Hin]; [done|].
    apply elem_of_app in Hin as [Hin|Hin].
    + pose proof (patch_events_only (os_walk fw (start_dir self)) regex_subs) as Hall.
      rewrite Forall_forall in Hall. exact (Hall _ Hin).
    + destruct (run_cmd_ok fw (st_environ s) _); cbn in Hin; elem_absurd Hin.
Qed.

(** X18: the commands of the build step.  When a check fails it runs none.
    Otherwise it runs the build with Bazel and, if that succeeds, the script
    that makes the wheel in the build directory; it runs nothing else, and
    it returns exactly when both succeed. *)
Theorem build_step_commands :
  match res (build_regex_subs fw self s) with
  | Ok _ =>
      commands (trace (build_step fw self s))
      = bazel_build ::
        (if run_cmd_ok fw (st_environ s) bazel_build then [build_pip_package] else []) /\
      (res (build_step fw self s) = Ok tt <->
       run_cmd_ok fw (st_environ s) bazel_build = true /\
       run_cmd_ok fw (st_environ s) build_pip_package = true)
  | Raise e =>
      res (build_step fw self s) = Raise e /\ commands (trace (build_step fw self s)) = []
  end.
Proof.
  rewrite build_step_run. destruct (res (build_regex_subs fw self s)) as [regex_subs|e]; [|done].
  cbn [trace res]. fold tmpdir bazel_build build_pip_package. split.
  - unfold commands. rewrite omap_cons_None, omap_app by done.
    rewrite (omap_None _ (patch_events _ _)).
    + by destruct (run_cmd_ok fw (st_environ s) bazel_build).
    + eapply Forall_impl; [apply patch_events_only|]. by intros [].
  - destruct (run_cmd_ok fw (st_environ s) bazel_build),
      (run_cmd_ok fw (st_environ s) build_pip_package); intuition congruence.
Qed.

Lemma build_step_final :
  st_environ (final (build_step fw self s)) = st_environ s /\
  st_python_cmd (final (build_step fw self s)) = st_python_cmd s /\
  st_pylibdir (final (build_step fw self s)) = st_pylibdir s.
Proof.
  rewrite build_step_run. by destruct (res (build_regex_subs fw self s)).
Qed.

(** X19: the build step leaves the environment and the attributes set by
    [prepare_python] as they are, however it ends: it sets no variable and
    writes no file of its own. *)
Theorem build_step_frame :
  st_environ (final (build_step fw self s)) = st_environ s /\
  st_python_cmd (final (build_step fw self s)) = st_python_cmd s /\
  st_pylibdir (final (build_step fw self s)) = st_pylibdir s /\
  setvar_keys (trace (build_step fw self s)) = [] /\
  written_files (trace (build_step fw self s)) = [].
Proof.
  destruct build_step_final as (Henv & Hpy & Hlib). repeat split; [done..| |];
    rewrite build_step_run;
    (destruct (res (build_regex_subs fw self s)) as [regex_subs|e]; [|done]); cbn [trace].
  - unfold setvar_keys. rewrite omap_cons_None, omap_app by done.
    rewrite (omap_None _ (patch_events _ _)).
    + by destruct (run_cmd_ok fw (st_environ s) _).
    + eapply Forall_impl; [apply patch_events_only|]. by intros [].
  - unfold written_files. rewrite omap_cons_None, omap_app by done.
    rewrite (omap_None _ (patch_events _ _)).
    + by destruct (run_cmd_ok fw (st_environ s) _).
    + eapply Forall_impl; [apply patch_events_only|]. by intros [].
Qed.

(** X20: the command line of the build, as one string: the fixed options,
    [--copt="-fPIC"] with [pic], the build options of the easyconfig,
    [--config=cuda] when the CUDA root resolves, [--config=mkl] with
    [with_mkl_dnn], and the target, separated by single spaces.  The build
    options are always an argument of their own, so that empty build options
    leave two spaces in a row. *)
Theorem build_step_command_line (regex_subs : list rule) :
  res (build_regex_subs fw self s) = Ok regex_subs ->
  EvRunCmd
    ("bazel --output_base=" +:+ tmpdir +:+
     " build --compilation_mode=opt --config=opt --subcommands --verbose_failures " +:+
     (if pic self then copt_fPIC +:+ " " else "") +:+
     buildopts (cfg self) +:+ " " +:+
     (if truthy (get_software_root fw "CUDA") then "--config=cuda " else "") +:+
     (if with_mkl_dnn (cfg self) then "--config=mkl " else "") +:+
     "//tensorflow/tools/pip_package:build_pip_package")
    ∈ trace (build_step fw self s).
Proof.
  intros Hrules.
  pose proof (build_step_runs_build_cmd fw self s regex_subs Hrules) as Hrun.
  rewrite build_cmd_parts in Hrun.
  destruct (pic self), (truthy (get_software_root fw "CUDA")), (with_mkl_dnn (cfg self));
    cbn [app str_join] in Hrun; unfold copt_fPIC, dquote in *;
    match type of Hrun with EvRunCmd ?a ∈ _ =>
      match goal with |- EvRunCmd ?b ∈ _ =>
        replace b with a; [exact Hrun|str_norm; reflexivity]
      end
    end.
Qed.

End BuildStepEffects.

Lemma build_step_prefix_errors_witness :
  res (build_step (with_root demo_framework "binutils" None) (demo_easyblock ∅ "" false)
         demo_state)
  = Raise (EasyBuildError "Failed to determine installation prefix for binutils" []) /\
  res (build_step (with_root demo_framework "GCCcore" (Some "")) (demo_easyblock ∅ "" false)
         demo_state)
  = Raise (EasyBuildError "Failed to determine installation prefix for GCC" []).
Proof.
  split.
  - rewrite (proj1 (build_step_prefix_errors (with_root demo_framework "binutils" None)
                      (demo_easyblock ∅ "" false) demo_state) eq_refl).
    reflexivity.
  - rewrite (proj2 (build_step_prefix_errors (with_root demo_framework "GCCcore" (Some ""))
                      (demo_easyblock ∅ "" false) demo_state) eq_refl eq_refl).
    reflexivity.
Defined.

Lemma build_step_prefers_gcccore_witness :
  build_step (with_root demo_framework "GCC" (Some "/opt/eb/GCC")) (demo_easyblock ∅ "" false)
    demo_state
  = build_step demo_framework (demo_easyblock ∅ "" false) demo_state.
Proof.
  exact (proj1 (build_step_prefers_gcccore demo_framework (demo_easyblock ∅ "" false)
                  demo_state) eq_refl (Some "/opt/eb/GCC")).
Defined.

Lemma build_step_derived_directories_witness :
  build_step no_include_fixed_framework (demo_easyblock ∅ "" false) demo_state
  = mkOutcome
      (Raise (EasyBuildError "Derived directory %s does not exist"
                [PyVal (Some "/opt/eb/GCCcore/lib/gcc/x86_64-pc-linux-gnu/6.4.0/include-fixed")]))
      demo_state [EvMkdir "/inst/lib/python2.7/site-packages" true].
Proof.
  assert (Hne : "/opt/eb/GCCcore" <> "") by discriminate.
  exact (proj1 (build_step_derived_directories no_include_fixed_framework
                  (demo_easyblock ∅ "" false) demo_state "/opt/eb/GCCcore" "6.4.0"
                  "/opt/eb/GCCcore/lib/gcc/x86_64-pc-linux-gnu/6.4.0/include"
                  eq_refl eq_refl Hne eq_refl eq_refl) eq_refl).
Defined.

Lemma locate_gcc_include_fixed_witness :
  res (locate_gcc demo_framework demo_state)
  = Ok ("/opt/eb/GCCcore/lib64",
        "/opt/eb/GCCcore/lib/gcc/x86_64-pc-linux-gnu/6.4.0" +:+ "/include",
        "/opt/eb/GCCcore/lib/gcc/x86_64-pc-linux-gnu/6.4.0" +:+ "/include-fixed",
        "/opt/eb/GCCcore/include/c++/6.4.0").
Proof.
  assert (Hne : "/opt/eb/GCCcore" <> "") by discriminate.
  exact (locate_gcc_include_fixed demo_framework demo_state "/opt/eb/GCCcore" "6.4.0"
           "/opt/eb/GCCcore/lib/gcc/x86_64-pc-linux-gnu/6.4.0/include"
           eq_refl Hne eq_refl eq_refl
           "/opt/eb/GCCcore/lib/gcc/x86_64-pc-linux-gnu/6.4.0" eq_refl eq_refl eq_refl eq_refl).
Defined.

Lemma build_regex_subs_initial_rules_witness :
  let fw := with_root demo_framework "CUDA" (Some "/opt/eb/CUDA") in
  exists regex_subs,
    res (build_regex_subs fw (demo_easyblock ∅ "" false) demo_state) = Ok regex_subs /\
    regex_subs !! 0
    = Some ("-B/usr/bin/",
            "-B/opt/eb/binutils/bin/ -L/opt/eb/GCCcore/lib64/ -L/opt/eb/CUDA/lib64/").
Proof.
  intros fw.
  assert (Hne : "/opt/eb/GCCcore" <> "") by discriminate.
  destruct (res (build_regex_subs fw (demo_easyblock ∅ "" false) demo_state))
    as [regex_subs|e] eqn:Hres; [|by vm_compute in Hres].
  exists regex_subs. split; [reflexivity|].
  exact (proj1 (build_regex_subs_initial_rules fw (demo_easyblock ∅ "" false) demo_state
                  "/opt/eb/GCCcore" "6.4.0"
                  "/opt/eb/GCCcore/lib/gcc/x86_64-pc-linux-gnu/6.4.0/include"
                  eq_refl eq_refl Hne eq_refl eq_refl regex_subs Hres)).
Defined.

Lemma build_step_command_line_witness :
  EvRunCmd
    ("bazel --output_base=/tmp/eb-bazel-build build --compilation_mode=opt --config=opt "
     +:+ "--subcommands --verbose_failures  --config=mkl "
     +:+ "//tensorflow/tools/pip_package:build_pip_package")
    ∈ trace (build_step demo_framework (demo_easyblock ∅ "" false) demo_state).
Proof.
  destruct (res (build_regex_subs demo_framework (demo_easyblock ∅ "" false) demo_state))
    as [regex_subs|e] eqn:Hres; [|by vm_compute in Hres].
  exact (build_step_command_line demo_framework (demo_easyblock ∅ "" false) demo_state
           regex_subs Hres).
Defined.

(** ** What the install step keeps *)

Lemma install_step_keeps_environ fw self :
  keeps (environ_frame ["PYTHONPATH"]) (install_step fw self).
Proof.
  unfold install_step. repeat keeps_step; try (by intros st k Hk).
  intros st v. apply environ_frame_setvar. left.
Qed.

Lemma install_step_keeps_python fw self : keeps same_python (install_step fw self).
Proof.
  unfold install_step. repeat keeps_step; by intros st.
Qed.

Lemma install_step_emits fw self : emits install_event (install_step fw self).
Proof.
  unfold install_step, run_cmd, env_setvar, os_getenv, tempfile_mkdtemp.
  repeat emits_step; done.
Qed.

(** X21: the install step changes no variable of the environment other than
    [PYTHONPATH], and leaves the attributes set by [prepare_python] as they
    are, however it ends; all it does is to run commands, to ask for
    temporary directories and to set [PYTHONPATH]. *)
Theorem install_step_frame (fw : framework) (self : easyblock) (s : state) :
  (forall k, k <> "PYTHONPATH" ->
     st_environ (final (install_step fw self s)) !! k = st_environ s !! k) /\
  st_python_cmd (final (install_step fw self s)) = st_python_cmd s /\
  st_pylibdir (final (install_step fw self s)) = st_pylibdir s /\
  Forall install_event (trace (install_step fw self s)).
Proof.
  split; [|split; [|split]].
  - intros k Hk. apply (install_step_keeps_environ fw self s).
    intros Hin. apply elem_of_cons in Hin as [->|Hin]; [done|by apply elem_of_nil in Hin].
  - apply (install_step_keeps_python fw self s).
  - apply (install_step_keeps_python fw self s).
  - apply install_step_emits.
Qed.

(** X22: when the one wheel found cannot be installed, the install step
    raises after that command: it has set no variable and run no example,
    also with [runtest]. *)
Theorem install_step_pip_failure (fw : framework) (self : easyblock) (s : state) (whl : string) :
  glob_glob fw (os_path_join (builddir self) ["tensorflow-" +:+ version self +:+ "-*.whl"])
    = [whl] ->
  let cmd := "pip install --ignore-installed --prefix=" +:+ installdir self +:+ " " +:+ whl in
  run_cmd_ok fw (st_environ s) cmd = false ->
  (exists e, res (install_step fw self s) = Raise e) /\
  final (install_step fw self s) = s /\
  trace (install_step fw self s) = [EvRunCmd cmd].
Proof.
  intros Hglob cmd Hfail. unfold install_step. rewrite Hglob. run. fold cmd.
  rewrite Hfail. by repeat split; [eexists|..].
Qed.

(** ** The steps one after the other *)

Section Lifecycle.

Variables (fw : framework) (self : easyblock) (s : state) (py lib : string).
Variable parent_sanity_check_step : custom_paths -> list string -> M unit.

Hypothesis python_found : pick_python fw = inr (py, lib).

(** The configure step got as far as running [./configure]: it went through
    the loop over the dictionary. *)
Hypothesis configured : EvRunCmd "./configure" ∈ trace (configure_step fw self s).

(** The states between the steps, run in the order of the framework. *)
Let s1 : state := final (configure_step fw self s).
Let s2 : state := final (build_step fw self s1).
Let s3 : state := final (test_step s2).
Let s4 : state := final (install_step fw self s3).

Let libdir : string := os_path_join (installdir self) [lib].
Let whl_pattern : string :=
  os_path_join (builddir self) ["tensorflow-" +:+ version self +:+ "-*.whl"].
Let pip_install (whl : string) : string :=
  "pip install --ignore-installed --prefix=" +:+ installdir self +:+ " " +:+ whl.

Lemma lifecycle_states :
  (st_python_cmd s3 = Some py /\ st_pylibdir s3 = lib) /\
  (st_python_cmd s4 = Some py /\ st_pylibdir s4 = lib) /\
  st_environ s3 !! "PYTHONPATH" = st_environ s !! "PYTHONPATH".
Proof.
  destruct (configure_step_python_exports fw self s py lib python_found configured)
    as (_ & _ & _ & _ & Hpy1 & Hlib1).
  destruct (build_step_final fw self s1) as (Henv2 & Hpy2 & Hlib2).
  destruct (install_step_keeps_python fw self s3) as [Hpy4 Hlib4].
  change s3 with s2 in *. fold s1 in Hpy1, Hlib1. fold s2 in Henv2, Hpy2, Hlib2.
  fold s4 in Hpy4, Hlib4.
  repeat split; try congruence.
  rewrite Henv2.
  apply (configure_step_keeps fw self ("PATH" :: base_keys ++ cuda_keys ++ cudnn_keys)).
  - intros _. left.
  - intros k Hk. by right.
  - intros Hin. unfold base_keys, cuda_keys, cudnn_keys in Hin. cbn [app] in Hin.
    elem_absurd Hin.
Qed.

(** X23: one directory through the steps, after a configure step that got
    as far as running [./configure].  The directory exported as
    [PYTHON_LIB_PATH] by the configure step, i.e. the library directory found
    by [prepare_python] under the installation directory, is the one the
    build step creates, the one the install step puts in front of the
    [PYTHONPATH] the configure step started with, and, relative to the
    installation, the one the sanity check asks for. *)
Theorem lifecycle_library_directory :
  (EvSetvar "PYTHON_LIB_PATH" (Some libdir) ∈ trace (configure_step fw self s) /\
   st_environ s1 !! "PYTHON_LIB_PATH" = Some libdir) /\
  (exists rest, trace (build_step fw self s1) = EvMkdir libdir true :: rest) /\
  (runtest (cfg self) = true ->
   forall whl,
     glob_glob fw whl_pattern = [whl] ->
     run_cmd_ok fw (st_environ s3) (pip_install whl) = true ->
     EvSetvar "PYTHONPATH"
       (Some (libdir +:+ ":" +:+ default "" (st_environ s !! "PYTHONPATH")))
       ∈ trace (install_step fw self s3)) /\
  (exists custom_commands,
     sanity_check_step parent_sanity_check_step s4
     = parent_sanity_check_step {| files := ["bin/tensorboard"]; dirs := [lib] |}
                                custom_commands s4).
Proof.
  destruct lifecycle_states as ((Hpy3 & Hlib3) & (Hpy4 & Hlib4) & Hpp).
  destruct (configure_step_python_exports fw self s py lib python_found configured)
    as (_ & Hev & _ & Henv & Hpy1 & Hlib1).
  split; [|split; [|split]].
  - done.
  - rewrite build_step_run. fold s1 in Hlib1. rewrite Hlib1. fold libdir.
    destruct (res (build_regex_subs fw self s1)); by eexists.
  - intros Hrt whl Hglob Hpip.
    pose proof (install_step_with_runtest fw self s3 whl Hrt Hglob Hpip) as Hrun.
    cbv zeta in Hrun. destruct Hrun as [_ ->]. rewrite Hlib3, Hpp. fold libdir.
    apply elem_of_app. left. right. left.
  - exists [ py_str (st_python_cmd s4) +:+ " -c 'import tensorflow'";
             py_str (st_python_cmd s4) +:+
             " -c 'from tensorflow.python.util import tf_should_use'" ].
    unfold sanity_check_step. run. rewrite Hlib4.
    by destruct (parent_sanity_check_step _ _ s4).
Qed.

(** X24: one interpreter through the steps, after a configure step that got
    as far as running [./configure].  The interpreter exported as
    [PYTHON_BIN_PATH] by the configure step, the one found by
    [prepare_python], is the one that runs the examples in the install step
    and the two import tests handed to the sanity check. *)
Theorem lifecycle_interpreter :
  (EvSetvar "PYTHON_BIN_PATH" (Some py) ∈ trace (configure_step fw self s) /\
   st_environ s1 !! "PYTHON_BIN_PATH" = Some py) /\
  (runtest (cfg self) = true ->
   forall whl,
     glob_glob fw whl_pattern = [whl] ->
     run_cmd_ok fw (st_environ s3) (pip_install whl) = true ->
     EvRunCmd (py +:+ " " +:+
               os_path_join (start_dir self)
                 ["tensorflow"; "examples"; "tutorials"; "mnist"; "mnist_softmax.py"] +:+
               " --data_dir " +:+ mkdtemp fw (st_tmp s3) "-tf-mnist_softmax-test")
       ∈ trace (install_step fw self s3)) /\
  (exists paths,
     sanity_check_step parent_sanity_check_step s4
     = parent_sanity_check_step paths
         [ py +:+ " -c 'import tensorflow'";
           py +:+ " -c 'from tensorflow.python.util import tf_should_use'" ] s4).
Proof.
  destruct lifecycle_states as ((Hpy3 & Hlib3) & (Hpy4 & Hlib4) & Hpp).
  split; [|split].
  - by destruct (configure_step_python_exports fw self s py lib python_found configured)
      as (Hev & _ & Henv & _).
  - intros Hrt whl Hglob Hpip.
    pose proof (install_step_with_runtest fw self s3 whl Hrt Hglob Hpip) as Hrun.
    cbv zeta in Hrun. destruct Hrun as [_ ->]. rewrite Hpy3. cbn [py_str].
    apply elem_of_app. left. do 3 right. left.
  - exists {| files := ["bin/tensorboard"]; dirs := [st_pylibdir s4] |}.
    unfold sanity_check_step. run. rewrite Hpy4. cbn [py_str].
    by destruct (parent_sanity_check_step _ _ s4).
Qed.

End Lifecycle.

Lemma install_step_pip_failure_witness :
  final (install_step failing_pip_framework (demo_easyblock ∅ "" true) demo_state) = demo_state /\
  trace (install_step failing_pip_framework (demo_easyblock ∅ "" true) demo_state)
  = [EvRunCmd ("pip install --ignore-installed --prefix=/inst "
               +:+ "/build/tensorflow-1.4.0-cp27-none-linux_x86_64.whl")].
Proof.
  destruct (install_step_pip_failure failing_pip_framework (demo_easyblock ∅ "" true)
              demo_state "/build/tensorflow-1.4.0-cp27-none-linux_x86_64.whl"
              eq_refl eq_refl) as (_ & Hfinal & Htrace).
  split; [exact Hfinal|exact Htrace].
Defined.

Lemma lifecycle_library_directory_witness :
  let self := demo_easyblock ∅ "" true in
  let s1 := final (configure_step demo_framework self demo_state) in
  let s3 := final (test_step (final (build_step demo_framework self s1))) in
  EvSetvar "PYTHON_LIB_PATH" (Some "/inst/lib/python2.7/site-packages")
    ∈ trace (configure_step demo_framework self demo_state) /\
  st_environ s1 !! "PYTHON_LIB_PATH" = Some "/inst/lib/python2.7/site-packages" /\
  (exists rest,
     trace (build_step demo_framework self s1)
     = EvMkdir "/inst/lib/python2.7/site-packages" true :: rest) /\
  EvSetvar "PYTHONPATH" (Some "/inst/lib/python2.7/site-packages:")
    ∈ trace (install_step demo_framework self s3).
Proof.
  intros self s1 s3.
  assert (Hconf : EvRunCmd "./configure" ∈ trace (configure_step demo_framework self demo_state)).
  { vm_compute. repeat constructor. }
  destruct (lifecycle_library_directory demo_framework self demo_state
              "/opt/eb/bin/python" "lib/python2.7/site-packages" (fun _ _ => ret tt)
              eq_refl Hconf) as ((Hev & Henv) & Hbuild & Hinst & _).
  split; [exact Hev|]. split; [exact Henv|]. split; [exact Hbuild|].
  exact (Hinst eq_refl "/build/tensorflow-1.4.0-cp27-none-linux_x86_64.whl" eq_refl eq_refl).
Defined.

Lemma lifecycle_interpreter_witness :
  let self := demo_easyblock ∅ "" true in
  let s1 := final (configure_step demo_framework self demo_state) in
  let s3 := final (test_step (final (build_step demo_framework self s1))) in
  EvSetvar "PYTHON_BIN_PATH" (Some "/opt/eb/bin/python")
    ∈ trace (configure_step demo_framework self demo_state) /\
  st_environ s1 !! "PYTHON_BIN_PATH" = Some "/opt/eb/bin/python" /\
  EvRunCmd ("/opt/eb/bin/python /src/tensorflow/examples/tutorials/mnist/mnist_softmax.py"
            +:+ " --data_dir /tmp/eb-tf-mnist_softmax-test")
    ∈ trace (install_step demo_framework self s3).
Proof.
  intros self s1 s3.
  assert (Hconf : EvRunCmd "./configure" ∈ trace (configure_step demo_framework self demo_state)).
  { vm_compute. repeat constructor. }
  destruct (lifecycle_interpreter demo_framework self demo_state
              "/opt/eb/bin/python" "lib/python2.7/site-packages" (fun _ _ => ret tt)
              eq_refl Hconf) as ((Hev & Henv) & Hinst & _).
  split; [exact Hev|]. split; [exact Henv|].
  exact (Hinst eq_refl "/build/tensorflow-1.4.0-cp27-none-linux_x86_64.whl" eq_refl eq_refl).
Defined.
